(* ===== verification/_CoqProject ===== *)
-Q . S2P
Prelude.v
Config.v
Paths.v
Excepts.v
Tokenizer.v
Chunker.v
StableSort.v
ListSort.v
Store.v
Providers.v
Ranker.v
Cosine.v
State.v
Ingest.v
Query.v
Api.v
Pipeline.v
