(* ===== verification/Prelude.v ===== *)
(** * A verification development of rag-for-pdfs

    The program is a small retrieval-augmented question answering service
    written in Python.  An uploaded PDF is saved to disk ([src/main.py],
    [upload]); [/create-embeddings] ([get_embedding_table]) runs
    [generate_embeddings] of [src/create_embeddings.py], which extracts the
    PDF's text, deletes the PDF, cuts the text into chunks of at most
    [MAX_TOKENS] tokens, embeds them in batches through OpenAI and stores
    one record per ingestion in a MongoDB collection;
    [/get-query-response] ([predict_response]) is meant to run
    [get_query_response] of [src/ai-compendium/api/predict_response.py],
    which ranks the stored chunks of a document by similarity to the
    query, assembles a prompt within a token budget and asks the chat model.

    Files, in dependency order, and what they model:
    - [Prelude.v] (this file): Python strings as [list ascii] ([str]),
      [str.split] ([py_split]) and [str.join] ([py_join]); the exceptions
      the program raises or lets escape ([py_error]); the [result] monad
      that carries them, a writer monad for printed lines, and the state
      and error monad [pyst] in which the handlers run (the state survives
      a raise, as the disk and the database do); the hint databases
      [pyrag] and [pyrag_rw] and the tactics [pysimpl] and [pyst_run].
    - [Config.v]: the constants of [src/config.py], the pydantic records
      of [src/io_models.py], and the module body of
      [src/ai-compendium/__init__.py] ([package_init]: the API key put in
      the environment, the coordinates of the collection handle).
    - [Paths.v]: paths as [upload] builds them ([pure_path_str], the
      [str] of a [pathlib.PurePosixPath]) and as the kernel resolves them
      ([os_normpath], [os.path.normpath], exact when no symbolic link is
      involved), and the directories every host has ([is_dir_key]).
    - [Excepts.v]: [src/ai-compendium/business_excepts.py]:
      [BusinessException] and its [__str__], with Python's [repr] of a
      [str] written out ([py_repr]) and a reader of the literals it prints
      ([py_unrepr], Python's lexer for string literals); [custom_except] as writes to the namespace of the
      class object [InferenceOutput] (a [gmap] threaded as state), and the
      field types of the pydantic model ([conforms]).
    - [Tokenizer.v]: [num_tokens] and [truncated_string] of
      [src/create_embeddings.py] against the class [Tiktoken], the
      interface of the [tiktoken] library (a model name gives an
      [encode]/[decode] pair); the law a real tokenizer is expected to
      satisfy for truncation to bound the count is the class
      [TruncationLaw]; the character-level tokenizer [char_tiktoken]
      satisfies it and runs the witnesses.
    - [Chunker.v]: [halved_by_delimiter], [split_strings_into_chunks] (its
      delimiter loop is [split_on_delimiters]) and [split_into_chunks] (its
      section loop is [split_sections]), the printed lines kept as the
      writer's log.
    - [StableSort.v]: the contract of [list.sort(key=..., reverse=True)]:
      reverse, stable ascending sort (insertion sort, [sort_asc]),
      reverse ([sort_desc]); its uniqueness.
    - [ListSort.v]: [list.sort] as CPython (up to 3.12) runs it
      ([Objects/listobject.c], [list_sort_impl]): for fewer than
      [MIN_MERGE] = 64 elements one natural run ([count_run], a strictly
      descending run reversed) extended by [binarysort] (bisection, each
      element inserted after its equals); for longer lists the merging of
      runs is not written out and the stable-sort contract stands for it.
      [list_sort_desc] is [reverse=True]; the ranker sorts with it.
    - [Store.v]: the MongoDB collection as the list of its records in
      insertion order, [insert_one] and [find].
    - [Providers.v]: the OpenAI client as two classes, [EmbeddingAPI]
      ([openai.Embedding.create]) and [ChatAPI]
      ([openai.ChatCompletion.create]), whose calls may fail.
    - [Ranker.v]: [strings_ranked_by_similarity] and [query_message]; the
      embedding type, the score type with its [<] and the relatedness
      function are parameters.
    - [Cosine.v]: the default relatedness [1 - scipy cosine] on IEEE
      doubles (Rocq's primitive floats), with [scipy]'s and [numpy]'s
      arithmetic written out as they compute it.
    - [State.v]: the service state: files on disk (a [gmap] from path to
      content), the collection, and stdout; its primitive operations.
    - [Ingest.v]: [generate_embeddings], [convert_to_text],
      [create_embeddings_from_text] and [create_embedding] (batch loop,
      index assertion, [pd.DataFrame] column check, record insert) over the
      service state.
    - [Query.v]: [get_query_response].
    - [Api.v]: the four handlers of [src/main.py], the dispatch [handle],
      the step relation [step] of the service and the states [reachable]
      from an empty service, and [eventually], the states from which some
      sequence of requests reaches a property.
    - [Pipeline.v]: the two halves composed: the state [ingested] after an
      upload and [/create-embeddings], and the query functions of
      [predict_response.py] run on the collection it leaves.

    Theorems, by group (the claim ids of the manifest):
    - Chunker (C1-C11): every chunk is within the token budget (under the
      truncation law); when nothing is truncated the chunks with the
      delimiters put back rebuild the input; every printed warning reports
      a real truncation; the cut of [halved_by_delimiter] rebuilds the
      input and is the first local minimum of the distance to half the
      tokens; a section gives between 1 and [2 ^ max_recursion] chunks,
      and at least as many as its token count requires (for a tokenizer
      whose counts are subadditive, the class [SubadditiveTokens]); for a
      whole document, the chunks are within budget and form one group per
      section of [text.split("\n\n\n")], each group rebuilding its own
      section.  Termination (C10): the recursion ends before its depth
      bound is used up, since every half is strictly shorter than its
      input.  C11: a long section that starts with a blank line and holds
      no [". "] is truncated, never split (the scan of
      [halved_by_delimiter] stops at the empty first piece).
    - Ranker (C12-C15): a successful ranking is a stable top-n selection
      of the first record's chunks by non-increasing score (a refinement
      of the contract [stable_top_n]); exactly when the ranking raises,
      and with which exception; the prompt is the greedy longest prefix of
      ranked articles that fits, and fits unless it holds no article.
    - Ingest (C16-C20): for any provider, the batch loop succeeds exactly
      when every batch call succeeds with items numbered from 0, and then
      returns their embeddings in batch order, the batches covering the
      chunks in order; the index assertion passes exactly when the items
      returned are numbered [0 .. n-1], whatever their number; with an
      index-faithful provider [create_embedding] stores exactly one record
      with ids [0 .. n-1] (refinement); a raise only prints; the uploaded
      PDF is consumed before embedding.
    - Query (C21-C23): the answer is the translated first choice;
      re-ingestion never changes answers; an unknown document raises
      [IndexError].
    - Api (C24-C31): end to end, ingesting an uploaded PDF with a faithful
      provider yields exactly the state computed from [split_into_chunks]
      of its text; the chunk-id invariant holds in every reachable state
      (rule induction on [reachable]); the collection is append-only;
      [/create-embeddings] answers 200 exactly when one record was stored;
      a provider that returns too few embeddings gets a 400 client error;
      [/get-query-response] always answers 500 ([NameError] on [doc_id]);
      uploads escape [pdfs/] (C30): in any state, an upload named [../f]
      creates or overwrites the file [f] of the working directory, since
      filenames are not sanitised; liveness (C31): from any state,
      uploading a PDF and asking [/create-embeddings] for the path the
      upload answered stores its chunks under any [doc_id] (for a file
      name that does not resolve to a directory; one that does makes
      [upload] raise [IsADirectoryError], answered 500 by FastAPI).
    - Pipeline (C32-C33): after the first ingestion of a PDF, ranking a
      query against it scores exactly the chunks [split_into_chunks] cut
      from its text and never raises (a refinement of the ranking by the
      chunker's output); [get_query_response] then sends the prompt built
      from those chunks, on every branch of the chat call.
    - Excepts (C34-C36): [custom_except] leaves [InferenceOutput] with a
      [data] that violates the model's [str] type, whatever the class
      held; the [repr] a [BusinessException] prints is a Python string
      literal (read by [py_unrepr], Python's lexer for such literals) that
      reads back to its value, and is made of printable characters only.
    - Chunker (C37): the length check of [split_strings_into_chunks]
      counts with the answering model whatever [model] it is given, so its
      chunks can exceed [max_tokens] under the tokenizer of [model].

    Supporting results that are not about the repository's code but about
    the libraries it calls: any stable sort agrees with [sort_desc]
    ([StableSort.sort_desc_unique]); CPython's [list.sort] of a list under
    64 elements is the stable insertion sort under a strict weak order
    ([ListSort.py_list_sort_stable_sort]), so the ranker's
    [list_sort_desc] is [sort_desc] and C12-C15 are about the sort the
    code runs; the ranking example of the spec runs on doubles with the
    default relatedness ([Cosine.strings_ranked_by_similarity_spec_example]).

    Bounds and fuel: [py_split] runs on fuel [length s]; every step
    consumes at least one character of a non-empty separator, so any fuel
    of at least [length s] gives the same result ([py_split_go_enough]).  [split_strings_into_chunks] recurses
    structurally on [max_recursion] (a Python [int], always called with
    the default [5]; modelled as [nat]); any bound of at least the length
    of the text gives the same result
    ([split_strings_into_chunks_depth_enough]), so the depth is a fuel that
    never runs out there.  Token counts, budgets and list
    indices are [nat]: Python ints that are never negative here and have
    no width, so no wrap-around is modelled.  Status codes are [Z].

    Not modelled: PDF text extraction ([pdftotext]; a PDF on disk is the
    list of its pages' text), FastAPI's routing, validation and
    serialisation, the MongoDB and OpenAI clients beyond the calls the code
    makes, the merging of runs of CPython's timsort for lists of 64
    chunks or more (its contract, a stable sort, stands for it), the
    ordering theorems for float scores (they are stated for a score type
    whose [<] is a strict weak order, which excludes the NaN score a zero
    embedding gets; [Cosine.v] runs the sort on such scores and shows the
    best chunk ranked last), the connection the
    MongoDB client opens (only its coordinates are kept), [repr] of code
    points above U+00FF (a [str] here holds one byte per character), and
    the host's file system beyond what the program can rely on: the disk
    is a map from resolved paths to contents, the only directories are
    [pdfs] (which [upload] creates), the working directory, its ancestors
    and the root; a missing parent directory, another directory of the
    host, symbolic links and permissions are not modelled (a file under a
    subdirectory of [pdfs/] is written as if the directory existed).  Every
    [print] of the program is modelled, as a line appended to what was
    printed before (the state's stdout for the handlers).
*)

From stdpp Require Export base list strings decidable.
From Stdlib Require Export Ascii ZArith Lia.

Declare Scope py_scope.
Delimit Scope py_scope with py.

(** A Python [str] is a list of characters. *)
Abbreviation str := (list ascii).

Definition NL : ascii := "010"%char.

(** A string literal of the source, e.g. [lit ". "]. *)
Definition lit (s : string) : str := String.list_ascii_of_string s.

(** ** [sep.join(pieces)] *)
Fixpoint py_join (sep : str) (pieces : list str) : str :=
  match pieces with
  | [] => []
  | [x] => x
  | x :: rest => x ++ sep ++ py_join sep rest
  end.

(** ** [s.split(sep)] for a non-empty [sep]: cut at every non-overlapping
    occurrence of [sep], scanning left to right.  The fuel bounds the
    number of characters consumed; [length s] is enough. *)
Fixpoint py_split_go (sep : str) (fuel : nat) (s : str) : list str :=
  match fuel with
  | 0 => [s]
  | S f =>
      match s with
      | [] => [[]]
      | c :: s' =>
          if decide (prefix sep s) then [] :: py_split_go sep f (drop (length sep) s)
          else match py_split_go sep f s' with
               | p :: ps => (c :: p) :: ps
               | [] => [[c]]
               end
      end
  end.

Definition py_split (sep s : str) : list str := py_split_go sep (length s) s.

(** ** Exceptions and the result monad *)
Inductive py_error :=
  | ValueError (msg : str)
  | IndexError (msg : str)
  | NameError (name : str)
  | AssertionError
  | FileNotFoundError (path : str)
  | IsADirectoryError (path : str)
  | PdfError (msg : str)
  | ProviderError (msg : str).

#[export] Instance py_error_eq_dec : EqDecision py_error.
Proof. solve_decision. Defined.

Inductive result (A : Type) :=
  | Ok (a : A)
  | Raise (e : py_error).
Arguments Ok {A} a.
Arguments Raise {A} e.

#[export] Instance result_ret : MRet result := fun A x => Ok x.
#[export] Instance result_bind : MBind result :=
  fun A B f m => match m with Ok x => f x | Raise e => Raise e end.

(** ** The writer monad for printed lines *)
Definition writer (L A : Type) : Type := (A * list L)%type.

#[export] Instance writer_ret {L} : MRet (writer L) := fun A x => (x, []).
#[export] Instance writer_bind {L} : MBind (writer L) :=
  fun A B f m => let '(x, w1) := m in let '(y, w2) := f x in (y, w1 ++ w2).

Definition tell {L} (l : L) : writer L unit := (tt, [l]).

Create HintDb pyrag.
Create Rewrite HintDb pyrag_rw.

(** ** Lemmas on [str.join] and [str.split] *)

Lemma py_split_go_not_nil sep n s : py_split_go sep n s ≠ [].
Proof.
  destruct n, s; simpl; try done.
  case_decide; [done|]. by destruct (py_split_go _ _ _).
Qed.

Lemma py_split_not_nil sep s : py_split sep s ≠ [].
Proof. apply py_split_go_not_nil. Qed.

Lemma py_join_cons sep x l : l ≠ [] → py_join sep (x :: l) = x ++ sep ++ py_join sep l.
Proof. by destruct l. Qed.

Lemma py_join_cons_char sep c p ps :
  py_join sep ((c :: p) :: ps) = c :: py_join sep (p :: ps).
Proof. by destruct ps. Qed.

#[export] Hint Resolve py_split_go_not_nil py_split_not_nil : pyrag.
#[export] Hint Rewrite py_join_cons_char : pyrag_rw.

(** Joining the pieces of a split gives back the string, whatever the fuel. *)
Lemma py_join_split_go sep n s : sep ≠ [] → py_join sep (py_split_go sep n s) = s.
Proof.
  intros Hsep. revert s. induction n as [|n IH]; intros s; [done|].
  destruct s as [|c s']; [done|]. simpl. case_decide as Hp.
  - rewrite py_join_cons by auto with pyrag. rewrite IH.
    destruct Hp as [t Ht]. by rewrite Ht, drop_app_length.
  - specialize (IH s').
    destruct (py_split_go sep n s') as [|p ps] eqn:E; [by apply py_split_go_not_nil in E|].
    rewrite py_join_cons_char. by f_equal.
Qed.

Lemma py_join_split sep s : sep ≠ [] → py_join sep (py_split sep s) = s.
Proof. apply py_join_split_go. Qed.

(** The fuel [length s] of [py_split] is enough: more fuel changes nothing. *)
Lemma py_split_go_fuel sep n m s :
  sep ≠ [] → length s ≤ n → length s ≤ m → py_split_go sep n s = py_split_go sep m s.
Proof.
  intros Hsep. revert m s. induction n as [|n IH]; intros m s Hn Hm.
  - destruct s; [|simpl in Hn; lia]. by destruct m.
  - destruct m as [|m]; [destruct s; [done|simpl in Hm; lia]|].
    destruct s as [|c s']; [done|]. simpl in Hn, Hm |- *. case_decide as Hp.
    + destruct sep as [|d sep']; [done|].
      rewrite (IH m); [done| |]; rewrite length_drop; simpl; lia.
    + rewrite (IH m s') by lia. done.
Qed.

Lemma py_split_go_enough sep n s :
  sep ≠ [] → length s ≤ n → py_split_go sep n s = py_split sep s.
Proof. intros. by apply py_split_go_fuel. Qed.

(** [sep in p]: [sep] occurs in [p]. *)
Definition occurs_in (sep p : str) : Prop := ∃ k1 k2, p = k1 ++ sep ++ k2.

(** The first piece of a split is a prefix of the string. *)
Lemma py_split_go_head sep n s : ∃ p ps, py_split_go sep n s = p :: ps ∧ prefix p s.
Proof.
  revert s. induction n as [|n IH]; intros s; [by exists s, []|].
  destruct s as [|c s']; [by exists [], []|]. simpl. case_decide.
  - eexists [], _. split; [reflexivity|]. apply prefix_nil.
  - destruct (IH s') as (p & ps & -> & Hp). exists (c :: p), ps. split; [done|].
    by apply prefix_cons.
Qed.

(** A string that starts with [sep] splits into an empty first piece. *)
Lemma py_split_prefix_nil sep s : sep ≠ [] → prefix sep s → ∃ ps, py_split sep s = [] :: ps.
Proof.
  intros Hsep Hp. destruct s as [|c s'].
  - destruct sep; [done|]. by apply prefix_nil_inv in Hp.
  - unfold py_split. simpl. rewrite decide_True by done. by eexists.
Qed.

(** A string without [sep] is its own only piece. *)
Lemma py_split_go_no_occurrence sep n s : ¬ occurs_in sep s → py_split_go sep n s = [s].
Proof.
  revert s. induction n as [|n IH]; intros s Hno; [done|].
  destruct s as [|c s']; [done|]. simpl. rewrite decide_False.
  - rewrite IH; [done|]. intros (k1 & k2 & ->). apply Hno. by exists (c :: k1), k2.
  - intros [k Hk]. apply Hno. by exists [], k.
Qed.

(** A piece that starts with [c] and contains [sep] either starts with
    [sep] or contains it after [c]. *)
Lemma occurs_in_cons (sep p : str) c :
  occurs_in sep (c :: p) → prefix sep (c :: p) ∨ occurs_in sep p.
Proof.
  intros (k1 & k2 & Heq). destruct k1 as [|x k1]; simpl in Heq.
  - left. by exists k2.
  - right. injection Heq as _ ->. by exists k1, k2.
Qed.

(** With enough fuel no piece of a split contains the separator. *)
Lemma py_split_go_no_sep sep n s :
  sep ≠ [] → length s ≤ n → Forall (λ p, ¬ occurs_in sep p) (py_split_go sep n s).
Proof.
  intros Hsep. assert (Hnil : ¬ occurs_in sep []).
  { intros ([|] & k2 & Heq); destruct sep; done. }
  revert s. induction n as [|n IH]; intros s Hs.
  - destruct s; [|simpl in Hs; lia]. by repeat constructor.
  - destruct s as [|c s']; [by repeat constructor|]. simpl in Hs |- *. case_decide as Hpre.
    + constructor; [done|]. apply IH. rewrite length_drop.
      destruct sep; [done|]. simpl. lia.
    + destruct (py_split_go_head sep n s') as (p & ps & Heq & Hp).
      pose proof (IH s' ltac:(lia)) as Hall. rewrite Heq in Hall |- *.
      apply Forall_cons_iff in Hall as [Hp' Hps]. constructor; [|done].
      intros [Hpre'|Hin]%occurs_in_cons; [|done].
      apply Hpre. etrans; [exact Hpre'|]. by apply prefix_cons.
Qed.

(** A split into one piece means the separator does not occur. *)
Lemma py_split_single sep s : sep ≠ [] → py_split sep s = [s] → ¬ occurs_in sep s.
Proof.
  intros Hsep Hs. pose proof (py_split_go_no_sep sep (length s) s Hsep ltac:(done)) as Hf.
  unfold py_split in Hs. rewrite Hs in Hf. by inversion Hf.
Qed.

(** [s.split(sep)] for a non-empty [sep] cuts [s] into pieces that,
    joined with [sep], give back [s], and none of which contains [sep]:
    every occurrence of [sep] is a cut. *)
Theorem py_split_spec sep s :
  sep ≠ [] →
  py_join sep (py_split sep s) = s ∧ Forall (λ p, ¬ occurs_in sep p) (py_split sep s).
Proof. intros Hsep. split; [by apply py_join_split|by apply py_split_go_no_sep]. Qed.

(** Cutting a joined list at an inner index [i] and putting the separator
    back between the two joins gives the whole join. *)
Lemma py_join_take_drop sep (l : list str) i :
  0 < i < length l →
  py_join sep (take i l) ++ sep ++ py_join sep (drop i l) = py_join sep l.
Proof.
  revert i. induction l as [|x l IH]; intros i Hi; simpl in Hi; [lia|].
  destruct i as [|[|i]]; [lia| |].
  - simpl. rewrite drop_0. destruct l; [simpl in Hi; lia|]. done.
  - destruct l as [|y l]; [simpl in Hi; lia|].
    change (take (S (S i)) (x :: y :: l)) with (x :: take (S i) (y :: l)).
    change (drop (S (S i)) (x :: y :: l)) with (drop (S i) (y :: l)).
    rewrite (py_join_cons sep x (y :: l)) by done.
    rewrite py_join_cons by (destruct l; simpl in *; done).
    rewrite <- (IH (S i)) by (simpl in *; lia).
    by rewrite <- !(assoc_L (++)).
Qed.

(** ** The writer monad: what a bind returns and prints *)
Lemma writer_bind_fst {L A B} (m : writer L A) (f : A → writer L B) :
  (m ≫= f).1 = (f m.1).1.
Proof. revert m. unfold writer in *. intros [x w]. unfold mbind, writer_bind. simpl. by destruct (f x). Qed.

Lemma writer_bind_snd {L A B} (m : writer L A) (f : A → writer L B) :
  (m ≫= f).2 = m.2 ++ (f m.1).2.
Proof. revert m. unfold writer in *. intros [x w]. unfold mbind, writer_bind. simpl. by destruct (f x). Qed.

Lemma writer_ret_fst {L A} (x : A) : (mret x : writer L A).1 = x.
Proof. done. Qed.

Lemma writer_ret_snd {L A} (x : A) : (mret x : writer L A).2 = [].
Proof. done. Qed.

#[export] Hint Rewrite @writer_bind_fst @writer_bind_snd @writer_ret_fst @writer_ret_snd : pyrag_rw.

(** Push [.1] and [.2] through the binds of a writer computation. *)
Ltac pysimpl := autorewrite with pyrag_rw in *; cbn [fst snd] in *.

(** ** Python idioms that raise *)

(** [xs[0]] on a sequence: [IndexError] when it is empty. *)
Definition py_index0 {A} (msg : str) (xs : list A) : result A :=
  match xs with
  | x :: _ => Ok x
  | [] => Raise (IndexError msg)
  end.

(** [a, b = zip( *pairs)]: unpacking the two columns of a list of pairs
    raises [ValueError] when the list is empty ([zip()] yields nothing). *)
Definition py_unzip2 {A B} (pairs : list (A * B)) : result (list A * list B) :=
  match pairs with
  | [] => Raise (ValueError (lit "not enough values to unpack (expected 2, got 0)"))
  | _ => Ok (map fst pairs, map snd pairs)
  end.

Lemma result_bind_Ok {A B} (m : result A) (f : A → result B) (b : B) :
  (m ≫= f) = Ok b → ∃ a, m = Ok a ∧ f a = Ok b.
Proof. destruct m; simpl; [eauto|done]. Qed.

Lemma result_bind_Raise {A B} (m : result A) (f : A → result B) e :
  (m ≫= f) = Raise e → m = Raise e ∨ ∃ a, m = Ok a ∧ f a = Raise e.
Proof. destruct m; simpl; [eauto|intros [= ->]; auto]. Qed.


(** ** State and exceptions: a Python statement sequence over a state [S].
    An exception does not undo the effects that precede it: the state is
    returned with the exception. *)
Definition pyst (S A : Type) : Type := S → result A * S.

#[export] Instance pyst_ret {S} : MRet (pyst S) := fun A x s => (Ok x, s).
#[export] Instance pyst_bind {S} : MBind (pyst S) :=
  fun A B f m s => match m s with
                   | (Ok x, s') => f x s'
                   | (Raise e, s') => (Raise e, s')
                   end.

(** Lift a computation that does not touch the state. *)
Definition lift_result {S A} (r : result A) : pyst S A := fun s => (r, s).

Definition py_raise {S A} (e : py_error) : pyst S A := fun s => (Raise e, s).

Definition get_state {S} : pyst S S := fun s => (Ok s, s).

Definition put_state {S} (s : S) : pyst S unit := fun _ => (Ok tt, s).

Lemma pyst_bind_run {S A B} (m : pyst S A) (f : A → pyst S B) s :
  (m ≫= f) s = match m s with (Ok x, s') => f x s' | (Raise e, s') => (Raise e, s') end.
Proof. done. Qed.

(** ** [enumerate]: [imap] with a projection *)
Lemma map_imap_index {A B} (f : B → nat) (g : nat → A → B) k (l : list A) :
  (∀ i x, f (g i x) = k + i) → map f (imap g l) = seq k (length l).
Proof.
  revert g k. induction l as [|x l IH]; intros g k Hg; [done|].
  rewrite imap_cons. simpl. rewrite Hg, Nat.add_0_r. f_equal.
  apply (IH (g ∘ S)). intros i y. simpl. rewrite Hg. lia.
Qed.

Lemma map_imap_value {A B C} (f : B → C) (g : nat → A → B) (e : A → C) (l : list A) :
  (∀ i x, f (g i x) = e x) → map f (imap g l) = map e l.
Proof.
  revert g. induction l as [|x l IH]; intros g Hg; [done|].
  rewrite imap_cons. simpl. rewrite Hg. f_equal. apply (IH (g ∘ S)). intros. apply Hg.
Qed.

(** A list of lists whose concatenation is empty holds only empty lists. *)
Lemma concat_nil_elem {A} (ls : list (list A)) l : concat ls = [] → In l ls → l = [].
Proof.
  induction ls as [|l' ls IH]; simpl; [done|]. intros [-> Hls]%app_eq_nil [->|Hl]; auto.
Qed.

(** [Forall2] through a [List.map] on the left. *)
Lemma Forall2_map_l_iff {A B C} (P : B → C → Prop) (f : A → B) l k :
  Forall2 P (map f l) k ↔ Forall2 (λ x, P (f x)) l k.
Proof.
  revert k. induction l as [|x l IH]; intros [|y k]; simpl; split; intros Hf; inversion Hf; subst;
    constructor; try done; by apply IH.
Qed.

(** Run a [pyst] computation symbolically. *)
Ltac pyst_run := unfold mbind, pyst_bind, mret, pyst_ret, py_raise, lift_result, get_state, put_state in *; simpl in *.

(** ** Witness *)
Lemma py_split_spec_witness :
  [NL; NL] ≠ [] ∧
  py_join [NL; NL] (py_split [NL; NL] (lit "A." ++ [NL; NL] ++ lit "B.")) = lit "A." ++ [NL; NL] ++ lit "B." ∧
  Forall (λ p, ¬ occurs_in [NL; NL] p) (py_split [NL; NL] (lit "A." ++ [NL; NL] ++ lit "B.")).
Proof. split; [discriminate|]. apply py_split_spec. discriminate. Defined.
