(* ===== verification/Config.v ===== *)
(** Global constants of [src/config.py], the request/response records of
    [src/io_models.py], and what importing [src/ai-compendium/__init__.py]
    sets up.  Paths, the API key and the MongoDB coordinates are
    kept as the strings the code holds; they are only passed to services
    that are not modelled. *)

From S2P Require Import Prelude.
From stdpp Require Import gmap.

(** ** [src/config.py] *)
Definition DEBUG : bool := false.
Definition MODEL_API_KEY : str := lit "******".
Definition ANSWERING_MODEL : str := lit "gpt-3.5-turbo".
Definition EMBEDDING_MODEL : str := lit "text-embedding-ada-002".
Definition MAX_TOKENS : nat := 1600.
Definition BATCH_SIZE : nat := 50.
Definition TOP_K : nat := 2.
Definition MONGO_URI : str := lit "mongodb://localhost:27017".
Definition MONGO_DB_NAME : str := lit "benefit_search".
Definition MONGO_COLLECTION_NAME : str := lit "embeddings".

(** ** [src/ai-compendium/__init__.py] *)

(** The collection handle [client[MONGO_DB_NAME][MONGO_COLLECTION_NAME]]
    of a [MongoClient(MONGO_URI)]: the coordinates it is opened with. *)
Record mongo_collection_ref := mk_mongo_collection_ref {
  client_uri : str; db_name : str; collection_name : str }.

(** Importing the package: [os.environ["OPENAI_API_KEY"] = MODEL_API_KEY],
    then the client, database and collection handles. *)
Definition package_init (environ : gmap str str) : gmap str str * mongo_collection_ref :=
  let environ' := <[lit "OPENAI_API_KEY" := MODEL_API_KEY]> environ in
  let client := MONGO_URI in
  let mongodb := (client, MONGO_DB_NAME) in
  (environ', mk_mongo_collection_ref mongodb.1 mongodb.2 MONGO_COLLECTION_NAME).

(** [os.path.join(a, b)] ([posixpath.join]): [b] when it is absolute;
    [a + b] when [a] is empty or ends with a slash; [a + "/" + b]
    otherwise. *)
Definition os_path_join (a b : str) : str :=
  if decide (prefix (lit "/") b) then b
  else if decide (a = [] ∨ stdpp.list_basics.list.last a = Some "/"%char) then a ++ b
  else a ++ lit "/" ++ b.

Fixpoint drop_while (P : ascii → bool) (s : str) : str :=
  match s with
  | c :: s' => if P c then drop_while P s' else s
  | [] => []
  end.

(** [os.path.dirname(p)]: the part before the last slash, its trailing
    slashes removed unless it is made of slashes only. *)
Definition os_path_dirname (p : str) : str :=
  let head := rev (drop_while (λ c, negb (bool_decide (c = "/"%char))) (rev p)) in
  if forallb (λ c, bool_decide (c = "/"%char)) head then head
  else rev (drop_while (λ c, bool_decide (c = "/"%char)) (rev head)).

(** [BASE_DIR = os.path.dirname(__file__)], for the path [config_file] the
    module was loaded from. *)
Definition BASE_DIR_of (config_file : str) : str := os_path_dirname config_file.

Example BASE_DIR_of_example :
  BASE_DIR_of (lit "/app/config.py") = lit "/app" ∧ BASE_DIR_of (lit "config.py") = [] ∧
  BASE_DIR_of (lit "/config.py") = lit "/".
Proof. split_and!; reflexivity. Qed.

(** The paths built from [BASE_DIR = os.path.dirname(__file__)], which
    depends on where the program is installed. *)
Definition PDF_TEXT_FILE_PATH (BASE_DIR : str) : str := os_path_join BASE_DIR (lit "pdf_text_2.txt").
Definition EMBEDDINGS_SAVE_PATH (BASE_DIR : str) : str := os_path_join BASE_DIR (lit "temp_embeddings.csv").

(** ** [src/io_models.py]: pydantic models, one Module each because two of
    them have a field [doc_id]. *)
Module InferenceData.
Record InferenceData := mk { query_text : str; doc_id : str }.
End InferenceData.

Module InferenceOutput.
Record InferenceOutput := mk { status_code : Z; message : str; data : str }.
End InferenceOutput.

Module CreateEmbeddingData.
Record CreateEmbeddingData := mk { source_file_path : str; doc_id : str }.
End CreateEmbeddingData.
