(* ===== verification/Paths.v ===== *)
(** Paths as the program and the operating system see them.
    [upload] of [src/main.py] builds [Path(f"pdfs/{file_name}")]; its
    [str] is what [pathlib.PurePosixPath] makes of the string
    ([pure_path_str]: empty and [.] parts dropped, [..] kept).  The file
    the kernel then opens is the path resolved against the working
    directory; without symbolic links that resolution is
    [os.path.normpath] ([os_normpath]: [..] also removes the part before
    it).  The disk of [State.v] is keyed by these resolved paths.

    [is_dir_key] names the directories that exist whatever the host holds:
    [pdfs] (created by [upload] before it writes), the working directory,
    its ancestors and the root; opening one of them for reading or writing
    raises [IsADirectoryError]. *)

From S2P Require Import Prelude Config.

Definition SLASH : str := lit "/".
Definition DOT : str := lit ".".
Definition DOTDOT : str := lit "..".

(** The loop of [posixpath.normpath] over the components; [new_comps] is
    kept reversed, so its head is [new_comps[-1]]. *)
Fixpoint normpath_comps (initial_slashes : bool) (new_comps : list str) (comps : list str) : list str :=
  match comps with
  | [] => new_comps
  | comp :: rest =>
      if decide (comp = [] ∨ comp = DOT) then normpath_comps initial_slashes new_comps rest
      else if decide (comp ≠ DOTDOT ∨ (initial_slashes = false ∧ new_comps = []) ∨
                      head new_comps = Some DOTDOT)
      then normpath_comps initial_slashes (comp :: new_comps) rest
      else normpath_comps initial_slashes (tail new_comps) rest
  end.

(** [initial_slashes]: two only for exactly two leading slashes. *)
Definition initial_slashes (path : str) : nat :=
  if decide (prefix SLASH path) then
    if decide (prefix (lit "//") path ∧ ¬ prefix (lit "///") path) then 2 else 1
  else 0.

(** [os.path.normpath(path)] *)
Definition os_normpath (path : str) : str :=
  if decide (path = []) then DOT else
  let n := initial_slashes path in
  let comps := rev (normpath_comps (bool_decide (n ≠ 0)) [] (py_split SLASH path)) in
  let p := replicate n "/"%char ++ py_join SLASH comps in
  if decide (p = []) then DOT else p.

(** The root [PurePosixPath] keeps: [//] for exactly two leading
    slashes, [/] for one or more than two. *)
Definition path_root (path : str) : str :=
  if decide (prefix (lit "//") path ∧ ¬ prefix (lit "///") path) then lit "//"
  else if decide (prefix SLASH path) then SLASH else [].

(** [str(PurePosixPath(path))] *)
Definition pure_path_str (path : str) : str :=
  let parts := List.filter (λ x, bool_decide (x ≠ [] ∧ x ≠ DOT)) (py_split SLASH path) in
  let s := path_root path ++ py_join SLASH parts in
  if decide (s = []) then DOT else s.

(** A resolved path that is a directory on every host: [pdfs], or a path
    whose last part is empty (the root), [.] or [..]. *)
Definition is_dir_key (key : str) : bool :=
  bool_decide (key = lit "pdfs" ∨ stdpp.list_basics.list.last (py_split SLASH key) ∈ [Some []; Some DOT; Some DOTDOT]).

(** * Lemmas *)

Section SplitFacts.

Lemma py_split_cons_slash s :
  py_split SLASH ("/"%char :: s) = [] :: py_split SLASH s.
Proof. unfold py_split. cbn [length py_split_go]. rewrite decide_True by (by exists s). done. Qed.

Lemma py_split_cons_other c s :
  c ≠ "/"%char →
  py_split SLASH (c :: s) =
    match py_split SLASH s with p :: ps => (c :: p) :: ps | [] => [[c]] end.
Proof.
  intros Hc. unfold py_split. cbn [length py_split_go]. rewrite decide_False; [done|].
  intros [t Ht]. by injection Ht.
Qed.

Lemma py_split_no_slash c : "/"%char ∉ c → py_split SLASH c = [c].
Proof.
  induction c as [|x c IH]; intros Hc; [done|].
  rewrite py_split_cons_other by (intros ->; apply Hc; left).
  rewrite IH; [done|]. intros Hin. apply Hc. by right.
Qed.

Lemma py_split_app_slash y z :
  py_split SLASH (y ++ "/"%char :: z) = py_split SLASH y ++ py_split SLASH z.
Proof.
  induction y as [|x y IH]; simpl.
  - by rewrite py_split_cons_slash.
  - destruct (decide (x = "/"%char)) as [->|Hx].
    + by rewrite !py_split_cons_slash, IH.
    + rewrite !py_split_cons_other by done. rewrite IH.
      destruct (py_split SLASH y) as [|p ps] eqn:E; [by apply py_split_not_nil in E|done].
Qed.

Lemma py_split_snoc y c :
  "/"%char ∉ c → py_split SLASH (y ++ "/"%char :: c) = py_split SLASH y ++ [c].
Proof. intros Hc. by rewrite py_split_app_slash, (py_split_no_slash c Hc). Qed.

Lemma last_split_snoc y c :
  "/"%char ∉ c → stdpp.list_basics.list.last (py_split SLASH (y ++ "/"%char :: c)) = Some c.
Proof. intros Hc. by rewrite py_split_snoc, last_snoc. Qed.

End SplitFacts.

Section NormpathFacts.

(** A part [os.path.normpath] keeps as it is: not empty, not [.] or [..],
    without a slash. *)
Definition regular_part (c : str) : Prop :=
  c ≠ [] ∧ c ≠ DOT ∧ c ≠ DOTDOT ∧ "/"%char ∉ c.

#[export] Instance regular_part_dec c : Decision (regular_part c).
Proof. unfold regular_part. apply _. Defined.

Lemma normpath_comps_app b acc cs cs' :
  normpath_comps b acc (cs ++ cs') = normpath_comps b (normpath_comps b acc cs) cs'.
Proof.
  revert acc. induction cs as [|comp cs IH]; intros acc; [done|].
  simpl. case_decide; [done|]. by case_decide.
Qed.

Lemma normpath_comps_regular b acc c :
  regular_part c → normpath_comps b acc [c] = c :: acc.
Proof.
  intros (Hne & Hdot & Hdd & _). simpl.
  rewrite decide_False by (by intros [|]). by rewrite decide_True by auto.
Qed.

Lemma py_join_snoc sep l c :
  py_join sep (l ++ [c]) = if decide (l = []) then c else py_join sep l ++ sep ++ c.
Proof.
  induction l as [|x l IH]; [done|]. rewrite decide_False by done.
  destruct l as [|y l]; [done|]. rewrite decide_False in IH by done.
  change ((x :: y :: l) ++ [c]) with (x :: ((y :: l) ++ [c])).
  rewrite (py_join_cons sep x ((y :: l) ++ [c])), (py_join_cons sep x (y :: l)) by (simpl; done).
  by rewrite IH, !(assoc_L (++)).
Qed.

(** Resolving a path whose last part is regular keeps that part last. *)
Lemma os_normpath_snoc y c :
  regular_part c →
  os_normpath (y ++ "/"%char :: c) = c ∨ ∃ y', os_normpath (y ++ "/"%char :: c) = y' ++ "/"%char :: c.
Proof.
  intros Hc. pose proof Hc as (Hne & _ & _ & Hsl).
  unfold os_normpath. rewrite decide_False by (by destruct y).
  rewrite py_split_snoc, normpath_comps_app, normpath_comps_regular by done.
  cbn [rev]. rewrite py_join_snoc.
  set (st := rev (normpath_comps _ [] (py_split SLASH y))).
  set (n := initial_slashes (y ++ "/"%char :: c)).
  destruct (decide (st = [])) as [Hst|Hst].
  - rewrite decide_False by (intros [_ ?]%app_eq_nil; done).
    destruct n as [|m]; [by left|]. right. exists (replicate m "/"%char).
    by rewrite replicate_S_end, <- (assoc_L (++)).
  - rewrite decide_False by (intros [_ ?]%app_eq_nil; by destruct (py_join SLASH st)).
    right. exists (replicate n "/"%char ++ py_join SLASH st). by rewrite <- (assoc_L (++)).
Qed.

(** A regular part resolves to itself. *)
Lemma os_normpath_regular c : regular_part c → os_normpath c = c.
Proof.
  intros Hc. pose proof Hc as (Hne & _ & _ & Hsl). unfold os_normpath, initial_slashes.
  assert (Hpre : ¬ prefix SLASH c) by (intros [k Hk]; apply Hsl; rewrite Hk; left).
  rewrite (decide_False (P := c = [])), (decide_False (P := prefix SLASH c)) by done.
  rewrite py_split_no_slash, normpath_comps_regular by done. cbn. by rewrite decide_False.
Qed.

(** A key whose last part is regular, other than [pdfs], is not a
    directory. *)
Lemma is_dir_key_last key c :
  regular_part c → key ≠ lit "pdfs" →
  stdpp.list_basics.list.last (py_split SLASH key) = Some c → is_dir_key key = false.
Proof.
  intros (Hne & Hdot & Hdd & _) Hkey Hlast. unfold is_dir_key. apply bool_decide_eq_false.
  rewrite Hlast. intros [?|Hin]; [done|].
  apply list_elem_of_In in Hin. simpl in Hin.
  repeat destruct Hin as [Hin|Hin]; try injection Hin as <-; done.
Qed.

Lemma is_dir_key_regular c : regular_part c → c ≠ lit "pdfs" → is_dir_key c = false.
Proof.
  intros Hc Hpdfs. apply (is_dir_key_last c c Hc Hpdfs).
  destruct Hc as (_ & _ & _ & Hsl). by rewrite py_split_no_slash.
Qed.

Lemma slash_not_in_pdfs y c : y ++ "/"%char :: c ≠ lit "pdfs".
Proof.
  intros Heq. assert (Hin : "/"%char ∈ y ++ "/"%char :: c) by (apply elem_of_app; right; left).
  rewrite Heq in Hin. apply list_elem_of_In in Hin. simpl in Hin.
  repeat destruct Hin as [Hin|Hin]; done.
Qed.

(** A regular file name other than [pdfs], under any directory, is not a
    directory. *)
Lemma is_dir_key_snoc y c :
  regular_part c → c ≠ lit "pdfs" → is_dir_key (os_normpath (y ++ "/"%char :: c)) = false.
Proof.
  intros Hc Hpdfs. pose proof Hc as (_ & _ & _ & Hsl).
  destruct (os_normpath_snoc y c Hc) as [-> | [y' ->]]; [by apply is_dir_key_regular|].
  apply (is_dir_key_last _ c Hc); [apply slash_not_in_pdfs|by apply last_split_snoc].
Qed.

Lemma filter_all {A} (P : A → Prop) `{∀ x, Decision (P x)} l :
  Forall P l → List.filter (λ x, bool_decide (P x)) l = l.
Proof. induction 1; simpl; [done|]. rewrite bool_decide_true by done. by f_equal. Qed.

(** [PurePosixPath] keeps a relative path none of whose parts is empty or
    [.] as it is. *)
Lemma pure_path_str_keep p :
  Forall (λ x, x ≠ [] ∧ x ≠ DOT) (py_split SLASH p) → pure_path_str p = p.
Proof.
  intros Hparts. unfold pure_path_str. rewrite filter_all by done.
  assert (Hroot : path_root p = []).
  { unfold path_root. destruct p as [|x p']; [done|].
    destruct (decide (x = "/"%char)) as [->|Hx].
    - rewrite py_split_cons_slash in Hparts. by apply Forall_cons_iff in Hparts as [[? _] _].
    - rewrite decide_False by (intros [[k Hk] _]; by injection Hk).
      rewrite decide_False; [done|]. intros [k Hk]. by injection Hk. }
  rewrite Hroot, app_nil_l, py_join_split by done.
  rewrite decide_False; [done|]. intros ->. by inversion Hparts as [|? ? [? _]].
Qed.

(** [d/../f] resolves to [f]. *)
Lemma os_normpath_dotdot d f :
  regular_part d → regular_part f →
  os_normpath (d ++ "/"%char :: "."%char :: "."%char :: "/"%char :: f) = f.
Proof.
  intros Hd Hf. pose proof Hd as (Hdne & Hddot & Hddd & Hdsl). pose proof Hf as (Hfne & _ & _ & Hfsl).
  unfold os_normpath. rewrite decide_False by (by destruct d).
  change ("."%char :: "."%char :: "/"%char :: f) with (DOTDOT ++ "/"%char :: f).
  rewrite !py_split_app_slash, !py_split_no_slash by (done || by intros [?|[?|[]]]%list_elem_of_In).
  assert (Hinit : initial_slashes (d ++ "/"%char :: DOTDOT ++ "/"%char :: f) = 0).
  { unfold initial_slashes. destruct d as [|x d']; [done|].
    rewrite decide_False; [done|]. intros [k Hk]. injection Hk as Hx _. apply Hdsl. rewrite Hx. left. }
  rewrite Hinit. rewrite (normpath_comps_app _ [] [d]), normpath_comps_regular by done.
  cbn [normpath_comps app].
  rewrite (decide_False (P := DOTDOT = [] ∨ DOTDOT = DOT)) by (by intros [|]).
  rewrite (decide_False (P := DOTDOT ≠ DOTDOT ∨ _ ∨ _))
    by (intros [?|[[_ ?]|Hh]]; [done|done|by injection Hh]).
  cbn [list.tail]. rewrite (decide_False (P := f = [] ∨ f = DOT)) by (destruct Hf as (? & ? & _); by intros [|]).
  rewrite (decide_True (P := f ≠ DOTDOT ∨ _ ∨ _)) by (left; apply Hf).
  cbn. by rewrite decide_False.
Qed.

End NormpathFacts.

(** A file named by a regular part under any directory, joined as
    [os.path.join] joins, is not a directory. *)
Lemma is_dir_key_join a c :
  regular_part c → c ≠ lit "pdfs" → is_dir_key (os_normpath (os_path_join a c)) = false.
Proof.
  intros Hc Hpdfs. pose proof Hc as (Hne & _ & _ & Hsl). unfold os_path_join.
  rewrite decide_False by (intros [k Hk]; apply Hsl; rewrite Hk; left).
  case_decide as Ha; [destruct Ha as [->|(y & ->)%last_Some]|].
  - rewrite app_nil_l, os_normpath_regular by done. by apply is_dir_key_regular.
  - rewrite <-(assoc_L (++)). by apply is_dir_key_snoc.
  - by apply is_dir_key_snoc.
Qed.

