(* ===== verification/Excepts.v ===== *)
(** The exception helpers of [src/ai-compendium/business_excepts.py]: the
    class [BusinessException] (lines 7-17), whose [str] is the [repr] of its
    value, and [custom_except] (lines 20-30), which writes the attributes
    of the class object [InferenceOutput] itself.

    [repr] of a Python [str] is written out as CPython computes it
    ([Objects/unicodeobject.c], [unicode_repr]) for the code points
    U+0000-U+00FF that a [str] of this development holds (one [ascii] per
    code point): the quote is the single quote unless the string holds a
    single quote and no double quote, the quote and the backslash are escaped, tab, newline and
    carriage return become [\t], [\n], [\r], the other non-printable code
    points become [\xhh] (lowercase hex), the rest is kept.  [py_unrepr]
    reads a single- or double-quoted Python string literal as Python's
    lexer does (an unescaped quote of the literal's kind, a newline or a
    carriage return is not allowed; the escapes are Python's).

    The class namespace of [InferenceOutput] is a map from attribute names
    to Python values, threaded as the state of [custom_except]; the
    pydantic schema of [InferenceOutput] ([src/io_models.py] lines 13-16)
    is the list of its fields and their types. *)

From S2P Require Import Prelude Config.
From stdpp Require Import gmap.

(** ** [BusinessException] and [repr] *)

Definition SQUOTE : ascii := "039"%char.
Definition DQUOTE : ascii := "034"%char.
Definition BSLASH : ascii := "092"%char.
Definition TAB : ascii := "009"%char.
Definition CR : ascii := "013"%char.

(** The quote [repr] uses: a single quote, unless the string contains a
    single quote and no double quote. *)
Definition repr_quote (s : str) : ascii :=
  if bool_decide (SQUOTE ∈ s) && negb (bool_decide (DQUOTE ∈ s)) then DQUOTE else SQUOTE.

(** [Py_hexdigits] *)
Definition hex_digit (n : nat) : ascii := nth n (lit "0123456789abcdef") "0"%char.

(** [Py_UNICODE_ISPRINTABLE] on U+0000-U+00FF: the printable ASCII
    characters, and U+00A1-U+00FF except the soft hyphen U+00AD. *)
Definition py_printable (c : ascii) : bool :=
  let n := nat_of_ascii c in ((32 <=? n) && (n <? 127)) || ((161 <=? n) && negb (n =? 173)).

(** The escape of one character inside a literal quoted with [q]. *)
Definition repr_char (q c : ascii) : str :=
  if bool_decide (c = q) || bool_decide (c = BSLASH) then [BSLASH; c]
  else if bool_decide (c = TAB) then [BSLASH; "t"%char]
  else if bool_decide (c = NL) then [BSLASH; "n"%char]
  else if bool_decide (c = CR) then [BSLASH; "r"%char]
  else if py_printable c then [c]
  else [BSLASH; "x"%char; hex_digit (nat_of_ascii c / 16); hex_digit (nat_of_ascii c mod 16)].

(** [repr(s)] for a [str] *)
Definition py_repr (s : str) : str :=
  let q := repr_quote s in q :: concat (map (repr_char q) s) ++ [q].

(** [class BusinessException(Exception)]: [__init__] stores [value]. *)
Record BusinessException := mk_business_exception { value : str }.

(** [BusinessException.__str__]: [repr(self.value)] *)
Definition business_exception_str (e : BusinessException) : str := py_repr (value e).

(** The value of a hexadecimal digit, either case. *)
Definition hex_val (c : ascii) : option nat :=
  (list_find (λ d, d = c) (lit "0123456789abcdef") ≫= λ '(i, _), Some i) ∪
  (list_find (λ d, d = c) (lit "0123456789ABCDEF") ≫= λ '(i, _), Some i).

(** The value of an octal digit. *)
Definition oct_val (c : ascii) : option nat :=
  let n := nat_of_ascii c in if (48 <=? n) && (n <=? 55) then Some (n - 48) else None.

(** The one-character escapes of a Python string literal: a backslash
    before a backslash or either quote, [\a], [\b], [\f], [\n], [\r],
    [\t], [\v]. *)
Definition simple_escape (e : ascii) : option ascii :=
  if bool_decide (e = BSLASH) || bool_decide (e = SQUOTE) || bool_decide (e = DQUOTE) then Some e
  else if bool_decide (e = "a"%char) then Some "007"%char
  else if bool_decide (e = "b"%char) then Some "008"%char
  else if bool_decide (e = "f"%char) then Some "012"%char
  else if bool_decide (e = "n"%char) then Some NL
  else if bool_decide (e = "r"%char) then Some CR
  else if bool_decide (e = "t"%char) then Some TAB
  else if bool_decide (e = "v"%char) then Some "011"%char
  else None.

(** The character of code point [n] in front of the rest of the body, for
    the code points a [str] here holds. *)
Definition code_point (n : nat) (rest : option str) : option str :=
  if n <? 256 then cons (ascii_of_nat n) <$> rest else None.

(** The body of a Python string literal quoted with [q] (Python's lexer,
    [Parser/string_parser.c], [decode_unicode_with_escapes]): an
    unescaped [q], newline or carriage return cannot occur in it; the
    escapes are the one-character ones, [\xhh] (exactly two hex digits),
    one to three octal digits, and backslash-newline (a line
    continuation, which reads as nothing); a backslash before any other
    character is kept with it.  The escapes [\N{...}], [\uXXXX] and
    [\UXXXXXXXX] name code points and are not read here. *)
Fixpoint unescape (q : ascii) (s : str) : option str :=
  match s with
  | [] => Some []
  | c :: rest =>
      if bool_decide (c = BSLASH) then
        match rest with
        | [] => None
        | e :: r =>
            match simple_escape e with
            | Some c' => cons c' <$> unescape q r
            | None =>
                if bool_decide (e = NL) then unescape q r
                else if bool_decide (e = "x"%char) then
                  match r with
                  | h1 :: h2 :: r' =>
                      match hex_val h1, hex_val h2 with
                      | Some a, Some b => code_point (16 * a + b) (unescape q r')
                      | _, _ => None
                      end
                  | _ => None
                  end
                else match oct_val e with
                  | Some a =>
                      match r with
                      | o2 :: r2 =>
                          match oct_val o2 with
                          | Some b =>
                              match r2 with
                              | o3 :: r3 =>
                                  match oct_val o3 with
                                  | Some d => code_point (64 * a + 8 * b + d) (unescape q r3)
                                  | None => code_point (8 * a + b) (unescape q r2)
                                  end
                              | [] => code_point (8 * a + b) (unescape q r2)
                              end
                          | None => code_point a (unescape q r)
                          end
                      | [] => code_point a (unescape q r)
                      end
                  | None =>
                      if bool_decide (e ∈ lit "NuU") then None
                      else cons BSLASH <$> unescape q rest
                  end
            end
        end
      else if bool_decide (c = q) || bool_decide (c = NL) || bool_decide (c = CR) then None
      else cons c <$> unescape q rest
  end.

(** Reading a literal [repr] printed back: a single- or double-quoted
    Python string literal, its body read by [unescape]. *)
Definition py_unrepr (s : str) : option str :=
  match s with
  | q :: rest =>
      if bool_decide (q = SQUOTE) || bool_decide (q = DQUOTE) then
        match last rest with
        | Some q' => if bool_decide (q = q') then unescape q (removelast rest) else None
        | None => None
        end
      else None
  | [] => None
  end.

(** ** [custom_except]: the class object [InferenceOutput] as shared state *)

#[local] Set Warnings "-register-all".

(** Python values held by the class attributes. *)
Inductive py_value :=
  | PyInt (z : Z)
  | PyStr (s : str)
  | PyDict (items : list (str * py_value)).

(** The namespace of the class object [InferenceOutput]. *)
Abbreviation class_attrs := (gmap str py_value).

(** The class object itself: [custom_except] returns the class, not an
    instance of it. *)
Inductive class_ref := InferenceOutputClass.

(** [custom_except(message, status_code=500)]: three assignments to the
    class's attributes, then [return InferenceOutput]. *)
Definition custom_except (message : str) (status_code : Z) : pyst class_attrs class_ref :=
  fun cls =>
    let cls1 := <[lit "status_code" := PyInt status_code]> cls in
    let cls2 := <[lit "message" := PyStr message]> cls1 in
    let cls3 := <[lit "data" := PyDict []]> cls2 in
    (Ok InferenceOutputClass, cls3).

(** The field types of the pydantic model [InferenceOutput]. *)
Inductive py_type := TInt | TStr.

Definition inference_output_fields : list (str * py_type) :=
  [(lit "status_code", TInt); (lit "message", TStr); (lit "data", TStr)].

Definition has_type (v : py_value) (t : py_type) : bool :=
  match v, t with
  | PyInt _, TInt | PyStr _, TStr => true
  | _, _ => false
  end.

(** The attributes conform to the schema of [InferenceOutput]. *)
Definition conforms (cls : class_attrs) : bool :=
  forallb (λ '(f, t), match cls !! f with Some v => has_type v t | None => false end)
    inference_output_fields.

(** * Lemmas *)

Section ReprFacts.

Lemma hex_val_digit k : k < 16 → hex_val (hex_digit k) = Some k.
Proof. intros Hk. do 16 (destruct k as [|k]; [reflexivity|]). lia. Qed.

Lemma hex_digit_printable k : py_printable (hex_digit k) = true.
Proof. do 16 (destruct k as [|k]; [reflexivity|]). destruct k; reflexivity. Qed.

Lemma repr_quote_cases s : repr_quote s = SQUOTE ∨ repr_quote s = DQUOTE.
Proof. unfold repr_quote. case_match; auto. Qed.

Lemma ascii_hex_split c :
  ascii_of_nat (16 * (nat_of_ascii c / 16) + nat_of_ascii c mod 16) = c.
Proof. rewrite <- Nat.div_mod_eq. apply ascii_nat_embedding. Qed.

Lemma nat_of_ascii_div16 c : nat_of_ascii c / 16 < 16.
Proof. pose proof (nat_ascii_bounded c). apply Nat.Div0.div_lt_upper_bound. lia. Qed.

(** Reading back one escaped character. *)
Lemma unescape_repr_char q c r :
  q = SQUOTE ∨ q = DQUOTE → unescape q (repr_char q c ++ r) = cons c <$> unescape q r.
Proof.
  intros Hq. unfold repr_char.
  destruct (bool_decide (c = q) || bool_decide (c = BSLASH)) eqn:E1.
  { apply orb_true_iff in E1 as [E|E]; apply bool_decide_eq_true in E; subst;
      [destruct Hq; subst|]; reflexivity. }
  apply orb_false_iff in E1 as [Hcq Hbs]. apply bool_decide_eq_false in Hcq, Hbs.
  case_bool_decide as Ht; [subst; reflexivity|].
  case_bool_decide as Hn; [subst; reflexivity|].
  case_bool_decide as Hr; [subst; reflexivity|].
  destruct (py_printable c).
  - cbn [app unescape]. by rewrite !bool_decide_false.
  - remember (hex_digit (nat_of_ascii c / 16)) as h1 eqn:E1.
    remember (hex_digit (nat_of_ascii c mod 16)) as h2 eqn:E2. cbn [app unescape].
    rewrite bool_decide_true by done. change (simple_escape "x"%char) with (@None ascii). cbv iota.
    rewrite (bool_decide_false ("x"%char = NL)), (bool_decide_true ("x"%char = "x"%char)) by done.
    cbv iota. rewrite E1, E2, !hex_val_digit; [|apply Nat.mod_upper_bound; lia|apply nat_of_ascii_div16].
    unfold code_point. rewrite <-Nat.div_mod_eq, ascii_nat_embedding.
    pose proof (nat_ascii_bounded c) as Hb. apply Nat.ltb_lt in Hb. by rewrite Hb.
Qed.

Lemma unescape_repr_body q s :
  q = SQUOTE ∨ q = DQUOTE → unescape q (concat (map (repr_char q) s)) = Some s.
Proof.
  intros Hq. induction s as [|c s IH]; [done|].
  cbn [map concat]. by rewrite unescape_repr_char, IH.
Qed.

Lemma repr_char_printable q c :
  py_printable q = true → Forall (λ c', py_printable c' = true) (repr_char q c).
Proof.
  intros Hq. unfold repr_char.
  destruct (bool_decide (c = q) || bool_decide (c = BSLASH)) eqn:E1.
  { apply orb_true_iff in E1 as [E|E]; apply bool_decide_eq_true in E; subst;
      repeat constructor; done. }
  clear E1. repeat (case_bool_decide; [by repeat constructor|]).
  destruct (py_printable c) eqn:Ep; repeat constructor; try done; apply hex_digit_printable.
Qed.

End ReprFacts.

Lemma custom_except_lookup message status_code cls :
  (custom_except message status_code cls).2 !! lit "data" = Some (PyDict []) ∧
  (custom_except message status_code cls).2 !! lit "message" = Some (PyStr message) ∧
  (custom_except message status_code cls).2 !! lit "status_code" = Some (PyInt status_code).
Proof.
  unfold custom_except. cbn [snd].
  split_and!; by repeat first [rewrite lookup_insert_eq | rewrite lookup_insert_ne by done].
Qed.

(** * Properties *)

(** C35. [repr] is injective and can be read back: the literal
    [BusinessException(v).__str__()] prints, read as a Python string
    literal, gives back [v], whichever quote [repr] picked. *)
Theorem py_unrepr_repr (s : str) : py_unrepr (py_repr s) = Some s.
Proof.
  unfold py_unrepr, py_repr.
  rewrite last_app, (removelast_app _ (l' := [_])) by done. cbn.
  destruct (repr_quote_cases s) as [Hq|Hq]; rewrite Hq; simpl; rewrite app_nil_r;
    apply unescape_repr_body; auto.
Qed.

(** C36. The message of a [BusinessException] is printable: every character
    of [str(e)] is a printable character, so the [repr] of a value holding
    newlines, tabs or control characters stays on one line. *)
Theorem business_exception_str_printable (e : BusinessException) :
  Forall (λ c, py_printable c = true) (business_exception_str e).
Proof.
  unfold business_exception_str, py_repr.
  assert (Hq : py_printable (repr_quote (value e)) = true)
    by (destruct (repr_quote_cases (value e)) as [-> | ->]; reflexivity).
  constructor; [done|]. apply Forall_app; split; [|by constructor].
  apply Forall_concat, Forall_forall. intros l Hl.
  apply (list_elem_of_fmap (repr_char _)) in Hl as (c & -> & _). by apply repr_char_printable.
Qed.

(** C34. [custom_except] does not build an [InferenceOutput]: it leaves the
    class attribute [data] holding a dict where the model declares a [str],
    so whatever the class held before, its attributes no longer conform to
    the schema of [InferenceOutput]. *)
Theorem custom_except_breaks_schema (message : str) (status_code : Z) (cls : class_attrs) :
  conforms (custom_except message status_code cls).2 = false.
Proof.
  destruct (custom_except_lookup message status_code cls) as (Hd & Hm & Hs).
  unfold conforms, inference_output_fields. cbn [forallb].
  by rewrite Hs, Hm, Hd.
Qed.

(** * Examples *)

(** [repr("it's\n")] is ["it's\n"] in double quotes, the newline escaped;
    [repr] of a NUL and a soft hyphen uses [\x00] and [\xad]. *)
Example py_repr_example :
  py_repr (lit "it's" ++ [NL]) = [DQUOTE] ++ lit "it's" ++ [BSLASH] ++ lit "n" ++ [DQUOTE] ∧
  py_repr ["000"%char; "173"%char] = [SQUOTE] ++ [BSLASH] ++ lit "x00" ++ [BSLASH] ++ lit "xad" ++ [SQUOTE].
Proof. split; reflexivity. Qed.

(** The reader follows Python's lexer: a raw newline or an unescaped
    quote of the literal's own kind is not a literal; octal and hex escapes
    read as their code points; an unknown escape keeps its backslash. *)
Example py_unrepr_grammar :
  py_unrepr ([SQUOTE] ++ lit "a" ++ [NL] ++ lit "b" ++ [SQUOTE]) = None ∧
  py_unrepr ([SQUOTE] ++ lit "it" ++ [SQUOTE] ++ lit "s" ++ [SQUOTE]) = None ∧
  py_unrepr ([DQUOTE] ++ lit "it" ++ [SQUOTE] ++ lit "s" ++ [DQUOTE]) = Some (lit "it" ++ [SQUOTE] ++ lit "s") ∧
  py_unrepr ([SQUOTE; BSLASH] ++ lit "101" ++ [BSLASH] ++ lit "x42" ++ [BSLASH] ++ lit "q" ++ [SQUOTE]) =
    Some (lit "AB" ++ [BSLASH] ++ lit "q").
Proof. split_and!; reflexivity. Qed.
