(* ===== verification/Tokenizer.v ===== *)
(** The tokenizer as the code uses it.  [tiktoken] is a library the sources
    only call: [tiktoken.encoding_for_model(model)] gives an encoding with
    [encode] and [decode].  The class [Tiktoken] is that interface; the
    functions [num_tokens] and [truncated_string] of
    [src/create_embeddings.py] are defined against it.  The law a real
    tokenizer is expected to satisfy for truncation to bound the token
    count is the class [TruncationLaw]; the character-level tokenizer
    [char_tiktoken] satisfies it. *)

From S2P Require Import Prelude Config.

Record Encoding := mkEncoding {
  encode : str → list Z;
  decode : list Z → str
}.

Class Tiktoken := { encoding_for_model : str → Encoding }.

(** The lines the program prints, by the [print] call that prints them
    (lines of [src/create_embeddings.py] unless said otherwise). *)
Inductive printed :=
  (** ["Warning: Truncated string from {n} tokens to {m} tokens."] (line 123) *)
  | Truncated (n m : nat)
  (** ["{a} sections split into {b} strings."] (line 175) *)
  | SectionsSplit (a b : nat)
  (** ["Completed text extraction from pdf file"] (line 53) *)
  | TextExtracted
  (** ["Deleted pdf file from: {file_path}"] (line 56) *)
  | PdfDeleted (file_path : str)
  (** ["Batch {batch_start} to {min(len(chunks), batch_end - 1)}"] (line 184) *)
  | BatchRange (batch_start last : nat)
  (** ["Successfully saved embeddings to mongodb"] (line 205) *)
  | SavedToMongo
  (** ["CSV file saved to {save_path}"] (line 209) *)
  | CsvSaved (save_path : str)
  (** [print(message)] of [get_query_response] under [print_message]
      ([src/ai-compendium/api/predict_response.py] line 75) *)
  | QueryMessage (message : str).

#[export] Instance printed_eq_dec : EqDecision printed.
Proof. solve_decision. Defined.

Section Tokenizer.
Context `{Tiktoken}.

(** [num_tokens(text, model=ANSWERING_MODEL)] *)
Definition num_tokens (text : str) (model : str) : nat :=
  length (encode (encoding_for_model model) text).

(** [truncated_string(string, model, max_tokens, print_warning=True)] *)
Definition truncated_string (string model : str) (max_tokens : nat)
    (print_warning : bool) : writer printed str :=
  let encoding := encoding_for_model model in
  let encoded_string := encode encoding string in
  let truncated := decode encoding (take max_tokens encoded_string) in
  _ ← (if print_warning && (max_tokens <? length encoded_string)
       then tell (Truncated (length encoded_string) max_tokens)
       else mret tt);
  mret truncated.
End Tokenizer.

(** Re-encoding the decoding of the first [k] tokens of a string gives at
    most [k] tokens. *)
Class TruncationLaw `{Tiktoken} (model : str) :=
  truncation_bound : ∀ s k,
    num_tokens (decode (encoding_for_model model)
                  (take k (encode (encoding_for_model model) s))) model ≤ k.

(** The tokens of a concatenation are at most the tokens of its parts
    (a law of the tokenizer, assumed where a count of chunks is derived
    from a count of tokens). *)
Class SubadditiveTokens `{Tiktoken} (model : str) :=
  tokens_app : ∀ a b, num_tokens (a ++ b) model ≤ num_tokens a model + num_tokens b model.

(** ** A character-level tokenizer: one token per character. *)
Definition char_encoding : Encoding := {|
  encode := map (λ a, Z.of_nat (nat_of_ascii a));
  decode := map (λ z, ascii_of_nat (Z.to_nat z))
|}.

#[export] Instance char_tiktoken : Tiktoken := {| encoding_for_model := λ _, char_encoding |}.

Lemma char_decode_encode (s : str) : decode char_encoding (encode char_encoding s) = s.
Proof.
  induction s as [|a s IH]; [done|]. simpl in *. by rewrite IH, Nat2Z.id, ascii_nat_embedding.
Qed.

Lemma char_num_tokens (s model : str) : num_tokens s model = length s.
Proof. unfold num_tokens. simpl. apply length_map. Qed.

#[export] Instance char_truncation_law model : TruncationLaw model.
Proof.
  intros s k. rewrite char_num_tokens. simpl. rewrite length_map, length_take. lia.
Qed.

#[export] Instance char_subadditive model : SubadditiveTokens model.
Proof. intros a b. rewrite !char_num_tokens, length_app. lia. Qed.

(** ** What [truncated_string] returns and prints *)
Section TruncatedString.
Context `{Tiktoken}.

Lemma truncated_string_fst s model k pw :
  (truncated_string s model k pw).1 =
    decode (encoding_for_model model) (take k (encode (encoding_for_model model) s)).
Proof. unfold truncated_string. by destruct (_ && _). Qed.

Lemma truncated_string_snd s model k :
  (truncated_string s model k true).2 =
    if k <? num_tokens s model then [Truncated (num_tokens s model) k] else [].
Proof. unfold truncated_string, num_tokens. simpl. by destruct (_ <? _). Qed.

Lemma truncated_string_bound `{!TruncationLaw model} s k pw :
  num_tokens (truncated_string s model k pw).1 model ≤ k.
Proof. rewrite truncated_string_fst. apply truncation_bound. Qed.
End TruncatedString.
