(* ===== verification/Chunker.v ===== *)
(** The chunker of [src/create_embeddings.py]: [halved_by_delimiter]
    (lines 87-108), [split_strings_into_chunks] (lines 128-165) and
    [split_into_chunks] (lines 168-176).  Every token count goes through
    the [Tiktoken] interface of [Tokenizer.v]; what the code prints is the
    log of the writer monad. *)

From S2P Require Import Prelude Config Tokenizer.

Section Chunker.
Context `{Tiktoken}.

(** [abs(halfway - num_tokens(delimiter.join(chunks[: i + 1])))], the
    distance computed by the loop body of [halved_by_delimiter] *)
Definition left_diff (delimiter : str) (chunks : list str) (halfway : Z) (i : nat) : Z :=
  Z.abs (halfway - Z.of_nat (num_tokens (py_join delimiter (take (S i) chunks)) ANSWERING_MODEL)).

(** The [for i, chunk in enumerate(chunks)] loop: [best_diff] is the
    best distance so far; the loop breaks at the first [i] whose
    distance is not smaller, and otherwise leaves [i] at the last index
    ([last]). *)
Fixpoint halfway_scan (delimiter : str) (chunks : list str) (halfway best_diff : Z)
    (idx : list nat) (last : nat) : nat :=
  match idx with
  | [] => last
  | i :: rest =>
      let diff := left_diff delimiter chunks halfway i in
      if bool_decide (best_diff <= diff)%Z then i
      else halfway_scan delimiter chunks halfway diff rest i
  end.

(** [halved_by_delimiter(string, delimiter)] *)
Definition halved_by_delimiter (string delimiter : str) : str * str :=
  let chunks := py_split delimiter string in
  match chunks with
  | [_] => (string, [])
  | [c1; c2] => (c1, c2)
  | _ =>
      let total_tokens := num_tokens string ANSWERING_MODEL in
      let halfway := Z.of_nat (total_tokens / 2) in
      let i := halfway_scan delimiter chunks halfway halfway (seq 0 (length chunks)) 0 in
      (py_join delimiter (take i chunks), py_join delimiter (drop i chunks))
  end.

(** [["\n\n", "\n", ". "]] *)
Definition delimiters : list str := [[NL; NL]; [NL]; lit ". "].

(** The [for delimiter in ...] loop of [split_strings_into_chunks], with
    the recursive call as [recurse]; when no delimiter gives two
    non-empty halves, the final truncation (line 165). *)
Fixpoint split_on_delimiters (recurse : str → writer printed (list str))
    (text_string : str) (max_tokens : nat) (model : str) (ds : list str)
    : writer printed (list str) :=
  match ds with
  | [] =>
      t ← truncated_string text_string model max_tokens true; mret [t]
  | delimiter :: ds' =>
      let '(lft, rgt) := halved_by_delimiter text_string delimiter in
      if decide (lft = [] ∨ rgt = []) then
        split_on_delimiters recurse text_string max_tokens model ds'
      else
        results_left ← recurse lft;
        results_right ← recurse rgt;
        mret (results_left ++ results_right)
  end.

(** [split_strings_into_chunks(text_string, max_tokens, model, max_recursion)] *)
Fixpoint split_strings_into_chunks (text_string : str) (max_tokens : nat) (model : str)
    (max_recursion : nat) {struct max_recursion} : writer printed (list str) :=
  let num_tokens_in_string := num_tokens text_string ANSWERING_MODEL in
  if decide (num_tokens_in_string ≤ max_tokens) then mret [text_string]
  else match max_recursion with
       | 0 => t ← truncated_string text_string model max_tokens true; mret [t]
       | S r =>
           split_on_delimiters
             (λ half, split_strings_into_chunks half max_tokens model r)
             text_string max_tokens model delimiters
       end.

(** The [for section in subsections] loop of [split_into_chunks], with
    the defaults [model=ANSWERING_MODEL], [max_recursion=5]. *)
Fixpoint split_sections (sections : list str) : writer printed (list str) :=
  match sections with
  | [] => mret []
  | section :: rest =>
      c ← split_strings_into_chunks section MAX_TOKENS ANSWERING_MODEL 5;
      cs ← split_sections rest;
      mret (c ++ cs)
  end.

(** [split_into_chunks(file_contents)] *)
Definition split_into_chunks (file_contents : str) : writer printed (list str) :=
  let subsections := py_split [NL; NL; NL] file_contents in
  chunks ← split_sections subsections;
  _ ← tell (SectionsSplit (length subsections) (length chunks));
  mret chunks.
End Chunker.

(** Chunks interleaved with the delimiters [ds] between them. *)
Fixpoint rejoin (cs ds : list str) : str :=
  match cs, ds with
  | [], _ => []
  | [c], _ => c
  | c :: cs', [] => c ++ rejoin cs' []
  | c :: cs', d :: ds' => c ++ d ++ rejoin cs' ds'
  end.

(** [cs] rebuilds [s]: [s] is the chunks [cs] with one delimiter of
    [allowed] between each two of them. *)
Definition rebuilds (allowed cs : list str) (s : str) : Prop :=
  ∃ ds, length ds + 1 = length cs ∧ Forall (λ d, d ∈ allowed) ds ∧ rejoin cs ds = s.

(** The distance before index [j]: the initial [best_diff = halfway] for
    [j = 0], the distance of the previous prefix otherwise. *)
Definition prev_diff `{Tiktoken} (delimiter : str) (chunks : list str) (halfway : Z) (j : nat) : Z :=
  match j with 0 => halfway | S j' => left_diff delimiter chunks halfway j' end.

Section ChunkerFacts.
Context `{Tiktoken}.

Lemma rejoin_app cl dl d cr dr :
  length dl + 1 = length cl → cr ≠ [] →
  rejoin (cl ++ cr) (dl ++ d :: dr) = rejoin cl dl ++ d ++ rejoin cr dr.
Proof.
  revert dl. induction cl as [|c cl IH]; intros dl Hlen Hcr; simpl in Hlen; [lia|].
  destruct cl as [|c' cl].
  - destruct dl; [|simpl in Hlen; lia]. by destruct cr.
  - destruct dl as [|d' dl]; simpl in Hlen; [lia|].
    specialize (IH dl ltac:(simpl; lia) Hcr). simpl in IH |- *.
    rewrite IH. by rewrite <- !(assoc_L (++)).
Qed.

(** Two rebuilt halves, with a delimiter of [allowed] between them. *)
Lemma rebuilds_app allowed cl cr l d r :
  d ∈ allowed → rebuilds allowed cl l → rebuilds allowed cr r →
  rebuilds allowed (cl ++ cr) (l ++ d ++ r).
Proof.
  intros Hd (dl & Hl & Hdl & <-) (dr & Hr & Hdr & <-).
  exists (dl ++ d :: dr). rewrite !length_app. simpl. split; [lia|]. split.
  - apply Forall_app. split; [done|]. by constructor.
  - apply rejoin_app; [done|]. intros ->. simpl in Hr. lia.
Qed.

Lemma rebuilds_one allowed s : rebuilds allowed [s] s.
Proof. by exists []. Qed.

Lemma delimiters_elem : Forall (λ d, d ∈ delimiters) delimiters.
Proof. apply Forall_forall. intros d Hd. by apply list_elem_of_In. Qed.

Lemma delimiters_not_nil d : d ∈ delimiters → d ≠ [].
Proof. unfold delimiters. intros Hd. repeat (inversion Hd as [|? ? ? Hd']; subst; [done|]; clear Hd; rename Hd' into Hd). inversion Hd. Qed.

(** The scan over [seq k m] returns an index of the range, before which
    every distance strictly improved, and at which it did not improve
    unless it is the last index. *)
Lemma halfway_scan_spec d chunks h k m last :
  0 < m →
  let r := halfway_scan d chunks h (prev_diff d chunks h k) (seq k m) last in
  k ≤ r < k + m ∧
  (∀ j, k ≤ j < r → (left_diff d chunks h j < prev_diff d chunks h j)%Z) ∧
  ((prev_diff d chunks h r <= left_diff d chunks h r)%Z ∨ r = k + m - 1).
Proof.
  revert k last. induction m as [|m IH]; intros k last Hm; [lia|]. simpl.
  case_bool_decide as Hb.
  - split; [lia|]. split; [intros; lia|]. by left.
  - destruct m as [|m]; simpl.
    + split; [lia|]. split; [intros; lia|]. right; lia.
    + destruct (IH (S k) k) as (Hr & Himp & Hend); [lia|]. simpl in Hr, Himp, Hend.
      split; [lia|]. split; [|destruct Hend; [by left|right; lia]].
      intros j Hj. destruct (decide (j = k)) as [->|]; [lia|]. apply Himp. lia.
Qed.

(** The result of [halved_by_delimiter] when the split has at least three
    pieces: the pieces before and after the index the scan returns. *)
Lemma halved_by_delimiter_many s d :
  3 ≤ length (py_split d s) →
  let chunks := py_split d s in
  let h := Z.of_nat (num_tokens s ANSWERING_MODEL / 2) in
  let i := halfway_scan d chunks h (prev_diff d chunks h 0) (seq 0 (length chunks)) 0 in
  halved_by_delimiter s d = (py_join d (take i chunks), py_join d (drop i chunks)).
Proof.
  unfold halved_by_delimiter. simpl.
  destruct (py_split d s) as [|c1 [|c2 [|c3 rest]]]; simpl; intros; [lia..|done].
Qed.
End ChunkerFacts.

Section HalvedByDelimiter.
Context `{Tiktoken}.

(** The two non-empty halves of [halved_by_delimiter] around the delimiter are the input. *)
Lemma halves_rebuild s d :
  d ≠ [] →
  (halved_by_delimiter s d).1 ≠ [] → (halved_by_delimiter s d).2 ≠ [] →
  (halved_by_delimiter s d).1 ++ d ++ (halved_by_delimiter s d).2 = s.
Proof.
  intros Hd. pose proof (py_join_split d s Hd) as Hjoin.
  destruct (decide (3 ≤ length (py_split d s))) as [Hn|Hn].
  - rewrite halved_by_delimiter_many by done. simpl.
    destruct (halfway_scan_spec d (py_split d s)
               (Z.of_nat (num_tokens s ANSWERING_MODEL / 2)) 0 (length (py_split d s)) 0)
      as (Hr & _ & _); [lia|].
    set (i := halfway_scan _ _ _ _ _ _) in *. intros Hl _.
    destruct i as [|i]; [done|]. rewrite py_join_take_drop by lia. done.
  - unfold halved_by_delimiter. intros Hl Hr. pose proof (py_split_not_nil d s) as Hne.
    destruct (py_split d s) as [|c1 [|c2 [|c3 rest]]]; simpl in *; try done; lia.
Qed.

(** C4. When [halved_by_delimiter] returns two non-empty halves (the only
    case [split_strings_into_chunks] recurses on), the left half, the
    delimiter and the right half, concatenated, are the input string:
    no character is lost or duplicated by a split. *)
Theorem halved_by_delimiter_rebuild s d :
  d ≠ [] →
  (halved_by_delimiter s d).1 ≠ [] → (halved_by_delimiter s d).2 ≠ [] →
  (halved_by_delimiter s d).1 ++ d ++ (halved_by_delimiter s d).2 = s.
Proof. by apply halves_rebuild. Qed.

(** C5. The cut of [halved_by_delimiter] is the greedy "first local
    minimum" of the spec: with at least three pieces, the left half is
    the join of the first [i] pieces, where every prefix before [i]
    brought the token count strictly closer to half the total, and the
    prefix [i] did not (or [i] is the last piece). *)
Theorem halved_by_delimiter_first_local_min s d :
  let chunks := py_split d s in
  let h := Z.of_nat (num_tokens s ANSWERING_MODEL / 2) in
  3 ≤ length chunks →
  ∃ i, halved_by_delimiter s d = (py_join d (take i chunks), py_join d (drop i chunks)) ∧
    i < length chunks ∧
    (∀ j, j < i → (left_diff d chunks h j < prev_diff d chunks h j)%Z) ∧
    ((prev_diff d chunks h i <= left_diff d chunks h i)%Z ∨ i = length chunks - 1).
Proof.
  intros chunks h Hn. subst chunks h. rewrite halved_by_delimiter_many by done.
  destruct (halfway_scan_spec d (py_split d s) (Z.of_nat (num_tokens s ANSWERING_MODEL / 2))
              0 (length (py_split d s)) 0) as (Hr & Himp & Hend); [lia|].
  eexists. split; [reflexivity|]. split; [lia|]. split; [|done].
  intros j Hj. apply Himp. lia.
Qed.
End HalvedByDelimiter.

(** ** [split_on_delimiters]: what the delimiter loop preserves *)
Section DelimiterLoop.
Context `{Tiktoken}.
Context (recurse : str → writer printed (list str)) (mt : nat) (model : str).

(** A property of every chunk holds of the loop's chunks when it holds of
    the recursive calls' chunks and of the truncation. *)
Lemma split_on_delimiters_chunks (P : str → Prop) s ds :
  (∀ t, Forall P (recurse t).1) → P (truncated_string s model mt true).1 →
  Forall P (split_on_delimiters recurse s mt model ds).1.
Proof.
  intros Hrec Htr. induction ds as [|d ds IH]; simpl; pysimpl; [by constructor|].
  destruct (halved_by_delimiter s d) as [l r]. case_decide; [done|].
  pysimpl. rewrite ?app_nil_r. apply Forall_app; auto.
Qed.

(** The same for every printed line. *)
Lemma split_on_delimiters_printed (Q : printed → Prop) s ds :
  (∀ t, Forall Q (recurse t).2) → Forall Q (truncated_string s model mt true).2 →
  Forall Q (split_on_delimiters recurse s mt model ds).2.
Proof.
  intros Hrec Htr. induction ds as [|d ds IH]; simpl; pysimpl; [by rewrite ?app_nil_r|].
  destruct (halved_by_delimiter s d) as [l r]. case_decide; [done|].
  pysimpl. rewrite ?app_nil_r. apply Forall_app; auto.
Qed.

(** At least one chunk, and at most twice as many as one recursive call
    returns. *)
Lemma split_on_delimiters_length s ds b :
  (∀ t, 1 ≤ length (recurse t).1 ≤ b) →
  1 ≤ length (split_on_delimiters recurse s mt model ds).1 ≤ 2 * b.
Proof.
  intros Hrec. pose proof (Hrec s).
  induction ds as [|d ds IH]; simpl; pysimpl; [simpl; lia|].
  destruct (halved_by_delimiter s d) as [l r]. case_decide; [done|].
  pysimpl. rewrite ?app_nil_r, length_app. pose proof (Hrec l). pose proof (Hrec r). lia.
Qed.
End DelimiterLoop.

Section DelimiterLoopRebuild.
Context `{Tiktoken}.
Context (recurse : str → writer printed (list str)) (mt : nat) (model : str).

(** When the loop prints nothing, its chunks rebuild the input, provided
    the recursive calls' chunks do when they print nothing and the
    truncation would have printed. *)
Lemma split_on_delimiters_rebuild s ds :
  Forall (λ d, d ∈ delimiters) ds →
  (∀ t, (recurse t).2 = [] → rebuilds delimiters (recurse t).1 t) →
  (truncated_string s model mt true).2 ≠ [] →
  (split_on_delimiters recurse s mt model ds).2 = [] →
  rebuilds delimiters (split_on_delimiters recurse s mt model ds).1 s.
Proof.
  intros Hds Hrec Htr. induction ds as [|d ds IH]; simpl; pysimpl.
  - by rewrite app_nil_r.
  - apply Forall_cons_iff in Hds as [Hd Hds].
    destruct (halved_by_delimiter s d) as [l r] eqn:Eh. case_decide as Hlr; [by apply IH|].
    pysimpl. rewrite ?app_nil_r. intros [Hl Hr]%app_eq_nil.
    assert (l ++ d ++ r = s) as <-.
    { pose proof (halves_rebuild s d) as Hrb. rewrite Eh in Hrb.
      apply Hrb; [by apply delimiters_not_nil|tauto..]. }
    apply rebuilds_app; auto.
Qed.
End DelimiterLoopRebuild.

Section SplitStrings.
Context `{Tiktoken}.

Lemma split_strings_into_chunks_eq s max_tokens model r :
  split_strings_into_chunks s max_tokens model r =
    if decide (num_tokens s ANSWERING_MODEL ≤ max_tokens) then mret [s]
    else match r with
         | 0 => t ← truncated_string s model max_tokens true; mret [t]
         | S r' => split_on_delimiters (λ half, split_strings_into_chunks half max_tokens model r')
                     s max_tokens model delimiters
         end.
Proof. by destruct r. Qed.

#[local] Arguments split_strings_into_chunks : simpl never.

(** Every chunk of [split_strings_into_chunks] is within the budget (truncation law). *)
Lemma split_strings_chunks_bounded `{!TruncationLaw ANSWERING_MODEL} s max_tokens r :
  Forall (λ c, num_tokens c ANSWERING_MODEL ≤ max_tokens)
    (split_strings_into_chunks s max_tokens ANSWERING_MODEL r).1.
Proof.
  revert s. induction r as [|r IH]; intros s; rewrite split_strings_into_chunks_eq;
    case_decide; pysimpl; repeat constructor; try done; try apply truncated_string_bound.
  apply split_on_delimiters_chunks; [done|]. apply truncated_string_bound.
Qed.

(** C1. Every chunk [split_strings_into_chunks] returns is within
    [max_tokens] tokens of the answering model, provided the tokenizer
    satisfies the truncation law (a truncated string re-encodes to at
    most the kept number of tokens).  The recursion depth does not
    matter: a chunk that could not be split is truncated. *)
Theorem split_strings_into_chunks_bounded `{!TruncationLaw ANSWERING_MODEL} s max_tokens r :
  Forall (λ c, num_tokens c ANSWERING_MODEL ≤ max_tokens)
    (split_strings_into_chunks s max_tokens ANSWERING_MODEL r).1.
Proof. by apply split_strings_chunks_bounded. Qed.

Lemma truncated_string_warns s model mt :
  ¬ num_tokens s model ≤ mt → (truncated_string s model mt true).2 ≠ [].
Proof. intros Hn. rewrite truncated_string_snd. destruct (Nat.ltb_spec mt (num_tokens s model)); [done|lia]. Qed.

(** No warning printed: the chunks rebuild the input. *)
Lemma split_strings_rebuilds s max_tokens r :
  (split_strings_into_chunks s max_tokens ANSWERING_MODEL r).2 = [] →
  rebuilds delimiters (split_strings_into_chunks s max_tokens ANSWERING_MODEL r).1 s.
Proof.
  revert s. induction r as [|r IH]; intros s; rewrite split_strings_into_chunks_eq;
    case_decide as Hfit; pysimpl; rewrite ?app_nil_r; try (intros; apply rebuilds_one).
  - intros Hw. by apply truncated_string_warns in Hfit.
  - apply split_on_delimiters_rebuild; [|done|by apply truncated_string_warns].
    apply delimiters_elem.
Qed.

(** C2. No silent loss: when [split_strings_into_chunks] (called with the
    answering model, as the code always does) prints no warning, its
    chunks, with one delimiter of ["\n\n"], ["\n"], [". "] put back
    between each two, are exactly the input string. *)
Theorem split_strings_into_chunks_rebuild s max_tokens r :
  (split_strings_into_chunks s max_tokens ANSWERING_MODEL r).2 = [] →
  rebuilds delimiters (split_strings_into_chunks s max_tokens ANSWERING_MODEL r).1 s.
Proof. by apply split_strings_rebuilds. Qed.

(** Every printed line is a truncation warning above the budget. *)
Lemma split_strings_printed_truncations s max_tokens model r :
  Forall (λ w, ∃ n, w = Truncated n max_tokens ∧ max_tokens < n)
    (split_strings_into_chunks s max_tokens model r).2.
Proof.
  assert (Htr : ∀ t, Forall (λ w, ∃ n, w = Truncated n max_tokens ∧ max_tokens < n)
                       (truncated_string t model max_tokens true).2).
  { intros t. rewrite truncated_string_snd. destruct (Nat.ltb_spec max_tokens (num_tokens t model));
      repeat constructor; eauto. }
  revert s. induction r as [|r IH]; intros s; rewrite split_strings_into_chunks_eq;
    case_decide; pysimpl; rewrite ?app_nil_r; try done.
  by apply split_on_delimiters_printed.
Qed.

(** C3. Every line [split_strings_into_chunks] prints is the truncation
    warning, naming the budget and a token count above it. *)
Theorem split_strings_into_chunks_warnings s max_tokens model r :
  Forall (λ w, ∃ n, w = Truncated n max_tokens ∧ max_tokens < n)
    (split_strings_into_chunks s max_tokens model r).2.
Proof. by apply split_strings_printed_truncations. Qed.

(** Between one and [2 ^ max_recursion] chunks. *)
Lemma split_strings_count s max_tokens model r :
  1 ≤ length (split_strings_into_chunks s max_tokens model r).1 ≤ 2 ^ r.
Proof.
  revert s. induction r as [|r IH]; intros s; rewrite split_strings_into_chunks_eq;
    case_decide; pysimpl; try (simpl; lia).
  - pose proof (IH s). simpl. lia.
  - change (2 ^ S r) with (2 * 2 ^ r). by apply split_on_delimiters_length.
Qed.

(** C6. [split_strings_into_chunks] returns at least one and at most
    [2 ^ max_recursion] chunks.  With the default depth 5 a section gives
    at most 32 chunks, so at most [32 * max_tokens] tokens of it are kept. *)
Theorem split_strings_into_chunks_count s max_tokens model r :
  1 ≤ length (split_strings_into_chunks s max_tokens model r).1 ≤ 2 ^ r.
Proof. by apply split_strings_count. Qed.
(** C37. The length check of [split_strings_into_chunks] counts tokens
    with the answering model, not with the [model] it is called with (the
    call [num_tokens(text_string)] takes the default): a text that
    model counts within [max_tokens] is returned whole and nothing is
    printed, whatever [model] is; under the tokenizer of [model] that
    chunk is then over the budget whenever [model] counts more tokens. *)
Theorem split_strings_into_chunks_ignores_model s max_tokens model r :
  num_tokens s ANSWERING_MODEL ≤ max_tokens →
  split_strings_into_chunks s max_tokens model r = ([s], []) ∧
  (max_tokens < num_tokens s model →
   Exists (λ c, max_tokens < num_tokens c model) (split_strings_into_chunks s max_tokens model r).1).
Proof.
  intros Hfit. rewrite split_strings_into_chunks_eq, decide_True by done.
  split; [done|]. intros Hover. by constructor.
Qed.
End SplitStrings.

(** ** A section that starts with a delimiter *)
Section LeadingDelimiter.
Context `{Tiktoken}.
(** [tiktoken] encodes the empty string as no token. *)
Hypothesis empty_no_tokens : num_tokens [] ANSWERING_MODEL = 0.

(** When the first piece of the split is empty, the scan of
    [halved_by_delimiter] stops at index 0 (its distance to half the
    tokens is [halfway] itself, not smaller than [best_diff]), so the left
    half is empty, however many pieces follow. *)
Lemma halved_first_piece_empty s d ps :
  d ≠ [] → py_split d s = [] :: ps → (halved_by_delimiter s d).1 = [].
Proof.
  intros Hd Hsplit. pose proof (py_join_split d s Hd) as Hjoin. rewrite Hsplit in Hjoin.
  unfold halved_by_delimiter. rewrite Hsplit.
  destruct ps as [|c2 [|c3 ps]]; [done|done|]. cbn -[num_tokens py_join].
  unfold left_diff. cbn [take py_join]. rewrite empty_no_tokens, Z.sub_0_r, Z.abs_eq by lia.
  by rewrite bool_decide_true by lia.
Qed.

(** The delimiter loop skips a delimiter whose halves are not both non-empty. *)
Lemma split_on_delimiters_skip rec s mt model d ds :
  (halved_by_delimiter s d).1 = [] ∨ (halved_by_delimiter s d).2 = [] →
  split_on_delimiters rec s mt model (d :: ds) = split_on_delimiters rec s mt model ds.
Proof.
  intros Hempty. cbn [split_on_delimiters].
  destruct (halved_by_delimiter s d) as [l r]. by rewrite decide_True.
Qed.

Lemma halved_no_occurrence s d : ¬ occurs_in d s → halved_by_delimiter s d = (s, []).
Proof. intros Hno. unfold halved_by_delimiter, py_split. by rewrite py_split_go_no_occurrence. Qed.

(** C11. A long section that starts with a blank line is truncated,
    however many paragraphs it has: when the text begins with ["\\n\\n"]
    (a blank line, as after a page break) and holds no [". "], both
    [halved_by_delimiter(text, "\\n\\n")] and [(text, "\\n")] return an
    empty left half, [". "] splits nothing, so the delimiter loop gives
    up on every delimiter and returns the text truncated to [max_tokens]
    tokens with its warning, even at full recursion depth. *)
Theorem split_strings_leading_blank_truncated s max_tokens model r :
  prefix [NL; NL] s → ¬ occurs_in (lit ". ") s → max_tokens < num_tokens s ANSWERING_MODEL →
  split_strings_into_chunks s max_tokens model (S r) =
    (t ← truncated_string s model max_tokens true; mret [t]).
Proof.
  intros Hpre Hno Hover. rewrite split_strings_into_chunks_eq, decide_False by lia.
  destruct (py_split_prefix_nil [NL; NL] s) as [ps2 Hs2]; [done|done|].
  destruct (py_split_prefix_nil [NL] s) as [ps1 Hs1]; [done| |].
  { etrans; [|exact Hpre]. by exists [NL]. }
  unfold delimiters.
  rewrite split_on_delimiters_skip by (left; exact (halved_first_piece_empty s [NL; NL] ps2 ltac:(done) Hs2)).
  rewrite split_on_delimiters_skip by (left; exact (halved_first_piece_empty s [NL] ps1 ltac:(done) Hs1)).
  rewrite split_on_delimiters_skip by (right; by rewrite halved_no_occurrence).
  done.
Qed.
End LeadingDelimiter.

(** ** The depth bound is fuel: the recursion is on strictly shorter strings *)
Section Depth.
Context `{Tiktoken}.
#[local] Arguments split_strings_into_chunks : simpl never.

(** The two non-empty halves of a split are strictly shorter than the input. *)
Lemma halves_shorter s d :
  d ≠ [] → (halved_by_delimiter s d).1 ≠ [] → (halved_by_delimiter s d).2 ≠ [] →
  length (halved_by_delimiter s d).1 < length s ∧ length (halved_by_delimiter s d).2 < length s.
Proof.
  intros Hd Hl Hr. pose proof (halves_rebuild s d Hd Hl Hr) as Hs.
  apply (f_equal length) in Hs. rewrite !length_app in Hs. destruct d; [done|]. simpl in Hs. lia.
Qed.

(** The delimiter loop only calls [recurse] on strings shorter than its input. *)
Lemma split_on_delimiters_ext rec1 rec2 s mt model ds :
  Forall (λ d, d ∈ delimiters) ds →
  (∀ h, length h < length s → rec1 h = rec2 h) →
  split_on_delimiters rec1 s mt model ds = split_on_delimiters rec2 s mt model ds.
Proof.
  intros Hds Hrec. induction ds as [|d ds IH]; [done|]. simpl.
  apply Forall_cons_iff in Hds as [Hd Hds].
  pose proof (halves_shorter s d (delimiters_not_nil d Hd)) as Hshort.
  destruct (halved_by_delimiter s d) as [l r]. simpl in Hshort. case_decide as Hlr; [by apply IH|].
  destruct (Hshort ltac:(tauto) ltac:(tauto)). by rewrite !Hrec.
Qed.

(** The empty string has no non-empty halves: the loop ends in the truncation. *)
Lemma split_on_delimiters_empty rec mt model ds :
  split_on_delimiters rec [] mt model ds = (t ← truncated_string [] model mt true; mret [t]).
Proof.
  induction ds as [|d ds IH]; [done|]. cbn [split_on_delimiters].
  assert (Hh : halved_by_delimiter [] d = ([], [])).
  { unfold halved_by_delimiter, py_split. by destruct (py_split_go d 0 []). }
  rewrite Hh. rewrite decide_True by tauto. exact IH.
Qed.

Lemma split_strings_empty mt model r r' :
  split_strings_into_chunks [] mt model r = split_strings_into_chunks [] mt model r'.
Proof.
  rewrite !split_strings_into_chunks_eq. case_decide; [done|].
  destruct r, r'; rewrite ?split_on_delimiters_empty; done.
Qed.

(** Any two depths of at least the length of the string give the same result. *)
Lemma split_strings_depth_stable s mt model r r' :
  length s ≤ r → length s ≤ r' →
  split_strings_into_chunks s mt model r = split_strings_into_chunks s mt model r'.
Proof.
  revert s r'. induction r as [|r IH]; intros s r' Hr Hr'.
  - destruct s; [apply split_strings_empty|simpl in Hr; lia].
  - destruct r' as [|r']; [destruct s; [apply split_strings_empty|simpl in Hr'; lia]|].
    rewrite !split_strings_into_chunks_eq. case_decide; [done|].
    apply split_on_delimiters_ext; [apply delimiters_elem|].
    intros h Hh. apply IH; lia.
Qed.

(** C10. The recursion of [split_strings_into_chunks] terminates on its
    own: each recursive call is on a half strictly shorter than its input,
    so [max_recursion] acts as fuel, and any [max_recursion] of at least
    [len(text_string)] gives the result of [len(text_string)]; only a
    smaller depth can change (truncate) the result. *)
Theorem split_strings_into_chunks_depth_enough s mt model r :
  length s ≤ r →
  split_strings_into_chunks s mt model r = split_strings_into_chunks s mt model (length s).
Proof. intros Hr. by apply split_strings_depth_stable. Qed.
End Depth.

(** ** [split_into_chunks]: the whole document *)
Section SplitIntoChunks.
Context `{Tiktoken}.
#[local] Arguments split_strings_into_chunks : simpl never.

Definition section_delimiter : str := [NL; NL; NL].

Lemma rebuilds_mono (allowed allowed' cs : list str) s :
  (∀ d, d ∈ allowed → d ∈ allowed') → rebuilds allowed cs s → rebuilds allowed' cs s.
Proof.
  intros Hsub (ds & Hlen & Hds & Hj). exists ds. split; [done|]. split; [|done].
  eapply Forall_impl; [|exact Hds]. auto.
Qed.

Lemma split_sections_chunks (P : str → Prop) secs :
  (∀ sec, Forall P (split_strings_into_chunks sec MAX_TOKENS ANSWERING_MODEL 5).1) →
  Forall P (split_sections secs).1.
Proof.
  intros Hsec. induction secs as [|sec secs IH]; simpl; pysimpl; [by constructor|].
  apply Forall_app; auto.
Qed.

Lemma split_sections_printed (Q : printed → Prop) secs :
  (∀ sec, Forall Q (split_strings_into_chunks sec MAX_TOKENS ANSWERING_MODEL 5).2) →
  Forall Q (split_sections secs).2.
Proof.
  intros Hsec. induction secs as [|sec secs IH]; simpl; pysimpl; [by constructor|].
  rewrite app_nil_r. apply Forall_app; auto.
Qed.

(** When the sections print nothing, the chunks rebuild the sections
    joined by the section delimiter: chunks of two sections are never
    merged, the section boundary stays a boundary between two chunks. *)
Lemma split_sections_rebuild secs :
  secs ≠ [] → (split_sections secs).2 = [] →
  rebuilds (section_delimiter :: delimiters) (split_sections secs).1
    (py_join section_delimiter secs).
Proof.
  assert (Hmono : ∀ d, d ∈ delimiters → d ∈ section_delimiter :: delimiters)
    by (intros; by apply list_elem_of_further).
  induction secs as [|sec secs IH]; intros Hne; [done|]. simpl split_sections. pysimpl.
  rewrite app_nil_r. intros [Hsec Hrest]%app_eq_nil.
  pose proof (split_strings_rebuilds sec MAX_TOKENS 5 Hsec) as Hr.
  destruct secs as [|sec' secs].
  - cbn [split_sections py_join]. pysimpl. rewrite app_nil_r. by eapply rebuilds_mono.
  - rewrite py_join_cons by done. apply rebuilds_app; [by apply list_elem_of_here|by eapply rebuilds_mono|].
    by apply IH.
Qed.

(** [split_into_chunks] returns at least one chunk. *)
Lemma split_into_chunks_not_nil text : (split_into_chunks text).1 ≠ [].
Proof.
  unfold split_into_chunks. pysimpl.
  assert (Hsec : ∀ secs, secs ≠ [] → (split_sections secs).1 ≠ []).
  { intros [|sec secs] Hne; [done|]. simpl. pysimpl.
    pose proof (split_strings_count sec MAX_TOKENS ANSWERING_MODEL 5) as [Hlen _].
    intros [Hc _]%app_eq_nil. rewrite Hc in Hlen. simpl in Hlen. lia. }
  apply Hsec, py_split_not_nil.
Qed.

(** C8. Every chunk of a document is within [MAX_TOKENS] tokens (under the
    truncation law of the answering model's tokenizer). *)
Theorem split_into_chunks_bounded `{!TruncationLaw ANSWERING_MODEL} text :
  Forall (λ c, num_tokens c ANSWERING_MODEL ≤ MAX_TOKENS) (split_into_chunks text).1.
Proof.
  unfold split_into_chunks. pysimpl.
  apply split_sections_chunks. intros. apply split_strings_chunks_bounded.
Qed.

Lemma split_sections_fst secs :
  (split_sections secs).1 = concat (map (λ sec, (split_strings_into_chunks sec MAX_TOKENS ANSWERING_MODEL 5).1) secs).
Proof. induction secs as [|sec secs IH]; simpl; pysimpl; [done|]. by rewrite IH. Qed.

Lemma split_sections_snd secs :
  (split_sections secs).2 = concat (map (λ sec, (split_strings_into_chunks sec MAX_TOKENS ANSWERING_MODEL 5).2) secs).
Proof. induction secs as [|sec secs IH]; simpl; pysimpl; [done|]. by rewrite app_nil_r, IH. Qed.

(** No truncation warning in the output of [split_into_chunks] means no
    section printed anything. *)
Lemma split_into_chunks_no_warning text :
  (∀ n m, Truncated n m ∉ (split_into_chunks text).2) →
  (split_sections (py_split section_delimiter text)).2 = [].
Proof.
  unfold split_into_chunks. change [NL; NL; NL] with section_delimiter. pysimpl. intros Hnw.
  assert (Hw : Forall (λ w, ∃ n, w = Truncated n MAX_TOKENS ∧ MAX_TOKENS < n)
                 (split_sections (py_split section_delimiter text)).2).
  { apply split_sections_printed. intros. apply split_strings_printed_truncations. }
  revert Hnw Hw. generalize (split_sections (py_split section_delimiter text)).2.
  intros [|w ws] Hnw Hw; [done|]. exfalso.
  inversion Hw as [|? ? (n & Hn & _)]; subst. apply (Hnw n MAX_TOKENS). simpl. apply list_elem_of_here.
Qed.

(** C9. Document round trip, section by section: when [split_into_chunks]
    prints no truncation warning, the document is its sections (the pieces
    of [text.split("\\n\\n\\n")]) joined by ["\\n\\n\\n"], and the chunks
    are consecutive groups, one per section, each of which is its section
    with one of ["\\n\\n"], ["\\n"], [". "] put back between each two
    chunks: chunks of two sections are never merged, and no chunk crosses
    a section boundary. *)
Theorem split_into_chunks_rebuild text :
  (∀ n m, Truncated n m ∉ (split_into_chunks text).2) →
  py_join section_delimiter (py_split section_delimiter text) = text ∧
  ∃ groups, (split_into_chunks text).1 = concat groups ∧
    Forall2 (λ g sec, rebuilds delimiters g sec) groups (py_split section_delimiter text).
Proof.
  intros Hnw%split_into_chunks_no_warning. split; [by apply py_join_split|].
  exists (map (λ sec, (split_strings_into_chunks sec MAX_TOKENS ANSWERING_MODEL 5).1)
            (py_split section_delimiter text)).
  split; [unfold split_into_chunks; pysimpl; apply split_sections_fst|].
  rewrite split_sections_snd in Hnw. apply Forall2_map_l_iff, Forall_Forall2_diag, Forall_forall.
  intros sec Hsec. apply split_strings_rebuilds.
  apply (concat_nil_elem _ _ Hnw), in_map_iff. by exists sec.
Qed.
End SplitIntoChunks.

(** ** How many chunks: a lower bound from the token count *)
Section ChunkCount.
Context `{Tiktoken} (model : str) `{!SubadditiveTokens model}.

Lemma sum_tokens_bound (l : list str) b :
  Forall (λ x, num_tokens x model ≤ b) l → sum_list_with (λ x, num_tokens x model) l ≤ length l * b.
Proof. induction 1; simpl; lia. Qed.

(** The tokens of chunks rejoined with delimiters are at most the tokens
    of the chunks plus those of the delimiters. *)
Lemma rejoin_tokens cs ds :
  length ds + 1 = length cs →
  num_tokens (rejoin cs ds) model ≤
    sum_list_with (λ x, num_tokens x model) cs + sum_list_with (λ x, num_tokens x model) ds.
Proof.
  revert ds. induction cs as [|c cs IH]; intros ds Hlen; simpl in Hlen; [lia|].
  destruct cs as [|c' cs].
  - destruct ds; simpl in *; lia.
  - destruct ds as [|d ds]; simpl in Hlen; [lia|].
    specialize (IH ds ltac:(simpl; lia)).
    change (rejoin (c :: c' :: cs) (d :: ds)) with (c ++ d ++ rejoin (c' :: cs) ds).
    pose proof (tokens_app c (d ++ rejoin (c' :: cs) ds)).
    pose proof (tokens_app d (rejoin (c' :: cs) ds)). simpl in *. lia.
Qed.

Lemma rebuilds_tokens cs s b c :
  rebuilds delimiters cs s →
  Forall (λ x, num_tokens x model ≤ b) cs → Forall (λ d, num_tokens d model ≤ c) delimiters →
  num_tokens s model ≤ length cs * b + (length cs - 1) * c.
Proof.
  intros (ds & Hlen & Hds & <-) Hcs Hdel.
  pose proof (rejoin_tokens cs ds Hlen) as Hr.
  pose proof (sum_tokens_bound cs b Hcs).
  assert (Hd : Forall (λ d, num_tokens d model ≤ c) ds).
  { eapply Forall_impl; [|exact Hds]. intros d Hd. exact (proj1 (Forall_forall _ _) Hdel d (proj1 (list_elem_of_In _ _) Hd)). }
  pose proof (sum_tokens_bound ds c Hd). replace (length cs - 1) with (length ds) by lia. lia.
Qed.
End ChunkCount.

Section ChunkCountSplit.
Context `{Tiktoken} `{!TruncationLaw ANSWERING_MODEL} `{!SubadditiveTokens ANSWERING_MODEL}.

(** C7. A lower bound on the number of chunks: when
    [split_strings_into_chunks] prints no warning and each delimiter costs
    at most [c] tokens, a string of [n] tokens gives [k] chunks with
    [n ≤ k * max_tokens + (k - 1) * c] (for a tokenizer whose counts are
    subadditive).  With [max_tokens = 1000] and one-token delimiters, a
    3000-token text gives at least 3 chunks, the example of the spec. *)
Theorem split_strings_into_chunks_count_lower s max_tokens r c :
  Forall (λ d, num_tokens d ANSWERING_MODEL ≤ c) delimiters →
  (split_strings_into_chunks s max_tokens ANSWERING_MODEL r).2 = [] →
  num_tokens s ANSWERING_MODEL ≤
    length (split_strings_into_chunks s max_tokens ANSWERING_MODEL r).1 * max_tokens +
    (length (split_strings_into_chunks s max_tokens ANSWERING_MODEL r).1 - 1) * c.
Proof.
  intros Hdel Hnw.
  apply (rebuilds_tokens ANSWERING_MODEL _ s max_tokens c (split_strings_rebuilds s max_tokens r Hnw));
    [apply split_strings_chunks_bounded|done].
Qed.
End ChunkCountSplit.

(** ** Witnesses, with the character-level tokenizer *)
Section Witnesses.
(** ["A.\n\nB.\n\nC."], the example of the spec. *)
Definition example_text : str := lit "A." ++ [NL; NL] ++ lit "B." ++ [NL; NL] ++ lit "C.".

Example split_strings_into_chunks_example_fits :
  split_strings_into_chunks example_text 1000 ANSWERING_MODEL 5 = ([example_text], []).
Proof. vm_compute. reflexivity. Qed.

Lemma split_strings_into_chunks_bounded_witness :
  Forall (λ c, num_tokens c ANSWERING_MODEL ≤ 3)
    (split_strings_into_chunks (lit "abcdefgh") 3 ANSWERING_MODEL 5).1.
Proof. apply split_strings_into_chunks_bounded. Defined.

Lemma split_strings_into_chunks_rebuild_witness :
  (split_strings_into_chunks example_text 3 ANSWERING_MODEL 5).2 = [] ∧
  rebuilds delimiters (split_strings_into_chunks example_text 3 ANSWERING_MODEL 5).1 example_text.
Proof.
  split; [vm_compute; reflexivity|].
  apply split_strings_into_chunks_rebuild. vm_compute. reflexivity.
Defined.

Lemma halved_by_delimiter_rebuild_witness :
  (halved_by_delimiter example_text [NL; NL]).1 ++ [NL; NL] ++ (halved_by_delimiter example_text [NL; NL]).2
    = example_text.
Proof. apply halved_by_delimiter_rebuild; vm_compute; discriminate. Defined.

Lemma halved_by_delimiter_first_local_min_witness :
  3 ≤ length (py_split [NL; NL] example_text) ∧
  ∃ i, halved_by_delimiter example_text [NL; NL] =
         (py_join [NL; NL] (take i (py_split [NL; NL] example_text)),
          py_join [NL; NL] (drop i (py_split [NL; NL] example_text))) ∧
    i < length (py_split [NL; NL] example_text) ∧
    (∀ j, j < i → (left_diff [NL; NL] (py_split [NL; NL] example_text)
                     (Z.of_nat (num_tokens example_text ANSWERING_MODEL / 2)) j <
                   prev_diff [NL; NL] (py_split [NL; NL] example_text)
                     (Z.of_nat (num_tokens example_text ANSWERING_MODEL / 2)) j)%Z) ∧
    ((prev_diff [NL; NL] (py_split [NL; NL] example_text)
        (Z.of_nat (num_tokens example_text ANSWERING_MODEL / 2)) i <=
      left_diff [NL; NL] (py_split [NL; NL] example_text)
        (Z.of_nat (num_tokens example_text ANSWERING_MODEL / 2)) i)%Z ∨
     i = length (py_split [NL; NL] example_text) - 1).
Proof.
  split; [vm_compute; lia|].
  apply (halved_by_delimiter_first_local_min example_text [NL; NL]). vm_compute. lia.
Defined.

Lemma split_into_chunks_bounded_witness :
  Forall (λ c, num_tokens c ANSWERING_MODEL ≤ MAX_TOKENS) (split_into_chunks example_text).1.
Proof. apply split_into_chunks_bounded. Defined.

Lemma split_into_chunks_rebuild_witness :
  let doc := example_text ++ section_delimiter ++ example_text in
  (∀ n m, Truncated n m ∉ (split_into_chunks doc).2) ∧
  py_join section_delimiter (py_split section_delimiter doc) = doc ∧
  ∃ groups, (split_into_chunks doc).1 = concat groups ∧
    Forall2 (λ g sec, rebuilds delimiters g sec) groups (py_split section_delimiter doc).
Proof.
  intros doc.
  assert (Hnw : ∀ n m, Truncated n m ∉ (split_into_chunks doc).2).
  { intros n m Hin.
    assert (Hl : (split_into_chunks doc).2 = [SectionsSplit 2 2]) by (vm_compute; reflexivity).
    rewrite Hl, list_elem_of_singleton in Hin. discriminate. }
  split; [exact Hnw|]. exact (split_into_chunks_rebuild doc Hnw).
Defined.
(** Three paragraphs of 9 characters: 31 characters with a budget of 10. *)
Definition three_paragraphs : str :=
  lit "aaaaaaaa." ++ [NL; NL] ++ lit "bbbbbbbb." ++ [NL; NL] ++ lit "cccccccc.".

Lemma split_strings_into_chunks_count_lower_witness :
  (split_strings_into_chunks three_paragraphs 10 ANSWERING_MODEL 5).2 = [] ∧
  num_tokens three_paragraphs ANSWERING_MODEL ≤
    length (split_strings_into_chunks three_paragraphs 10 ANSWERING_MODEL 5).1 * 10 +
    (length (split_strings_into_chunks three_paragraphs 10 ANSWERING_MODEL 5).1 - 1) * 2.
Proof.
  assert (Hnw : (split_strings_into_chunks three_paragraphs 10 ANSWERING_MODEL 5).2 = [])
    by (vm_compute; reflexivity).
  split; [exact Hnw|]. apply split_strings_into_chunks_count_lower; [|exact Hnw].
  repeat constructor.
Defined.
Lemma split_strings_into_chunks_depth_enough_witness :
  length example_text ≤ 12 ∧
  split_strings_into_chunks example_text 3 ANSWERING_MODEL 12 =
    split_strings_into_chunks example_text 3 ANSWERING_MODEL (length example_text).
Proof.
  split; [vm_compute; lia|]. apply split_strings_into_chunks_depth_enough. vm_compute. lia.
Defined.
(** A tokenizer for which the embedding model counts two tokens per
    character and every other model one. *)
Definition doubled_encoding : Encoding := {|
  encode := λ s, concat (map (λ a, [Z.of_nat (nat_of_ascii a); 0%Z]) s);
  decode := decode char_encoding
|}.

Definition two_model_tiktoken : Tiktoken := {|
  encoding_for_model := λ m, if decide (m = EMBEDDING_MODEL) then doubled_encoding else char_encoding
|}.

Lemma split_strings_into_chunks_ignores_model_witness :
  @num_tokens two_model_tiktoken example_text ANSWERING_MODEL ≤ 12 ∧
  12 < @num_tokens two_model_tiktoken example_text EMBEDDING_MODEL ∧
  @split_strings_into_chunks two_model_tiktoken example_text 12 EMBEDDING_MODEL 5 = ([example_text], []) ∧
  Exists (λ c, 12 < @num_tokens two_model_tiktoken c EMBEDDING_MODEL)
    (@split_strings_into_chunks two_model_tiktoken example_text 12 EMBEDDING_MODEL 5).1.
Proof.
  assert (Hfit : @num_tokens two_model_tiktoken example_text ANSWERING_MODEL ≤ 12) by (vm_compute; lia).
  assert (Hover : 12 < @num_tokens two_model_tiktoken example_text EMBEDDING_MODEL) by (vm_compute; lia).
  destruct (split_strings_into_chunks_ignores_model (H := two_model_tiktoken) example_text 12
              EMBEDDING_MODEL 5 Hfit) as [Heq Hex].
  split; [exact Hfit|]. split; [exact Hover|]. split; [exact Heq|]. exact (Hex Hover).
Defined.
(** Three paragraphs after a blank line, 18 characters with a budget of 10. *)
Definition blank_led_text : str :=
  [NL; NL] ++ lit "aaaa" ++ [NL; NL] ++ lit "bbbb" ++ [NL; NL] ++ lit "cccc".

Lemma split_strings_leading_blank_truncated_witness :
  num_tokens [] ANSWERING_MODEL = 0 ∧ prefix [NL; NL] blank_led_text ∧
  ¬ occurs_in (lit ". ") blank_led_text ∧ 10 < num_tokens blank_led_text ANSWERING_MODEL ∧
  split_strings_into_chunks blank_led_text 10 ANSWERING_MODEL 5 =
    (t ← truncated_string blank_led_text ANSWERING_MODEL 10 true; mret [t]).
Proof.
  assert (He : num_tokens [] ANSWERING_MODEL = 0) by reflexivity.
  assert (Hp : prefix [NL; NL] blank_led_text) by (eexists; reflexivity).
  assert (Hn : ¬ occurs_in (lit ". ") blank_led_text) by (apply py_split_single; vm_compute; done).
  assert (Ho : 10 < num_tokens blank_led_text ANSWERING_MODEL) by (vm_compute; lia).
  split; [exact He|]. split; [exact Hp|]. split; [exact Hn|]. split; [exact Ho|].
  exact (split_strings_leading_blank_truncated He blank_led_text 10 ANSWERING_MODEL 4 Hp Hn Ho).
Defined.

(** What that loses: the first ten characters are kept, with a warning;
    without the leading blank line the same paragraphs are two chunks that
    keep every character. *)
Example blank_led_text_truncated :
  split_strings_into_chunks blank_led_text 10 ANSWERING_MODEL 5 =
    ([[NL; NL] ++ lit "aaaa" ++ [NL; NL] ++ lit "bb"], [Truncated 18 10]) ∧
  split_strings_into_chunks (drop 2 blank_led_text) 10 ANSWERING_MODEL 5 =
    ([lit "aaaa" ++ [NL; NL] ++ lit "bbbb"; lit "cccc"], []).
Proof. split; vm_compute; reflexivity. Qed.
End Witnesses.
