(* ===== verification/StableSort.v ===== *)
(** Python's [list.sort(key=key, reverse=True)], as CPython runs it
    ([Objects/listobject.c], [list_sort_impl]): reverse the list, sort it
    with a stable ascending sort that compares keys with [<] only, and
    reverse the result.  The ascending sort (timsort in CPython) is here
    its contract, a stable sort, insertion sort; [ListSort.v] writes out
    what CPython runs on lists under 64 elements and shows it is this sort.  The theorems hold
    when [<] on keys is a strict weak order ([StrictWeakOrderB]); Python
    floats are one as long as no key is NaN.  Lists with the same classes
    of equal keys in the same order ([same_classes], an equivalence) sort
    to the same list ([sort_desc_proper]); any stable sort agrees with
    [sort_desc] ([sort_desc_unique]). *)

From S2P Require Import Prelude.
From Stdlib Require Import Sorting.Sorted Sorting.Permutation.

(** A boolean [<] that is a strict weak order: irreflexive, transitive, and
    with a transitive complement (so that "neither is smaller" is an
    equivalence). *)
Class StrictWeakOrderB {K} (lt : K → K → bool) := {
  swo_irrefl : ∀ a, lt a a = false;
  swo_trans : ∀ a b c, lt a b = true → lt b c = true → lt a c = true;
  swo_neg_trans : ∀ a b c, lt a b = false → lt b c = false → lt a c = false
}.

(** Neither key is smaller than the other. *)
Definition equivb {K} (lt : K → K → bool) (a b : K) : bool := negb (lt a b) && negb (lt b a).

Section StableSort.
Context {A K : Type} (key : A → K) (lt : K → K → bool).

(** Insert [x] before the first element whose key is not smaller. *)
Fixpoint insert_asc (x : A) (l : list A) : list A :=
  match l with
  | [] => [x]
  | y :: l' => if lt (key y) (key x) then y :: insert_asc x l' else x :: y :: l'
  end.

(** The stable ascending sort. *)
Fixpoint sort_asc (l : list A) : list A :=
  match l with
  | [] => []
  | x :: l' => insert_asc x (sort_asc l')
  end.

(** [l.sort(key=key, reverse=True)] *)
Definition sort_desc (l : list A) : list A := rev (sort_asc (rev l)).
End StableSort.

Section StableSortFacts.
Context {A K : Type} (key : A → K) (lt : K → K → bool) `{!StrictWeakOrderB lt}.

Lemma swo_asym a b : lt a b = true → lt b a = false.
Proof.
  intros Hab. destruct (lt b a) eqn:Hba; [|done].
  rewrite <- (swo_irrefl a). symmetry. by apply (swo_trans a b a).
Qed.

Lemma equivb_trans a b c : equivb lt a b = true → equivb lt b c = true → equivb lt a c = true.
Proof.
  unfold equivb. rewrite !andb_true_iff, !negb_true_iff. intros [H1 H2] [H3 H4].
  split; eapply swo_neg_trans; eauto.
Qed.

Lemma equivb_sym a b : equivb lt a b = equivb lt b a.
Proof. unfold equivb. apply andb_comm. Qed.

(** ** Permutation *)
Lemma insert_asc_perm x l : Permutation (insert_asc key lt x l) (x :: l).
Proof.
  induction l as [|y l IH]; simpl; [done|]. destruct (lt _ _); [|done].
  rewrite IH. apply perm_swap.
Qed.

Lemma sort_asc_perm l : Permutation (sort_asc key lt l) l.
Proof. induction l as [|x l IH]; simpl; [done|]. by rewrite insert_asc_perm, IH. Qed.

Lemma sort_desc_perm l : Permutation (sort_desc key lt l) l.
Proof. unfold sort_desc. by rewrite <- Permutation_rev, sort_asc_perm, <- Permutation_rev. Qed.

(** ** Order *)
Definition le_asc (x y : A) : Prop := lt (key y) (key x) = false.
Definition le_desc (x y : A) : Prop := lt (key x) (key y) = false.

Lemma insert_asc_sorted x l :
  StronglySorted le_asc l → StronglySorted le_asc (insert_asc key lt x l).
Proof.
  induction l as [|y l IH]; simpl; intros Hs; [repeat constructor|].
  apply StronglySorted_inv in Hs as [Hl Hy].
  destruct (lt (key y) (key x)) eqn:Hyx.
  - constructor; [by apply IH|]. apply Forall_forall. intros z Hz.
    apply (Permutation_in _ (insert_asc_perm x l)) in Hz as [<-|Hz].
    + by apply swo_asym.
    + by apply (proj1 (Forall_forall _ _) Hy).
  - constructor; [by constructor|]. constructor; [done|].
    eapply Forall_impl; [|exact Hy]. intros z Hz. unfold le_asc in *.
    by eapply swo_neg_trans.
Qed.

Lemma sort_asc_sorted l : StronglySorted le_asc (sort_asc key lt l).
Proof. induction l; simpl; [constructor|]. by apply insert_asc_sorted. Qed.

Lemma StronglySorted_snoc {B} (R : B → B → Prop) l a :
  StronglySorted R l → Forall (λ x, R x a) l → StronglySorted R (l ++ [a]).
Proof.
  induction l as [|y l IH]; simpl; intros Hs Ha; [repeat constructor|].
  apply StronglySorted_inv in Hs as [Hl Hy]. apply Forall_cons_iff in Ha as [Hya Ha].
  constructor; [by apply IH|]. apply Forall_app. split; [done|]. by constructor.
Qed.

Lemma sorted_asc_rev l : StronglySorted le_asc l → StronglySorted le_desc (rev l).
Proof.
  induction l as [|x l IH]; simpl; intros Hs; [constructor|].
  apply StronglySorted_inv in Hs as [Hl Hx]. apply StronglySorted_snoc; [by apply IH|].
  apply Forall_forall. intros y Hy. rewrite <- in_rev in Hy.
  exact (proj1 (Forall_forall _ _) Hx y Hy).
Qed.

(** ** Stability *)
Lemma insert_asc_filter x l k :
  StronglySorted le_asc l →
  List.filter (λ y, equivb lt (key y) k) (insert_asc key lt x l) =
    List.filter (λ y, equivb lt (key y) k) (x :: l).
Proof.
  induction l as [|y l IH]; intros Hs; [done|]. simpl.
  apply StronglySorted_inv in Hs as [Hl _].
  destruct (lt (key y) (key x)) eqn:Hyx; [|done]. simpl. rewrite IH by done.
  destruct (equivb lt (key y) k) eqn:Hy, (equivb lt (key x) k) eqn:Hx; cbn; rewrite ?Hx, ?Hy;
    try done.
  exfalso. assert (Hxy : equivb lt (key y) (key x) = true).
  { eapply equivb_trans; [exact Hy|]. by rewrite equivb_sym. }
  unfold equivb in Hxy. rewrite Hyx in Hxy. done.
Qed.

Lemma sort_asc_filter l k :
  List.filter (λ y, equivb lt (key y) k) (sort_asc key lt l) = List.filter (λ y, equivb lt (key y) k) l.
Proof.
  induction l as [|x l IH]; [done|]. simpl sort_asc.
  rewrite insert_asc_filter by apply sort_asc_sorted. simpl. by rewrite IH.
Qed.
End StableSortFacts.

Section SortDesc.
Context {A K : Type} (key : A → K) (lt : K → K → bool) `{!StrictWeakOrderB lt}.

Lemma filter_rev_comm (f : A → bool) l : List.filter f (rev l) = rev (List.filter f l).
Proof.
  induction l as [|x l IH]; [done|]. simpl. rewrite filter_app, IH. simpl.
  destruct (f x); simpl; [done|]. apply app_nil_r.
Qed.

(** [sort(key=key, reverse=True)] orders by non-increasing key: no element
    has a key smaller than a later one's. *)
Lemma sort_desc_sorted l : StronglySorted (le_desc key lt) (sort_desc key lt l).
Proof. apply sorted_asc_rev. by apply sort_asc_sorted. Qed.

(** Stability: the elements with keys equivalent to any [k] keep their
    original relative order. *)
Lemma sort_desc_stable l k :
  List.filter (λ y, equivb lt (key y) k) (sort_desc key lt l) =
    List.filter (λ y, equivb lt (key y) k) l.
Proof.
  unfold sort_desc. rewrite filter_rev_comm, sort_asc_filter, filter_rev_comm by done.
  by rewrite rev_involutive.
Qed.
End SortDesc.

(** ** Uniqueness: a stable sort is determined by its contract *)
Section Unique.
Context {A K : Type} (key : A → K) (lt : K → K → bool) `{!StrictWeakOrderB lt}.

Lemma equivb_refl a : equivb lt a a = true.
Proof. unfold equivb. by rewrite (@swo_irrefl _ lt _ a). Qed.

Definition same_classes (l1 l2 : list A) : Prop :=
  ∀ k, List.filter (λ y, equivb lt (key y) k) l1 = List.filter (λ y, equivb lt (key y) k) l2.

Lemma same_classes_nil l : same_classes [] l → l = [].
Proof.
  destruct l as [|y l]; [done|]. intros Hc. specialize (Hc (key y)). simpl in Hc.
  by rewrite equivb_refl in Hc.
Qed.

Lemma same_classes_In l1 l2 y : same_classes l1 l2 → In y l2 → In y l1.
Proof.
  intros Hc Hy. specialize (Hc (key y)).
  assert (Hf : In y (List.filter (λ z, equivb lt (key z) (key y)) l2))
    by (apply filter_In; split; [done|apply equivb_refl]).
  rewrite <- Hc in Hf. by apply filter_In in Hf as [? _].
Qed.

Lemma same_classes_cons x l1 l2 : same_classes (x :: l1) (x :: l2) → same_classes l1 l2.
Proof.
  intros Hc k. specialize (Hc k). simpl in Hc.
  destruct (equivb lt (key x) k); [by injection Hc|done].
Qed.

Lemma StronglySorted_desc_head x l y :
  StronglySorted (le_desc key lt) (x :: l) → In y l → lt (key x) (key y) = false.
Proof.
  intros Hs Hy. apply StronglySorted_inv in Hs as [_ Hx].
  exact (proj1 (Forall_forall _ _) Hx y Hy).
Qed.

(** Two lists sorted by non-increasing key with the same elements in each
    class of equal keys, in the same order, are equal. *)
Lemma sorted_same_classes_eq l1 l2 :
  StronglySorted (le_desc key lt) l1 → StronglySorted (le_desc key lt) l2 →
  same_classes l1 l2 → l1 = l2.
Proof.
  revert l2. induction l1 as [|x l1 IH]; intros l2 Hs1 Hs2 Hc.
  - symmetry. by apply same_classes_nil.
  - destruct l2 as [|y l2].
    { apply same_classes_nil. intros k. by rewrite Hc. }
    assert (Hxy : equivb lt (key y) (key x) = true).
    { assert (Hc' : same_classes (y :: l2) (x :: l1)) by (intros k; by rewrite Hc).
      destruct (same_classes_In _ _ y Hc (or_introl eq_refl)) as [->|Hy1]; [apply equivb_refl|].
      destruct (same_classes_In _ _ x Hc' (or_introl eq_refl)) as [->|Hx2]; [apply equivb_refl|].
      unfold equivb. rewrite (StronglySorted_desc_head y l2 x Hs2 Hx2),
        (StronglySorted_desc_head x l1 y Hs1 Hy1). done. }
    assert (x = y) as <-.
    { specialize (Hc (key x)). simpl in Hc. rewrite equivb_refl, Hxy in Hc. by injection Hc. }
    apply StronglySorted_inv in Hs1 as [Hs1 _]. apply StronglySorted_inv in Hs2 as [Hs2 _].
    f_equal. apply IH; [done|done|exact (same_classes_cons x l1 l2 Hc)].
Qed.
(** Having the same classes, in the same order, is an equivalence on
    lists, coarser than equality. *)
#[export] Instance same_classes_equiv : Equivalence same_classes.
Proof.
  split.
  - by intros l k.
  - intros l1 l2 H k. by rewrite H.
  - intros l1 l2 l3 H1 H2 k. by rewrite H1, H2.
Qed.

Lemma sort_desc_same_classes l : same_classes (sort_desc key lt l) l.
Proof. intros k. by apply sort_desc_stable. Qed.

(** [sort_desc] only depends on the classes of its input: lists with the
    same classes sort to the same list. *)
#[export] Instance sort_desc_proper : Proper (same_classes ==> eq) (sort_desc key lt).
Proof.
  intros l1 l2 Hl. apply sorted_same_classes_eq; [by apply sort_desc_sorted..|].
  etrans; [apply sort_desc_same_classes|]. etrans; [exact Hl|].
  symmetry. apply sort_desc_same_classes.
Qed.

(** Sorting a sorted list changes nothing. *)
Lemma sort_desc_idempotent l : sort_desc key lt (sort_desc key lt l) = sort_desc key lt l.
Proof. apply sort_desc_proper, sort_desc_same_classes. Qed.

(** [sort_desc] is determined by the contract of
    [list.sort(key=key, reverse=True)]: any list ordered by non-increasing
    key in which the elements of each class of equal keys appear in their
    original order (what CPython's timsort returns) is the list
    [sort_desc] returns.  The choice of insertion sort for the stable
    ascending sort does not matter. *)
Theorem sort_desc_unique l l' :
  StronglySorted (le_desc key lt) l' →
  (∀ k, List.filter (λ y, equivb lt (key y) k) l' = List.filter (λ y, equivb lt (key y) k) l) →
  l' = sort_desc key lt l.
Proof.
  intros Hs Hc. apply sorted_same_classes_eq; [done|by apply sort_desc_sorted|].
  intros k. by rewrite Hc, sort_desc_stable.
Qed.
End Unique.

(** [<] on [Z] is a strict weak order. *)
#[export] Instance Z_ltb_swo : StrictWeakOrderB Z.ltb.
Proof.
  split.
  - intros a. apply Z.ltb_ge. lia.
  - intros a b c. rewrite !Z.ltb_lt. lia.
  - intros a b c. rewrite !Z.ltb_ge. lia.
Qed.

(** ** Prefixes of sorted lists *)
Section Prefixes.
Context {B : Type}.

Lemma In_take (x : B) n l : In x (take n l) → In x l.
Proof. intros Hx. rewrite <- (take_drop n l). apply in_or_app. by left. Qed.

Lemma StronglySorted_take (R : B → B → Prop) n l :
  StronglySorted R l → StronglySorted R (take n l).
Proof.
  revert n. induction l as [|x l IH]; intros [|n] Hs; simpl; [constructor..|].
  apply StronglySorted_inv in Hs as [Hl Hx]. apply SSorted_cons; [by apply IH|].
  apply Forall_forall. intros y Hy. apply (proj1 (Forall_forall _ _) Hx). by eapply In_take.
Qed.

Lemma StronglySorted_map {C} (R : C → C → Prop) (f : B → C) l :
  StronglySorted (λ x y, R (f x) (f y)) l → StronglySorted R (map f l).
Proof.
  induction l as [|x l IH]; simpl; intros Hs; [constructor|].
  apply StronglySorted_inv in Hs as [Hl Hx]. apply SSorted_cons; [by apply IH|].
  by apply Forall_map.
Qed.

(** In a sorted list, everything before a cut is related to everything after it. *)
Lemma StronglySorted_app_rel (R : B → B → Prop) l1 l2 :
  StronglySorted R (l1 ++ l2) → Forall (λ x, Forall (R x) l2) l1.
Proof.
  induction l1 as [|x l1 IH]; simpl; intros Hs; [constructor|].
  apply StronglySorted_inv in Hs as [Hl Hx]. constructor; [|by apply IH].
  apply Forall_app in Hx. tauto.
Qed.

(** The elements of a prefix that satisfy [f] are a prefix of those of the list. *)
Lemma filter_take_prefix (f : B → bool) n l : prefix (List.filter f (take n l)) (List.filter f l).
Proof.
  revert n. induction l as [|x l IH]; intros [|n]; simpl; try apply prefix_nil.
  destruct (f x); [by apply prefix_cons|done].
Qed.

Lemma zip_take_fst_snd {C} n (l : list (B * C)) :
  zip (take n (map fst l)) (take n (map snd l)) = take n l.
Proof.
  revert n. induction l as [|[x y] l IH]; intros [|n]; simpl; try done. by rewrite IH.
Qed.
End Prefixes.

(** ** Witness *)
Lemma sort_desc_unique_witness :
  StronglySorted (le_desc snd Z.ltb) [(2%nat, 2%Z); (1%nat, 1%Z); (3%nat, 1%Z)] ∧
  [(2%nat, 2%Z); (1%nat, 1%Z); (3%nat, 1%Z)] = sort_desc snd Z.ltb [(1%nat, 1%Z); (2%nat, 2%Z); (3%nat, 1%Z)].
Proof.
  assert (Hs : StronglySorted (le_desc snd Z.ltb) [(2%nat, 2%Z); (1%nat, 1%Z); (3%nat, 1%Z)])
    by (repeat constructor).
  split; [exact Hs|]. apply sort_desc_unique; [exact _|exact Hs|].
  intros k. unfold equivb. cbn.
  destruct (Z.ltb_spec 2 k), (Z.ltb_spec k 2), (Z.ltb_spec 1 k), (Z.ltb_spec k 1); cbn; try reflexivity; lia.
Defined.
