(* ===== verification/ListSort.v ===== *)
(** [list.sort] as CPython 3.12 and earlier runs it
    ([Objects/listobject.c], [list_sort_impl]; 3.13 also extends a
    strictly descending run over equal keys, reversing each group of them
    in place, with the same sorted result under a strict weak order) for the ranking of
    [src/ai-compendium/api/predict_response.py] line 30,
    [strings_and_similarities.sort(key=lambda x: x[1], reverse=True)]:
    the list is reversed, sorted ascending comparing keys with [<] only,
    and reversed again.

    The ascending sort is timsort.  On fewer than [MIN_MERGE = 64]
    elements [merge_compute_minrun] returns the length itself, so timsort
    is one call of [count_run] (the longest non-descending or strictly
    descending prefix, the latter reversed in place) and one
    [binarysort] of the rest into that run (binary search for the place
    of each element, after the elements that are not greater): that is
    [py_list_sort] below, written from the C code.  Longer lists are
    merged run by run with galloping; that part is modelled by its
    contract, the stable insertion sort [sort_asc] of [StableSort.v].

    [py_list_sort_stable_sort] shows the two agree when [<] is a strict
    weak order, so the theorems of [StableSort.v] hold of the code's sort;
    with NaN keys (not a strict weak order) [py_list_sort] is what CPython
    returns, which the contract does not say. *)

From S2P Require Import Prelude StableSort.
From Stdlib Require Import Sorting.Sorted Sorting.Permutation.

Definition MIN_MERGE : nat := 64.

Section ListSort.
Context {A K : Type} (key : A → K) (lt : K → K → bool).

(** The loops of [count_run]: how many of [l] continue the run after
    [prev]. *)
Fixpoint run_len_desc (prev : A) (l : list A) : nat :=
  match l with
  | y :: l' => if lt (key y) (key prev) then S (run_len_desc y l') else 0
  | [] => 0
  end.

Fixpoint run_len_asc (prev : A) (l : list A) : nat :=
  match l with
  | y :: l' => if lt (key y) (key prev) then 0 else S (run_len_asc y l')
  | [] => 0
  end.

(** [count_run(lo, hi, &descending)]: the length of the run at the head
    of the list and whether it is strictly descending. *)
Definition count_run (l : list A) : nat * bool :=
  match l with
  | x :: y :: l' =>
      if lt (key y) (key x) then (2 + run_len_desc y l', true) else (2 + run_len_asc y l', false)
  | [_] => (1, false)
  | [] => (0, false)
  end.

(** The binary search of [binarysort]:
    [do { p = l + ((r - l) >> 1); IFLT(pivot, *p) r = p; else l = p+1; } while (l < r);]
    the fuel bounds the iterations ([r - l] shrinks at each one). *)
Fixpoint binsearch (fuel : nat) (pivot : A) (a : list A) (l r : nat) : nat :=
  match fuel with
  | 0 => l
  | S f =>
      let p := l + Nat.shiftr (r - l) 1 in
      let '(l', r') := if lt (key pivot) (key (nth p a pivot)) then (l, p) else (S p, r) in
      if l' <? r' then binsearch f pivot a l' r' else l'
  end.

(** [for (p = start; p > l; --p) *p = *(p-1); *l = pivot;] *)
Definition insert_at (i : nat) (x : A) (a : list A) : list A := take i a ++ x :: drop i a.

(** [binarysort(lo, hi, start)]: [a] is the sorted prefix [[lo, start)],
    [rest] the elements of [[start, hi)], inserted one by one. *)
Fixpoint binarysort (a rest : list A) : list A :=
  match rest with
  | [] => a
  | pivot :: rest' => binarysort (insert_at (binsearch (length a) pivot a 0 (length a)) pivot a) rest'
  end.

(** The ascending sort of [list_sort_impl]: nothing to do below two
    elements; below [MIN_MERGE] the first run, reversed when descending,
    then [binarysort] of the rest; the merging of longer lists by its
    contract. *)
Definition py_list_sort (l : list A) : list A :=
  if decide (length l < 2) then l
  else if decide (length l < MIN_MERGE) then
    let '(n, descending) := count_run l in
    let run := if descending then rev (take n l) else take n l in
    binarysort run (drop n l)
  else sort_asc key lt l.

(** The reference for one step of [binarysort]: [x] placed after the
    longest prefix of [a] whose elements are not greater than [x]. *)
Fixpoint count_le (x : A) (a : list A) : nat :=
  match a with
  | y :: a' => if lt (key x) (key y) then 0 else S (count_le x a')
  | [] => 0
  end.

Fixpoint insert_right (x : A) (a : list A) : list A :=
  match a with
  | y :: a' => if lt (key x) (key y) then x :: y :: a' else y :: insert_right x a'
  | [] => [x]
  end.

(** [l.sort(key=key, reverse=True)] *)
Definition list_sort_desc (l : list A) : list A := rev (py_list_sort (rev l)).
End ListSort.

(** * Permutation: whatever [<] does, [py_list_sort] reorders its input *)
Section ListSortPerm.
Context {A K : Type} (key : A → K) (lt : K → K → bool).

Lemma insert_at_perm i (x : A) (a : list A) : Permutation (insert_at i x a) (x :: a).
Proof.
  unfold insert_at. rewrite <- Permutation_middle. apply perm_skip.
  by rewrite take_drop.
Qed.

Lemma insert_right_perm x a : Permutation (insert_right key lt x a) (x :: a).
Proof.
  induction a as [|y a IH]; simpl; [done|]. destruct (lt _ _); [done|].
  rewrite IH. apply perm_swap.
Qed.

Lemma binarysort_perm a rest : Permutation (binarysort key lt a rest) (a ++ rest).
Proof.
  revert a. induction rest as [|x rest IH]; intros a; simpl; [by rewrite app_nil_r|].
  rewrite IH, insert_at_perm. by rewrite <- Permutation_middle.
Qed.

Lemma py_list_sort_perm l : Permutation (py_list_sort key lt l) l.
Proof.
  unfold py_list_sort. case_decide; [done|]. case_decide; [|apply sort_asc_perm].
  destruct (count_run key lt l) as [n []]; rewrite binarysort_perm;
    [rewrite <- Permutation_rev|]; by rewrite take_drop.
Qed.

Lemma list_sort_desc_perm l : Permutation (list_sort_desc key lt l) l.
Proof. unfold list_sort_desc. by rewrite <- Permutation_rev, py_list_sort_perm, <- Permutation_rev. Qed.
End ListSortPerm.

(** * With a strict weak order, [py_list_sort] is the stable sort *)
Section Helpers.
Context {B : Type}.

Lemma StronglySorted_rev (R : B → B → Prop) l :
  StronglySorted R l → StronglySorted (λ x y, R y x) (rev l).
Proof.
  induction l as [|x l IH]; simpl; intros Hs; [constructor|].
  apply StronglySorted_inv in Hs as [Hl Hx]. apply StronglySorted_snoc; [by apply IH|].
  apply Forall_forall. intros y Hy. rewrite <- in_rev in Hy.
  exact (proj1 (Forall_forall _ _) Hx y Hy).
Qed.

Lemma filter_none (f : B → bool) l : Forall (λ y, f y = false) l → List.filter f l = [].
Proof. induction 1 as [|y l Hy _ IH]; simpl; [done|]. by rewrite Hy. Qed.

Lemma rev_short (l : list B) : length l ≤ 1 → rev l = l.
Proof. destruct l as [|x [|y l]]; simpl; [done|done|lia]. Qed.

Lemma StronglySorted_weaken (R R' : B → B → Prop) l :
  (∀ x y, R x y → R' x y) → StronglySorted R l → StronglySorted R' l.
Proof.
  intros HR. induction 1 as [|x l _ IH Hx]; constructor; [done|].
  eapply Forall_impl; [|exact Hx]. apply HR.
Qed.
End Helpers.

Section ListSortFacts.
Context {A K : Type} (key : A → K) (lt : K → K → bool) `{!StrictWeakOrderB lt}.

Local Abbreviation asc := (le_asc key lt).
Local Abbreviation cls := (λ k y, equivb lt (key y) k).

(** ** The binary search finds the place [count_le] names *)
Lemma count_le_bound x a : count_le key lt x a ≤ length a.
Proof. induction a as [|y a IH]; simpl; [lia|]. destruct (lt _ _); simpl; lia. Qed.

Lemma count_le_at_greater x a p d :
  p < length a → lt (key x) (key (nth p a d)) = true → count_le key lt x a ≤ p.
Proof.
  revert p. induction a as [|y a IH]; intros p Hp Hlt; simpl in *; [lia|].
  destruct p as [|p]; simpl in Hlt; [rewrite Hlt; lia|].
  destruct (lt (key x) (key y)); [lia|]. specialize (IH p ltac:(lia) Hlt). lia.
Qed.

Lemma count_le_at_not_greater x a p d :
  StronglySorted asc a → p < length a → lt (key x) (key (nth p a d)) = false →
  p < count_le key lt x a.
Proof.
  revert p. induction a as [|y a IH]; intros p Hs Hp Hlt; simpl in *; [lia|].
  apply StronglySorted_inv in Hs as [Hs Hy].
  destruct p as [|p]; [by rewrite Hlt; lia|].
  assert (Hxy : lt (key x) (key y) = false).
  { apply (swo_neg_trans _ (key (nth p a d))); [done|].
    apply (proj1 (Forall_forall _ _) Hy). apply nth_In. lia. }
  rewrite Hxy. specialize (IH p Hs ltac:(lia) Hlt). lia.
Qed.

Lemma binsearch_count_le fuel x a l r :
  StronglySorted asc a → l < r → r ≤ length a → l ≤ count_le key lt x a ≤ r → r - l ≤ fuel →
  binsearch key lt fuel x a l r = count_le key lt x a.
Proof.
  intros Hs. revert l r. induction fuel as [|f IH]; intros l r Hlr Hr Hc Hf; [lia|].
  cbn [binsearch]. rewrite Nat.shiftr_div_pow2. change (2 ^ 1) with 2.
  assert (Hp : l ≤ l + (r - l) / 2 < r) by (split; [lia|]; apply Nat.lt_le_trans with (l + (r - l)); [|lia];
    apply Nat.add_lt_mono_l, Nat.div_lt; lia).
  set (p := l + (r - l) / 2) in *.
  destruct (lt (key x) (key (nth p a x))) eqn:Hlt.
  - pose proof (count_le_at_greater x a p x ltac:(lia) Hlt).
    destruct (Nat.ltb_spec l p); [apply IH; lia|lia].
  - pose proof (count_le_at_not_greater x a p x Hs ltac:(lia) Hlt).
    destruct (Nat.ltb_spec (S p) r); [apply IH; lia|lia].
Qed.

(** ** Inserting after the not-greater prefix *)
Lemma insert_at_count_le x a : insert_at (count_le key lt x a) x a = insert_right key lt x a.
Proof.
  induction a as [|y a IH]; [done|]. simpl. destruct (lt _ _); [done|].
  unfold insert_at in *. simpl. by rewrite IH.
Qed.

Lemma insert_right_sorted x a : StronglySorted asc a → StronglySorted asc (insert_right key lt x a).
Proof.
  induction a as [|y a IH]; simpl; intros Hs; [repeat constructor|].
  apply StronglySorted_inv in Hs as [Hs Hy].
  destruct (lt (key x) (key y)) eqn:Hxy.
  - constructor; [by constructor|]. constructor; [by apply swo_asym|].
    eapply Forall_impl; [|exact Hy]. intros z Hz. unfold le_asc in *.
    destruct (lt (key z) (key x)) eqn:Hzx; [|done].
    rewrite <- Hz. symmetry. by apply (swo_trans _ (key x)).
  - constructor; [by apply IH|]. apply Forall_forall. intros z Hz.
    apply (Permutation_in _ (insert_right_perm key lt x a)) in Hz as [<-|Hz]; [done|].
    exact (proj1 (Forall_forall _ _) Hy z Hz).
Qed.

(** In a strict weak order, [x < y] and [z] not below [y] give [x < z]. *)
Lemma swo_lt_le_trans a b c : lt a b = true → lt c b = false → lt a c = true.
Proof.
  intros Hab Hcb. destruct (lt a c) eqn:Hac; [done|].
  rewrite <- Hab. symmetry. by apply (swo_neg_trans _ c).
Qed.

(** An element equivalent to [x] is not above it. *)
Lemma cls_not_greater x y k :
  equivb lt (key x) k = true → lt (key x) (key y) = true → equivb lt (key y) k = false.
Proof.
  intros Hx Hxy. destruct (equivb lt (key y) k) eqn:Hy; [|done].
  assert (Hyx : equivb lt (key y) (key x) = true) by (apply (equivb_trans lt (key y) k (key x) Hy); by rewrite equivb_sym).
  unfold equivb in Hyx. rewrite Hxy in Hyx. by rewrite andb_false_r in Hyx.
Qed.

Lemma insert_right_filter x a k :
  StronglySorted asc a →
  List.filter (cls k) (insert_right key lt x a) = List.filter (cls k) a ++ List.filter (cls k) [x].
Proof.
  induction a as [|y a IH]; intros Hs; [done|]. simpl.
  apply StronglySorted_inv in Hs as [Hs Hy].
  destruct (lt (key x) (key y)) eqn:Hxy.
  - destruct (equivb lt (key x) k) eqn:Hx; simpl; rewrite ?Hx; [|by rewrite !app_nil_r].
    assert (Hyk : equivb lt (key y) k = false) by (by apply (cls_not_greater x)).
    rewrite Hyk, (filter_none _ a); [done|].
    eapply Forall_impl; [|exact Hy]. intros z Hz. apply (cls_not_greater x); [done|].
    by apply (swo_lt_le_trans _ (key y)).
  - simpl. destruct (equivb lt (key y) k); simpl; by rewrite IH.
Qed.

(** ** [binarysort] inserts each element after its equals *)
Lemma binarysort_sorted_filter a rest :
  StronglySorted asc a → a ≠ [] →
  StronglySorted asc (binarysort key lt a rest) ∧
  ∀ k, List.filter (cls k) (binarysort key lt a rest) = List.filter (cls k) (a ++ rest).
Proof.
  revert a. induction rest as [|x rest IH]; intros a Hs Hne; simpl; [by rewrite app_nil_r|].
  rewrite (binsearch_count_le (length a) x a 0 (length a)) by
    (done || (destruct a; [done|simpl; lia]) || (pose proof (count_le_bound x a); lia)).
  rewrite insert_at_count_le.
  destruct (IH (insert_right key lt x a)) as [IHs IHf];
    [by apply insert_right_sorted|by destruct a as [|y a]; [|simpl; destruct (lt _ _)]|].
  split; [done|]. intros k. rewrite IHf, !filter_app, insert_right_filter by done.
  by rewrite <-app_assoc, <-filter_app.
Qed.

(** ** The run [count_run] finds *)
Local Abbreviation gt_strict := (λ x y, lt (key y) (key x) = true).

Lemma asc_run_sorted prev l : StronglySorted asc (prev :: take (run_len_asc key lt prev l) l).
Proof.
  revert prev. induction l as [|y l IH]; intros prev; simpl; [repeat constructor|].
  destruct (lt (key y) (key prev)) eqn:Hy; simpl; [repeat constructor|].
  constructor; [apply IH|]. constructor; [done|].
  eapply Forall_impl; [|exact (proj2 (StronglySorted_inv (IH y)))]. intros z Hz.
  by apply (swo_neg_trans _ (key y)).
Qed.

Lemma desc_run_sorted prev l : StronglySorted gt_strict (prev :: take (run_len_desc key lt prev l) l).
Proof.
  revert prev. induction l as [|y l IH]; intros prev; simpl; [repeat constructor|].
  destruct (lt (key y) (key prev)) eqn:Hy; simpl; [|repeat constructor].
  constructor; [apply IH|]. constructor; [done|].
  eapply Forall_impl; [|exact (proj2 (StronglySorted_inv (IH y)))]. intros z Hz.
  by apply (swo_trans _ (key y)).
Qed.

(** A strictly descending run holds at most one element of each class. *)
Lemma strict_run_filter_short r k :
  StronglySorted gt_strict r → length (List.filter (cls k) r) ≤ 1.
Proof.
  induction 1 as [|x r _ IH Hx]; simpl; [lia|].
  destruct (equivb lt (key x) k) eqn:Hxk; simpl; [|done].
  rewrite filter_none; [simpl; lia|]. eapply Forall_impl; [|exact Hx]. intros z Hz.
  destruct (equivb lt (key z) k) eqn:Hzk; [|done].
  assert (Hzx : equivb lt (key z) (key x) = true).
  { apply (equivb_trans lt (key z) k (key x) Hzk). by rewrite equivb_sym. }
  unfold equivb in Hzx. by rewrite Hz in Hzx.
Qed.

(** Reversing a strictly descending run sorts it and keeps every class. *)
Lemma rev_strict_run r :
  StronglySorted gt_strict r →
  StronglySorted asc (rev r) ∧ ∀ k, List.filter (cls k) (rev r) = List.filter (cls k) r.
Proof.
  intros Hs. split.
  - eapply StronglySorted_weaken; [|exact (StronglySorted_rev _ _ Hs)].
    intros x y Hxy. by apply swo_asym.
  - intros k. rewrite filter_rev_comm. apply rev_short. by apply strict_run_filter_short.
Qed.

(** ** [py_list_sort] sorts stably *)
Lemma binarysort_run n r' l :
  StronglySorted asc r' → r' ≠ [] → (∀ k, List.filter (cls k) r' = List.filter (cls k) (take n l)) →
  StronglySorted asc (binarysort key lt r' (drop n l)) ∧
  ∀ k, List.filter (cls k) (binarysort key lt r' (drop n l)) = List.filter (cls k) l.
Proof.
  intros Hs Hne Hf. destruct (binarysort_sorted_filter r' (drop n l) Hs Hne) as [? Hb].
  split; [done|]. intros k. by rewrite Hb, filter_app, Hf, <-filter_app, take_drop.
Qed.

Lemma py_list_sort_sorted_classes l :
  StronglySorted asc (py_list_sort key lt l) ∧
  ∀ k, List.filter (cls k) (py_list_sort key lt l) = List.filter (cls k) l.
Proof.
  unfold py_list_sort. destruct (decide (length l < 2)) as [Hl|Hl].
  { split; [|done]. destruct l as [|x [|y l]]; [constructor|repeat constructor|simpl in Hl; lia]. }
  destruct (decide (length l < MIN_MERGE)) as [_|_].
  2:{ split; [exact (sort_asc_sorted key lt l)|intros k; exact (sort_asc_filter key lt l k)]. }
  destruct l as [|x [|y l']]; [simpl in Hl; lia..|]. unfold count_run.
  destruct (lt (key y) (key x)) eqn:Hyx; cbv beta iota.
  - assert (Ht : take (2 + run_len_desc key lt y l') (x :: y :: l') =
                 x :: take (run_len_desc key lt x (y :: l')) (y :: l')) by (simpl; by rewrite Hyx).
    destruct (rev_strict_run _ (desc_run_sorted x (y :: l'))) as [Hs Hf].
    apply binarysort_run; rewrite Ht; [done| |done]. simpl. by intros [_ ?]%app_eq_nil.
  - assert (Ht : take (2 + run_len_asc key lt y l') (x :: y :: l') =
                 x :: take (run_len_asc key lt x (y :: l')) (y :: l')) by (simpl; by rewrite Hyx).
    apply binarysort_run; rewrite Ht; [apply asc_run_sorted|done|done].
Qed.

(** Two lists sorted by non-decreasing key with the same classes are equal. *)
Lemma sorted_asc_same_classes_eq l1 l2 :
  StronglySorted asc l1 → StronglySorted asc l2 →
  (∀ k, List.filter (cls k) l1 = List.filter (cls k) l2) → l1 = l2.
Proof.
  intros H1 H2 Hc. rewrite <-(rev_involutive l1), <-(rev_involutive l2). f_equal.
  apply (sorted_same_classes_eq key lt); [by apply sorted_asc_rev..|].
  intros k. by rewrite !filter_rev_comm, Hc.
Qed.

(** Any sorted list with the classes of [l] is [sort_asc l]. *)
Lemma sorted_classes_sort_asc l l' :
  StronglySorted asc l' → (∀ k, List.filter (cls k) l' = List.filter (cls k) l) → l' = sort_asc key lt l.
Proof.
  intros Hs Hf. apply sorted_asc_same_classes_eq; [done|exact (sort_asc_sorted key lt l)|].
  intros k. by rewrite Hf, sort_asc_filter.
Qed.

(** [sort(key=key, reverse=True)] as CPython runs it is [sort_desc]. *)
Lemma list_sort_desc_sort_desc l : list_sort_desc key lt l = sort_desc key lt l.
Proof.
  unfold list_sort_desc, sort_desc. f_equal.
  destruct (py_list_sort_sorted_classes (rev l)). by apply sorted_classes_sort_asc.
Qed.

(** CPython's [list.sort] on a list of fewer than [MIN_MERGE] = 64
    elements (one natural run found by [count_run], a strictly descending
    run reversed in place, then [binarysort] inserting every other element
    after the equal keys by bisection) returns the stable sort of the list:
    under a strict weak order on keys, the list ordered by non-decreasing
    key in which each class of equal keys keeps its original order, which
    is what insertion sort ([sort_asc]) returns. *)
Theorem py_list_sort_stable_sort l : py_list_sort key lt l = sort_asc key lt l.
Proof. destruct (py_list_sort_sorted_classes l). by apply sorted_classes_sort_asc. Qed.
End ListSortFacts.

(** A strictly descending run, a run of equal keys and a stray element:
    the two sorts agree on the scores [5, 3, 3, 1, 3, 4]. *)
Lemma py_list_sort_stable_sort_witness :
  py_list_sort snd Z.ltb [(0, 5); (1, 3); (2, 3); (3, 1); (4, 3); (5, 4)]%Z =
    [(3, 1); (1, 3); (2, 3); (4, 3); (5, 4); (0, 5)]%Z ∧
  py_list_sort snd Z.ltb [(0, 5); (1, 3); (2, 3); (3, 1); (4, 3); (5, 4)]%Z =
    sort_asc snd Z.ltb [(0, 5); (1, 3); (2, 3); (3, 1); (4, 3); (5, 4)]%Z.
Proof. split; [reflexivity|]. exact (py_list_sort_stable_sort snd Z.ltb _). Defined.
