(* ===== verification/Store.v ===== *)
(** The document store: the MongoDB collection [embeddings] of
    [src/ai-compendium/__init__.py], holding one record per ingestion, in
    the shape [create_embedding] builds ([src/create_embeddings.py] lines
    197-203): [{"doc_id": ..., "text_chunks": [{"chunk_id", "text",
    "embedding"}, ...]}].  The collection is a list of records in insertion
    order; [find] returns the matching records in that order (MongoDB's
    natural order for a collection that is only ever inserted into). *)

From S2P Require Import Prelude.

Section Store.
Context {V : Type}.

(** One element of ["text_chunks"]. *)
Record text_chunk := mk_text_chunk {
  chunk_id : nat;
  text : str;
  embedding : V
}.

(** [hotel_emb_obj], the record stored per document. *)
Record emb_obj := mk_emb_obj {
  doc_id : str;
  text_chunks : list text_chunk
}.

(** [mongo_collection.insert_one(obj)] *)
Definition insert_one (collection : list emb_obj) (obj : emb_obj) : list emb_obj :=
  collection ++ [obj].

(** [db.find({"doc_id": doc_id})] *)
Definition find (collection : list emb_obj) (id : str) : list emb_obj :=
  List.filter (λ o, bool_decide (doc_id o = id)) collection.
End Store.

Arguments text_chunk : clear implicits.
Arguments emb_obj : clear implicits.
