(* ===== verification/Providers.v ===== *)
(** The OpenAI client as the code calls it: [openai.Embedding.create]
    (model, input) and [openai.ChatCompletion.create] (model, messages,
    temperature).  Both are external services; each is an interface (a
    class) whose calls may fail with [ProviderError].  The embedding
    response's ["data"] is a list of items with an ["index"] and an
    ["embedding"]; the chat response's ["choices"] is modelled by the list
    of the choices' message contents. *)

From S2P Require Import Prelude.

Record embedding_item {V : Type} := mk_embedding_item {
  index : nat;
  item_embedding : V
}.
Arguments embedding_item : clear implicits.

Class EmbeddingAPI (V : Type) := {
  Embedding_create : str → list str → result (list (embedding_item V))
}.

(** A chat message: role and content. *)
Definition chat_message : Type := (str * str)%type.

Class ChatAPI := {
  ChatCompletion_create : str → list chat_message → Z → result (list str)
}.
