(* ===== verification/Ranker.v ===== *)
(** Retrieval and prompt assembly of
    [src/ai-compendium/api/predict_response.py]:
    [strings_ranked_by_similarity] (lines 14-32) and [query_message]
    (lines 41-58).  The embedding type [V], the score type [K] with its
    [<] ([lt]) and the relatedness function are parameters: the code's
    default relatedness is [1 - scipy.spatial.distance.cosine] on float
    vectors, but [strings_ranked_by_similarity] takes any
    [relatedness_fn]. *)

From S2P Require Import Prelude Config Tokenizer StableSort ListSort Store Providers.
From Stdlib Require Import Sorting.Sorted Sorting.Permutation.

Definition QUOTE : ascii := "034"%char.

(** [f'<three double quotes>\n{string}\n<three double quotes>'] *)
Definition article (string : str) : str :=
  [QUOTE; QUOTE; QUOTE] ++ [NL] ++ string ++ [NL] ++ [QUOTE; QUOTE; QUOTE].
Arguments article : simpl never.

(** The two adjacent literals of [introduction], concatenated. *)
Definition introduction : str :=
  lit "You will be given some context and a question that follows that context." ++
  lit "Your job is to answer the question based on the context provided.".

(** [f"\n\nQuestion: {query}"] *)
Definition question_of (query : str) : str := [NL; NL] ++ lit "Question: " ++ query.

Section Ranker.
Context {V K : Type} `{EmbeddingAPI V} `{Tiktoken} (lt : K → K → bool).

(** [strings_ranked_by_similarity(query, embedding_obj, relatedness_fn, top_n)]:
    embed the query, score every chunk of the first record, sort by
    decreasing score, keep the first [top_n]. *)
Definition strings_ranked_by_similarity (query : str) (embedding_obj : list (emb_obj V))
    (relatedness_fn : V → V → K) (top_n : nat) : result (list str * list K) :=
  query_embedding_response ← Embedding_create EMBEDDING_MODEL [query];
  item ← py_index0 (lit "list index out of range") query_embedding_response;
  let query_embedding := item_embedding item in
  obj ← py_index0 (lit "no such item for Cursor instance") embedding_obj;
  let strings_and_similarities :=
    map (λ c, (text c, relatedness_fn query_embedding (embedding c))) (text_chunks obj) in
  let sorted := list_sort_desc snd lt strings_and_similarities in
  '(strings, similarities) ← py_unzip2 sorted;
  mret (take top_n strings, take top_n similarities).

(** [num_tokens(text, model=ANSWERING_MODEL)] of [predict_response.py]
    (lines 35-38), the function [query_message] calls: the same body as
    the [num_tokens] of [create_embeddings.py]. *)
Definition pr_num_tokens (text model : str) : nat :=
  length (encode (encoding_for_model model) text).

(** The loop of [query_message]: append each ranked string as a quoted
    article unless the message, the article and the question would exceed
    [token_budget]; stop at the first that would. *)
Fixpoint add_articles (model : str) (token_budget : nat) (question message : str)
    (strings : list str) : str :=
  match strings with
  | [] => message
  | string :: rest =>
      let next_article := article string in
      if decide (token_budget < pr_num_tokens (message ++ next_article ++ question) model)
      then message
      else add_articles model token_budget question (message ++ next_article) rest
  end.

(** [query_message(query, embedding_obj, model, token_budget)], with the
    default [relatedness_fn] and [top_n=TOP_K]. *)
Definition query_message (relatedness_fn : V → V → K) (query : str)
    (embedding_obj : list (emb_obj V)) (model : str) (token_budget : nat) : result str :=
  '(strings, similarity) ← strings_ranked_by_similarity query embedding_obj relatedness_fn TOP_K;
  let question := question_of query in
  let message := add_articles model token_budget question introduction strings in
  mret (message ++ question).
End Ranker.

(** The scored chunks of a record, in the order they are stored. *)
Definition scored {V K} (relatedness_fn : V → V → K) (query_embedding : V) (obj : emb_obj V)
    : list (str * K) :=
  map (λ c, (text c, relatedness_fn query_embedding (embedding c))) (text_chunks obj).

(** The contract of the ranking: [output] is a stable top-[n] selection of
    [input] by decreasing score. *)
Definition stable_top_n {K} (lt : K → K → bool) (n : nat) (input output : list (str * K)) : Prop :=
  (** as many as asked for, or all of them *)
  length output = min n (length input) ∧
  (** by non-increasing score *)
  StronglySorted (λ p q, lt p.2 q.2 = false) output ∧
  (** taken from the input, and no score left out is greater than a score kept *)
  (∃ rest, Permutation (output ++ rest) input ∧
           Forall (λ p, Forall (λ q, lt p.2 q.2 = false) rest) output) ∧
  (** equal scores keep their input order *)
  (∀ k, prefix (List.filter (λ p, equivb lt p.2 k) output) (List.filter (λ p, equivb lt p.2 k) input)).

Section RankerFacts.
Context {V K : Type} `{EmbeddingAPI V} `{Tiktoken} (lt : K → K → bool).

(** What a successful ranking is made of. *)
Lemma strings_ranked_by_similarity_Ok query objs rel n ss ks :
  strings_ranked_by_similarity lt query objs rel n = Ok (ss, ks) →
  ∃ item items obj rest,
    Embedding_create EMBEDDING_MODEL [query] = Ok (item :: items) ∧ objs = obj :: rest ∧
    scored rel (item_embedding item) obj ≠ [] ∧
    ss = take n (map fst (list_sort_desc snd lt (scored rel (item_embedding item) obj))) ∧
    ks = take n (map snd (list_sort_desc snd lt (scored rel (item_embedding item) obj))).
Proof.
  unfold strings_ranked_by_similarity.
  destruct (Embedding_create _ _) as [[|item items]|e]; simpl; try done.
  destruct objs as [|obj rest]; simpl; [done|].
  fold (scored rel (item_embedding item) obj).
  destruct (list_sort_desc snd lt (scored rel (item_embedding item) obj)) as [|p ps] eqn:Hs; simpl; [done|].
  intros [= <- <-]. exists item, items, obj, rest. rewrite Hs. repeat split; try done.
  intros Hnil. rewrite Hnil in Hs. done.
Qed.

(** The two [num_tokens] functions of the code agree. *)
Lemma pr_num_tokens_num_tokens text model : pr_num_tokens text model = num_tokens text model.
Proof. done. Qed.

(** The greedy loop of [query_message]: it appends the articles of the
    first [k] strings, every prefix it appended fits the budget with the
    question, and the next one (if any) would not. *)
Lemma add_articles_spec model budget question msg0 strings :
  ∃ k, k ≤ length strings ∧
    add_articles model budget question msg0 strings = msg0 ++ concat (map article (take k strings)) ∧
    (∀ j, 0 < j ≤ k →
       num_tokens (msg0 ++ concat (map article (take j strings)) ++ question) model ≤ budget) ∧
    (k < length strings →
       budget < num_tokens (msg0 ++ concat (map article (take (S k) strings)) ++ question) model).
Proof.
  revert msg0. induction strings as [|s strings IH]; intros msg0; cbn [add_articles length].
  - exists 0. rewrite app_nil_r. split; [lia|]. split; [done|]. split; intros; lia.
  - case_decide as Hover; rewrite pr_num_tokens_num_tokens in Hover.
    + exists 0. cbn [take map concat]. rewrite !app_nil_r. split; [lia|]. split; [done|].
      split; [intros; lia|]. intros _. done.
    + destruct (IH (msg0 ++ article s)) as (k & Hk & Heq & Hfit & Hstop).
      exists (S k). cbn [take map concat length]. rewrite Heq, <- (assoc_L (++)). split; [lia|]. split; [done|].
      split.
      * intros [|[|j]] Hj; [lia| |]; cbn [take map concat]; [rewrite app_nil_r; lia|].
        specialize (Hfit (S j) ltac:(lia)). rewrite <- !(assoc_L (++)) in Hfit |- *. exact Hfit.
      * intros Hlt. specialize (Hstop ltac:(lia)). rewrite <- !(assoc_L (++)) in Hstop |- *.
        exact Hstop.
Qed.

(** The first [n] of the stable descending sort are a stable top-[n]. *)
Lemma take_sort_desc_stable_top_n `{!StrictWeakOrderB lt} n (input : list (str * K)) :
  stable_top_n lt n input (take n (sort_desc snd lt input)).
Proof.
  pose proof (sort_desc_perm snd lt input) as Hperm.
  pose proof (sort_desc_sorted snd lt input) as Hsort.
  split; [by rewrite length_take, Hperm|]. split; [by apply StronglySorted_take|]. split.
  - exists (drop n (sort_desc snd lt input)). rewrite take_drop. split; [done|].
    apply StronglySorted_app_rel. by rewrite take_drop.
  - intros k. rewrite <- (sort_desc_stable snd lt input k). apply filter_take_prefix.
Qed.

(** C12. Refinement of the ranking contract: a successful
    [strings_ranked_by_similarity] embedded the query, read the first
    record found, and returned (as its two columns) a stable top-[top_n]
    selection of that record's chunks scored against the query embedding:
    sorted by non-increasing score, ties in insertion order, no dropped
    chunk scoring higher than a kept one. *)
Theorem strings_ranked_by_similarity_top_n `{!StrictWeakOrderB lt} query objs rel n ss ks :
  strings_ranked_by_similarity lt query objs rel n = Ok (ss, ks) →
  ∃ item items obj rest,
    Embedding_create EMBEDDING_MODEL [query] = Ok (item :: items) ∧ objs = obj :: rest ∧
    length ss = length ks ∧
    stable_top_n lt n (scored rel (item_embedding item) obj) (zip ss ks).
Proof.
  intros (item & items & obj & rest & Hemb & -> & _ & -> & ->)%strings_ranked_by_similarity_Ok.
  exists item, items, obj, rest. split; [done|]. split; [done|].
  rewrite !length_take, !length_map. split; [done|].
  rewrite zip_take_fst_snd, (list_sort_desc_sort_desc snd lt). apply take_sort_desc_stable_top_n.
Qed.

(** C13. Exactly when [strings_ranked_by_similarity] raises, and what:
    the embedding call failed (its exception passes through), its
    response had no item ([IndexError]), no record was found for the
    document ([IndexError] on the cursor), or the record has no chunks
    ([ValueError] from unpacking an empty [zip]); in every other case it
    returns. *)
Theorem strings_ranked_by_similarity_Raise query objs rel n e :
  strings_ranked_by_similarity lt query objs rel n = Raise e ↔
  Embedding_create EMBEDDING_MODEL [query] = Raise e ∨
  (Embedding_create EMBEDDING_MODEL [query] = Ok [] ∧ e = IndexError (lit "list index out of range")) ∨
  (∃ items, Embedding_create EMBEDDING_MODEL [query] = Ok items ∧ items ≠ [] ∧ objs = [] ∧
     e = IndexError (lit "no such item for Cursor instance")) ∨
  (∃ items obj rest, Embedding_create EMBEDDING_MODEL [query] = Ok items ∧ items ≠ [] ∧
     objs = obj :: rest ∧ text_chunks obj = [] ∧
     e = ValueError (lit "not enough values to unpack (expected 2, got 0)")).
Proof.
  unfold strings_ranked_by_similarity.
  destruct (Embedding_create _ _) as [[|item items]|e']; simpl.
  - split; [intros [= <-]; auto|]. intros [?|[[_ ->]|[(? & [= <-] & Hne & _)|(? & ? & ? & [= <-] & Hne & _)]]];
      done.
  - destruct objs as [|obj rest]; simpl.
    + split; [intros [= <-]; right; right; left; eauto|].
      intros [?|[[? _]|[(? & _ & _ & _ & ->)|(? & ? & ? & _ & _ & ? & _)]]]; done.
    + fold (scored rel (item_embedding item) obj).
      assert (Hlen : length (list_sort_desc snd lt (scored rel (item_embedding item) obj)) = length (text_chunks obj))
        by (rewrite (Permutation_length (list_sort_desc_perm _ _ _)); apply length_map).
      destruct (list_sort_desc snd lt (scored rel (item_embedding item) obj)) as [|p ps] eqn:Hs; simpl.
      * split; [intros [= <-]; right; right; right; exists (item :: items), obj, rest;
                repeat split; try done; by apply length_zero_iff_nil|].
        intros [?|[[? _]|[(? & _ & _ & ? & _)|(? & ? & ? & _ & _ & [= <- <-] & _ & ->)]]]; done.
      * split; [done|]. intros [?|[[? _]|[(? & _ & _ & ? & _)|(? & ? & ? & _ & _ & [= <- <-] & Hc & _)]]];
          try done. rewrite Hc in Hlen. done.
  - split; [intros [= ->]; by left|]. intros [[= ->]|[[? _]|[(? & ? & _)|(? & ? & ? & ? & _)]]]; done.
Qed.

(** The shape of the prompt [query_message] assembles. *)
Lemma query_message_shape rel query objs model budget msg :
  query_message lt rel query objs model budget = Ok msg →
  ∃ strings sims k,
    strings_ranked_by_similarity lt query objs rel TOP_K = Ok (strings, sims) ∧
    k ≤ length strings ∧
    msg = introduction ++ concat (map article (take k strings)) ++ question_of query ∧
    (∀ j, 0 < j ≤ k →
       num_tokens (introduction ++ concat (map article (take j strings)) ++ question_of query)
         model ≤ budget) ∧
    (k < length strings →
       budget < num_tokens (introduction ++ concat (map article (take (S k) strings)) ++
                              question_of query) model).
Proof.
  unfold query_message.
  destruct (strings_ranked_by_similarity lt query objs rel TOP_K) as [[ss ks]|e]; simpl; [|done].
  intros [= <-].
  destruct (add_articles_spec model budget (question_of query) introduction ss)
    as (k & Hk & Heq & Hfit & Hstop).
  exists ss, ks, k. rewrite Heq, <- (assoc_L (++)). auto.
Qed.

(** C14. [query_message] assembles the prompt greedily: it is the
    introduction, the quoted articles of the first [k] ranked strings and
    the question, where every prefix of articles it kept fits
    [token_budget] together with the question, and the next ranked string
    (if any) would have overflowed it. *)
Theorem query_message_greedy rel query objs model budget msg :
  query_message lt rel query objs model budget = Ok msg →
  ∃ strings sims k,
    strings_ranked_by_similarity lt query objs rel TOP_K = Ok (strings, sims) ∧
    k ≤ length strings ∧
    msg = introduction ++ concat (map article (take k strings)) ++ question_of query ∧
    (∀ j, 0 < j ≤ k →
       num_tokens (introduction ++ concat (map article (take j strings)) ++ question_of query)
         model ≤ budget) ∧
    (k < length strings →
       budget < num_tokens (introduction ++ concat (map article (take (S k) strings)) ++
                              question_of query) model).
Proof. by apply query_message_shape. Qed.

(** C15. The prompt [query_message] returns is within [token_budget]
    tokens, question included, unless it holds no context at all (then it
    is the introduction and the question, whatever their length). *)
Theorem query_message_budget rel query objs model budget msg :
  query_message lt rel query objs model budget = Ok msg →
  msg = introduction ++ question_of query ∨ num_tokens msg model ≤ budget.
Proof.
  intros (ss & ks & k & _ & Hk & -> & Hfit & _)%query_message_shape.
  destruct k as [|k]; [by left|]. right. apply Hfit. lia.
Qed.
End RankerFacts.

(** ** Witnesses: integer embeddings scored by a dot product, an embedding
    provider that counts the letters x and y, and the character-level
    tokenizer. *)
Section Witnesses.

Fixpoint dot (u v : list Z) : Z :=
  match u, v with
  | a :: u', b :: v' => a * b + dot u' v'
  | _, _ => 0
  end%Z.

Definition count_char (c : ascii) (s : str) : Z := Z.of_nat (length (List.filter (λ a, bool_decide (a = c)) s)).

#[local] Instance demo_embedding_api : EmbeddingAPI (list Z) := {|
  Embedding_create := λ _ inputs,
    Ok (imap (λ i s, mk_embedding_item _ i [count_char "x"%char s; count_char "y"%char s]) inputs)
|}.

Definition demo_doc : emb_obj (list Z) :=
  mk_emb_obj (lit "doc1")
    [mk_text_chunk 0 (lit "X") [1; 0]%Z;
     mk_text_chunk 1 (lit "Y") [0; 1]%Z;
     mk_text_chunk 2 (lit "Z") [1; 0]%Z].

Definition empty_doc : emb_obj (list Z) := mk_emb_obj (lit "doc2") [].

(** "X" and "Z" tie on score 1 and keep their stored order; "Y" is dropped. *)
Example strings_ranked_by_similarity_example :
  strings_ranked_by_similarity Z.ltb (lit "x") [demo_doc] dot 2 = Ok ([lit "X"; lit "Z"], [1; 1]%Z).
Proof. vm_compute. reflexivity. Qed.

Lemma strings_ranked_by_similarity_top_n_witness :
  ∃ item items obj rest,
    Embedding_create EMBEDDING_MODEL [lit "x"] = Ok (item :: items) ∧ [demo_doc] = obj :: rest ∧
    length [lit "X"; lit "Z"] = length [1; 1]%Z ∧
    stable_top_n Z.ltb 2 (scored dot (item_embedding item) obj) (zip [lit "X"; lit "Z"] [1; 1]%Z).
Proof. apply (strings_ranked_by_similarity_top_n Z.ltb (lit "x")). vm_compute. reflexivity. Defined.

Lemma strings_ranked_by_similarity_Raise_witness :
  let e := ValueError (lit "not enough values to unpack (expected 2, got 0)") in
  Embedding_create EMBEDDING_MODEL [lit "x"] = Raise e ∨
  (Embedding_create EMBEDDING_MODEL [lit "x"] = Ok [] ∧ e = IndexError (lit "list index out of range")) ∨
  (∃ items, Embedding_create EMBEDDING_MODEL [lit "x"] = Ok items ∧ items ≠ [] ∧ [empty_doc] = [] ∧
     e = IndexError (lit "no such item for Cursor instance")) ∨
  (∃ items obj rest, Embedding_create EMBEDDING_MODEL [lit "x"] = Ok items ∧ items ≠ [] ∧
     [empty_doc] = obj :: rest ∧ text_chunks obj = [] ∧
     e = ValueError (lit "not enough values to unpack (expected 2, got 0)")).
Proof. apply (strings_ranked_by_similarity_Raise Z.ltb (lit "x") [empty_doc] dot 2). vm_compute. reflexivity. Defined.

Lemma query_message_greedy_witness :
  ∃ msg, query_message Z.ltb dot (lit "x") [demo_doc] ANSWERING_MODEL 165 = Ok msg ∧
  ∃ strings sims k,
    strings_ranked_by_similarity Z.ltb (lit "x") [demo_doc] dot TOP_K = Ok (strings, sims) ∧
    k ≤ length strings ∧
    msg = introduction ++ concat (map article (take k strings)) ++ question_of (lit "x") ∧
    (∀ j, 0 < j ≤ k →
       num_tokens (introduction ++ concat (map article (take j strings)) ++ question_of (lit "x"))
         ANSWERING_MODEL ≤ 165) ∧
    (k < length strings →
       165 < num_tokens (introduction ++ concat (map article (take (S k) strings)) ++
                           question_of (lit "x")) ANSWERING_MODEL).
Proof.
  eexists. split; [vm_compute; reflexivity|].
  apply query_message_greedy. vm_compute. reflexivity.
Defined.

Lemma query_message_budget_witness :
  ∃ msg, query_message Z.ltb dot (lit "x") [demo_doc] ANSWERING_MODEL 165 = Ok msg ∧
    (msg = introduction ++ question_of (lit "x") ∨ num_tokens msg ANSWERING_MODEL ≤ 165).
Proof.
  eexists. split; [vm_compute; reflexivity|].
  apply (query_message_budget Z.ltb dot (lit "x") [demo_doc]). vm_compute. reflexivity.
Defined.
(** The spec promises that the context (the prompt without the trailing
    question) never exceeds the budget; with a budget of 100 tokens the
    code returns the 137-character introduction anyway. *)
Example query_message_over_budget :
  query_message Z.ltb dot (lit "x") [demo_doc] ANSWERING_MODEL 100 =
    Ok (introduction ++ question_of (lit "x")) ∧
  100 < num_tokens introduction ANSWERING_MODEL.
Proof. split; vm_compute; [reflexivity|lia]. Qed.
End Witnesses.
