(* ===== verification/Cosine.v ===== *)
(** The default [relatedness_fn] of [strings_ranked_by_similarity]
    ([src/ai-compendium/api/predict_response.py] line 17),
    [lambda x, y: 1 - spatial.distance.cosine(x, y)], on IEEE-754 doubles
    (Rocq's primitive floats, which are Python's [float]).  [scipy] is a
    library the code only calls; [spatial.distance.cosine(u, v)] is
    [correlation(u, v, centered=False)]: [uv = np.dot(u, v)],
    [uu = np.dot(u, u)], [vv = np.dot(v, v)],
    [np.clip(1.0 - uv / math.sqrt(uu * vv), 0.0, 2.0)].  [np.dot] is a
    left-to-right sum of products here (exact for the two-dimensional
    vectors of the examples).  A zero vector gives [0 / 0], a NaN score:
    Python's [<] on floats is then not a strict weak order, the
    ordering theorems of [Ranker.v] do not apply, and the ranking CPython's
    sort returns can put the best chunk last
    ([strings_ranked_by_similarity_nan_order]). *)

From S2P Require Import Prelude Config Store Providers StableSort Ranker.
From Corelib Require Import PrimFloat.

Local Open Scope float_scope.

(** [np.dot(u, v)] *)
Definition np_dot (u v : list float) : float :=
  fold_left (λ acc p, acc + p.1 * p.2) (zip u v) 0.

(** [np.clip(x, lo, hi)]: a NaN stays NaN. *)
Definition np_clip (x lo hi : float) : float :=
  if PrimFloat.ltb x lo then lo else if PrimFloat.ltb hi x then hi else x.

(** [scipy.spatial.distance.cosine(u, v)] *)
Definition cosine (u v : list float) : float :=
  let uv := np_dot u v in
  let uu := np_dot u u in
  let vv := np_dot v v in
  np_clip (1 - uv / PrimFloat.sqrt (uu * vv)) 0 2.

(** [lambda x, y: 1 - spatial.distance.cosine(x, y)] *)
Definition default_relatedness (x y : list float) : float := 1 - cosine x y.

(** ** The example of the spec *)
Section SpecExample.

(** A provider that embeds every text as [[1, 0]]. *)
Definition unit_x_provider : EmbeddingAPI (list float) := {|
  Embedding_create := λ _ batch, Ok (imap (λ i _, mk_embedding_item (list float) i [1; 0]) batch)
|}.
#[local] Existing Instance unit_x_provider.

Definition xy_doc : emb_obj (list float) :=
  mk_emb_obj (lit "doc") [mk_text_chunk 0 (lit "X") [1; 0]; mk_text_chunk 1 (lit "Y") [0; 1]].

(** The example of the spec, run with the code's default
    relatedness on doubles: for the query embedding [[1, 0]] and the
    chunks [X] at [[1, 0]] and [Y] at [[0, 1]], the ranking with
    [top_n = 2] is [X] with score [1.0], then [Y] with score [0.0]. *)
Example strings_ranked_by_similarity_spec_example :
  strings_ranked_by_similarity PrimFloat.ltb (lit "q") [xy_doc] default_relatedness 2 =
    Ok ([lit "X"; lit "Y"], [1; 0]).
Proof. vm_compute. reflexivity. Qed.

(** A chunk [A] at [[1, 1]], a chunk [Z] with the zero embedding, a chunk
    [B] at [[1, 0]]. *)
Definition nan_doc : emb_obj (list float) :=
  mk_emb_obj (lit "doc")
    [mk_text_chunk 0 (lit "A") [1; 1]; mk_text_chunk 1 (lit "Z") [0; 0]; mk_text_chunk 2 (lit "B") [1; 0]].

(** With a NaN score among them, [list.sort] as CPython runs it finds one
    ascending run in the reversed scores [[1.0, nan, 0.707]] (no score is
    [<] its NaN neighbour) and leaves them as they are: the ranking puts
    [A] (score 0.707) first and the best match [B] (score 1.0) last. *)
Example strings_ranked_by_similarity_nan_order :
  match strings_ranked_by_similarity PrimFloat.ltb (lit "q") [nan_doc] default_relatedness 3 with
  | Ok (ss, ks) => ss = [lit "A"; lit "Z"; lit "B"] ∧ PrimFloat.ltb (nth 0 ks 0) (nth 2 ks 0) = true
  | Raise _ => False
  end.
Proof. vm_compute. split; reflexivity. Qed.
End SpecExample.

(** A zero embedding has no direction: its score against any vector is
    NaN ([0 / 0] in [uv / math.sqrt(uu * vv)]). *)
Lemma default_relatedness_zero_nan : PrimFloat.is_nan (default_relatedness [0; 0] [1; 0]) = true.
Proof. vm_compute. reflexivity. Qed.
