(* ===== verification/State.v ===== *)
(** The state the service's handlers act on: the files on the host's disk
    (the uploaded PDFs under [pdfs/], the optional text and CSV dumps), the
    MongoDB collection of [Store.v], and what the process printed.  File
    contents are kept at the level the code uses them: an uploaded PDF is
    its pages' text (what [pdftotext] would extract), other uploads are
    opaque bytes.  Files are keyed by the path the kernel resolves
    ([os_normpath] of [Paths.v]); opening a directory raises
    [IsADirectoryError]. *)

From S2P Require Import Prelude Paths Tokenizer Store.
From stdpp Require Import gmap.

Section State.
Context {V : Type}.

Inductive file_content :=
  | PdfFile (pages : list str)
  | OtherFile (bytes : str)
  | TextFile (text : str)
  | CsvFile (rows : list (str * V)).

Record svc_state := mk_svc_state {
  files : gmap str file_content;
  collection : list (emb_obj V);
  stdout : list printed
}.

Definition set_files (s : svc_state) (fs : gmap str file_content) : svc_state :=
  mk_svc_state fs (collection s) (stdout s).

Definition set_collection (s : svc_state) (c : list (emb_obj V)) : svc_state :=
  mk_svc_state (files s) c (stdout s).

(** [open(path, "wb").write(...)]: the file the path resolves to is
    created or overwritten; a directory cannot be opened. *)
Definition write_file (path : str) (content : file_content) : pyst svc_state unit :=
  fun s => let key := os_normpath path in
           if is_dir_key key then (Raise (IsADirectoryError path), s)
           else (Ok tt, set_files s (<[key := content]> (files s))).

(** [os.remove(path)] *)
Definition remove_file (path : str) : pyst svc_state unit :=
  fun s => let key := os_normpath path in
           match files s !! key with
           | Some _ => (Ok tt, set_files s (delete key (files s)))
           | None => (Raise (if is_dir_key key then IsADirectoryError path else FileNotFoundError path), s)
           end.

(** [open(path, "rb")] *)
Definition read_file (path : str) : pyst svc_state file_content :=
  fun s => let key := os_normpath path in
           match files s !! key with
           | Some c => (Ok c, s)
           | None => (Raise (if is_dir_key key then IsADirectoryError path else FileNotFoundError path), s)
           end.

(** [mongo_collection.insert_one(obj)] *)
Definition insert_record (obj : emb_obj V) : pyst svc_state unit :=
  fun s => (Ok tt, set_collection s (insert_one (collection s) obj)).

(** The state after the lines [ls] were printed. *)
Definition add_stdout (s : svc_state) (ls : list printed) : svc_state :=
  mk_svc_state (files s) (collection s) (stdout s ++ ls).

(** [print(...)] of the given lines *)
Definition print_lines (ls : list printed) : pyst svc_state unit :=
  fun s => (Ok tt, add_stdout s ls).
End State.

Arguments file_content : clear implicits.
Arguments svc_state : clear implicits.
