(* ===== verification/Ingest.v ===== *)
(** Ingestion, [src/create_embeddings.py]: [generate_embeddings] (lines
    24-38), [convert_to_text] (41-64), [create_embeddings_from_text]
    (67-78) and [create_embedding] (179-211), over the service state of
    [State.v].  The embedding calls go through the [EmbeddingAPI]
    interface; a call does not touch the state.  Every [print] is a line
    appended to the state's stdout, in program order.  [BASE_DIR] (the
    installation directory) is a parameter. *)

From S2P Require Import Prelude Config Paths Tokenizer Chunker Store Providers State.
From stdpp Require Import gmap.

(** [range(start, stop, step)] for a positive [step] *)
Definition py_range_step (start stop step : nat) : list nat :=
  map (λ k, start + k * step) (seq 0 ((stop - start + step - 1) / step)).

(** [l[a:b]] for [0 ≤ a ≤ b] *)
Definition py_slice {A} (a b : nat) (l : list A) : list A := take (b - a) (drop a l).

(** The [batch] of each pass of the loop of [create_embedding]:
    [chunks[batch_start:batch_start + BATCH_SIZE]] for [batch_start] in
    [range(0, len(chunks), BATCH_SIZE)]. *)
Definition chunk_batches {A} (chunks : list A) : list (list A) :=
  map (λ b, py_slice b (b + BATCH_SIZE) chunks) (py_range_step 0 (length chunks) BATCH_SIZE).

Section Ingest.
Context {V : Type} `{EmbeddingAPI V} `{Tiktoken} (BASE_DIR : str).

(** [for i, be in enumerate(response["data"]): assert i == be["index"]] *)
Definition check_indices (data : list (embedding_item V)) : result unit :=
  if forallb (λ '(i, be), Nat.eqb i (index be)) (zip (seq 0 (length data)) data)
  then Ok tt else Raise AssertionError.

(** The progress line of a batch: [min(len(chunks), batch_end - 1)]. *)
Definition batch_line (n batch_start : nat) : printed :=
  BatchRange batch_start (Nat.min n (batch_start + BATCH_SIZE - 1)).

(** The batch loop of [create_embedding]: for each batch, the progress
    line, one embedding call, the index check, then [embeddings.extend]. *)
Fixpoint embed_batches (chunks : list str) (starts : list nat) (embeddings : list V)
    : pyst (svc_state V) (list V) :=
  match starts with
  | [] => mret embeddings
  | batch_start :: rest =>
      let batch_end := batch_start + BATCH_SIZE in
      let batch := py_slice batch_start batch_end chunks in
      _ ← print_lines [batch_line (length chunks) batch_start];
      response ← lift_result (Embedding_create EMBEDDING_MODEL batch);
      _ ← lift_result (check_indices response);
      embed_batches chunks rest (embeddings ++ map item_embedding response)
  end.

(** [pd.DataFrame({"text": chunks, "embedding": embeddings})]: the two
    columns must have the same length. *)
Definition data_frame (chunks : list str) (embeddings : list V) : result (list (str * V)) :=
  if decide (length chunks = length embeddings) then Ok (zip chunks embeddings)
  else Raise (ValueError (lit "All arrays must be of the same length")).

(** [hotel_emb_obj], built row by row with [chunk_id = i]. *)
Definition build_emb_obj (doc_id : str) (df : list (str * V)) : emb_obj V :=
  mk_emb_obj doc_id (imap (λ i row, mk_text_chunk i row.1 row.2) df).

(** [create_embedding(chunks, doc_id, save_df, debug)] *)
Definition create_embedding (chunks : list str) (doc_id : str) (save_df debug : bool)
    : pyst (svc_state V) str :=
  embeddings ← embed_batches chunks (py_range_step 0 (length chunks) BATCH_SIZE) [];
  df ← lift_result (data_frame chunks embeddings);
  let save_path := EMBEDDINGS_SAVE_PATH BASE_DIR in
  _ ← (if save_df then
         _ ← insert_record (build_emb_obj doc_id df);
         _ ← print_lines [SavedToMongo];
         if debug then
           _ ← write_file save_path (CsvFile df);
           print_lines [CsvSaved save_path]
         else mret tt
       else mret tt);
  mret save_path.

(** [convert_to_text(file_path, doc_id, save_text_file)] *)
Definition convert_to_text (file_path doc_id : str) (save_text_file : bool)
    : pyst (svc_state V) str :=
  content ← read_file file_path;
  pages ← (match content with
           | PdfFile pages => mret pages
           | _ => py_raise (PdfError (lit "Failed to load document"))
           end);
  let pdf_text := py_join [NL; NL] pages in
  _ ← print_lines [TextExtracted];
  _ ← remove_file file_path;
  _ ← print_lines [PdfDeleted file_path];
  _ ← (if save_text_file
       then write_file (lit "./artifacts/pdf_text/" ++ doc_id ++ lit "_pdf2text.txt")
              (TextFile pdf_text)
       else mret tt);
  mret pdf_text.

(** [create_embeddings_from_text(text_data, doc_id)] *)
Definition create_embeddings_from_text (text_data doc_id : str) : pyst (svc_state V) str :=
  let '(chunks, out) := split_into_chunks text_data in
  _ ← print_lines out;
  create_embedding chunks doc_id true DEBUG.

(** [generate_embeddings(source_file_path, doc_id)] *)
Definition generate_embeddings (source_file_path doc_id : str) : pyst (svc_state V) str :=
  text_data ← convert_to_text source_file_path doc_id false;
  create_embeddings_from_text text_data doc_id.
End Ingest.

(** ** Batches *)

Lemma batches_take {A} k (l : list A) :
  concat (map (λ b, py_slice b (b + BATCH_SIZE) l) (map (λ j, 0 + j * BATCH_SIZE) (seq 0 k))) =
    take (k * BATCH_SIZE) l.
Proof.
  induction k as [|k IH]; [done|].
  rewrite seq_S, !map_app, concat_app, IH. simpl. rewrite app_nil_r.
  unfold py_slice, BATCH_SIZE. replace (k * 50 + 50 - k * 50) with 50 by lia.
  rewrite take_take_drop. f_equal. lia.
Qed.

(** The batches of [create_embedding] are consecutive slices of at most
    [BATCH_SIZE] chunks each. *)
Lemma batch_length {A} (l : list A) b :
  b ∈ py_range_step 0 (length l) BATCH_SIZE →
  0 < length (py_slice b (b + BATCH_SIZE) l) ≤ BATCH_SIZE.
Proof.
  unfold py_range_step, py_slice. rewrite list_elem_of_In, in_map_iff.
  intros (j & <- & Hj%in_seq). rewrite length_take, length_drop.
  unfold BATCH_SIZE in *. replace (0 + j * 50 + 50 - (0 + j * 50)) with 50 by lia.
  assert (j * 50 < length l).
  { destruct (decide (j * 50 < length l)); [done|]. exfalso.
    assert (Hd : (length l - 0 + 50 - 1) / 50 * 50 ≤ length l + 49) by
      (pose proof (Nat.Div0.mul_div_le (length l - 0 + 50 - 1) 50); lia).
    nia. }
  lia.
Qed.

(** The batches cover the chunks exactly, in order. *)
Lemma batches_cover {A} (chunks : list A) :
  concat (map (λ b, py_slice b (b + BATCH_SIZE) chunks)
            (py_range_step 0 (length chunks) BATCH_SIZE)) = chunks.
Proof.
  unfold py_range_step. rewrite batches_take. apply take_ge.
  unfold BATCH_SIZE. rewrite Nat.sub_0_r.
  pose proof (Nat.div_mod (length chunks + 50 - 1) 50 ltac:(lia)).
  pose proof (Nat.mod_upper_bound (length chunks + 50 - 1) 50 ltac:(lia)). lia.
Qed.

(** ** What [create_embedding] stores *)

Lemma check_indices_go {V} (data : list (embedding_item V)) k :
  forallb (λ '(i, be), Nat.eqb i (index be)) (zip (seq k (length data)) data) = true ↔
    map index data = seq k (length data).
Proof.
  revert k. induction data as [|x data IH]; intros k; [done|]. simpl.
  rewrite andb_true_iff, Nat.eqb_eq, IH. split; [intros [-> ->]; done|].
  intros [= <- Hrest]. done.
Qed.

Lemma check_indices_ok {V} (data : list (embedding_item V)) :
  map index data = seq 0 (length data) → check_indices data = Ok tt.
Proof. intros Hidx. unfold check_indices. by rewrite (proj2 (check_indices_go data 0) Hidx). Qed.

Lemma check_indices_Ok_iff {V} (data : list (embedding_item V)) u :
  check_indices data = Ok u ↔ map index data = seq 0 (length data).
Proof.
  unfold check_indices. rewrite <-check_indices_go. destruct u.
  destruct (forallb _ _); split; done.
Qed.

(** C17. The index assertion of [create_embedding] passes exactly when the
    items carry the indices [0, 1, ..., n-1] in order, where [n] is the
    number of items returned (not the number of inputs sent); otherwise it
    raises [AssertionError]. *)
Theorem check_indices_spec {V} (data : list (embedding_item V)) :
  check_indices data =
    if bool_decide (map index data = seq 0 (length data)) then Ok tt else Raise AssertionError.
Proof.
  unfold check_indices. case_bool_decide as Hidx.
  - by rewrite (proj2 (check_indices_go data 0) Hidx).
  - destruct (forallb _ _) eqn:Hf; [|done]. exfalso. by apply Hidx, check_indices_go.
Qed.

Lemma build_emb_obj_zip {V} doc (e : str → V) (l : list str) :
  build_emb_obj doc (zip l (map e l)) = mk_emb_obj doc (imap (λ i c, mk_text_chunk i c (e c)) l).
Proof.
  unfold build_emb_obj. f_equal.
  enough (∀ h : nat → str → V → text_chunk V,
            imap (λ i row, h i row.1 row.2) (zip l (map e l)) = imap (λ i c, h i c (e c)) l)
    as Hgen by apply (Hgen (λ i t v, mk_text_chunk i t v)).
  induction l as [|x l IH]; intros h; [done|].
  change (zip (x :: l) (map e (x :: l))) with ((x, e x) :: zip l (map e l)).
  rewrite !imap_cons. f_equal. apply (IH (λ i, h (S i))).
Qed.

(** The chunk ids of a built record are [0 .. n-1], in order. *)
Lemma build_emb_obj_ids {V} doc (df : list (str * V)) :
  map chunk_id (text_chunks (build_emb_obj doc df)) = seq 0 (length df).
Proof.
  apply map_imap_index. done.
Qed.

(** ** What the batch loop does to the state: it only prints *)
Section BatchState.
Context {V : Type} `{EmbeddingAPI V}.

Lemma add_stdout_app (s : svc_state V) l1 l2 :
  add_stdout (add_stdout s l1) l2 = add_stdout s (l1 ++ l2).
Proof. unfold add_stdout. simpl. by rewrite (assoc_L (++)). Qed.

Lemma add_stdout_nil (s : svc_state V) : add_stdout s [] = s.
Proof. destruct s. unfold add_stdout. simpl. by rewrite app_nil_r. Qed.

Lemma embed_batches_state chunks starts acc (s : svc_state V) :
  ∃ ls, (embed_batches chunks starts acc s).2 = add_stdout s ls.
Proof.
  revert acc s. induction starts as [|b starts IH]; intros acc s; simpl.
  - exists []. by rewrite add_stdout_nil.
  - unfold print_lines. pyst_run.
    destruct (Embedding_create _ _) as [resp|e]; simpl; [|by eexists].
    destruct (check_indices resp); simpl; [|by eexists].
    destruct (IH (acc ++ map item_embedding resp) (add_stdout s [batch_line (length chunks) b]))
      as [ls ->].
    rewrite add_stdout_app. by eexists.
Qed.

(** The batch loop succeeds exactly when every call on its batch succeeds
    with items numbered from 0; it then collects their embeddings in order
    and prints one line per batch. *)
Lemma embed_batches_Ok chunks starts acc (s s' : svc_state V) embs :
  embed_batches chunks starts acc s = (Ok embs, s') ↔
  ∃ responses,
    Forall2 (λ b r, Embedding_create EMBEDDING_MODEL (py_slice b (b + BATCH_SIZE) chunks) = Ok r ∧
                    map index r = seq 0 (length r)) starts responses ∧
    embs = acc ++ concat (map (map item_embedding) responses) ∧
    s' = add_stdout s (map (batch_line (length chunks)) starts).
Proof.
  revert acc s. induction starts as [|b starts IH]; intros acc s; simpl.
  - pyst_run. rewrite add_stdout_nil. split.
    + intros [= <- <-]. exists []. rewrite app_nil_r. auto.
    + intros (rs & ->%Forall2_nil_inv_l & -> & ->). by rewrite app_nil_r.
  - unfold print_lines. pyst_run.
    destruct (Embedding_create _ _) as [resp|e] eqn:He; simpl.
    + destruct (check_indices resp) as [[]|e] eqn:Hc; simpl.
      * rewrite IH, add_stdout_app. apply check_indices_Ok_iff in Hc. split.
        -- intros (rs & Hrs & -> & ->). exists (resp :: rs). rewrite <-(assoc_L (++)). auto.
        -- intros (rs & (r & rs' & (Hr & _) & Hrs & ->)%Forall2_cons_inv_l & -> & ->).
           rewrite He in Hr. injection Hr as <-. exists rs'. rewrite <-(assoc_L (++)). auto.
      * split; [done|]. intros (rs & (r & rs' & (Hr & Hi) & _ & _)%Forall2_cons_inv_l & _).
        rewrite He in Hr. injection Hr as <-. by rewrite (proj2 (check_indices_Ok_iff resp tt) Hi) in Hc.
    + split; [done|]. intros (rs & (r & rs' & (Hr & _) & _)%Forall2_cons_inv_l & _). congruence.
Qed.
End BatchState.

(** C16. The batch loop of [create_embedding], for any provider: it
    succeeds exactly when the embedding call on each batch
    [chunks[b:b+BATCH_SIZE]] succeeds with items numbered from 0, and then
    returns the embeddings of those responses in batch order after
    printing one progress line per batch; the batches, in order, are the
    chunks, each between 1 and [BATCH_SIZE] of them. *)
Theorem create_embedding_batches {V} `{EmbeddingAPI V} (chunks : list str) (s s' : svc_state V) embs :
  (embed_batches chunks (py_range_step 0 (length chunks) BATCH_SIZE) [] s = (Ok embs, s') ↔
   ∃ responses,
     Forall2 (λ batch r, Embedding_create EMBEDDING_MODEL batch = Ok r ∧ map index r = seq 0 (length r))
       (chunk_batches chunks) responses ∧
     embs = concat (map (map item_embedding) responses) ∧
     s' = add_stdout s (map (batch_line (length chunks)) (py_range_step 0 (length chunks) BATCH_SIZE))) ∧
  concat (chunk_batches chunks) = chunks ∧
  Forall (λ batch, 0 < length batch ≤ BATCH_SIZE) (chunk_batches chunks).
Proof.
  split; [|split; [apply batches_cover|]].
  - rewrite embed_batches_Ok. unfold chunk_batches.
    split; intros (rs & Hrs & Hembs & Hs); exists rs; rewrite ?Forall2_map_l_iff in *; auto.
  - apply Forall_forall. intros b Hb. apply list_elem_of_In, in_map_iff in Hb as (j & <- & Hj).
    apply batch_length. by apply list_elem_of_In.
Qed.


(** ** An index-faithful provider *)
Section HonestProvider.
Context {V : Type} `{EmbeddingAPI V} (BASE_DIR : str) (embed : str → V).
(** The provider answers every batch with one item per input, in order,
    each carrying its position as ["index"] and the input's embedding. *)
Hypothesis provider_faithful : ∀ batch,
  Embedding_create EMBEDDING_MODEL batch = Ok (imap (λ i s, mk_embedding_item V i (embed s)) batch).

Lemma embed_batches_faithful chunks starts acc s :
  embed_batches chunks starts acc s =
    (Ok (acc ++ concat (map (λ b, map embed (py_slice b (b + BATCH_SIZE) chunks)) starts)),
     add_stdout s (map (batch_line (length chunks)) starts)).
Proof.
  revert acc s. induction starts as [|b starts IH]; intros acc s; simpl.
  - pyst_run. by rewrite app_nil_r, add_stdout_nil.
  - unfold print_lines. pyst_run. rewrite provider_faithful. simpl.
    rewrite check_indices_ok by (rewrite length_imap; by apply map_imap_index). simpl.
    rewrite IH, (map_imap_value _ _ embed) by done. by rewrite (assoc_L (++)), add_stdout_app.
Qed.

(** What [create_embedding] does with an index-faithful provider. *)
Lemma create_embedding_faithful_run chunks doc_id s :
  create_embedding BASE_DIR chunks doc_id true false s =
    (Ok (EMBEDDINGS_SAVE_PATH BASE_DIR),
     mk_svc_state (files s)
       (collection s ++ [mk_emb_obj doc_id (imap (λ i c, mk_text_chunk i c (embed c)) chunks)])
       (stdout s ++ map (batch_line (length chunks)) (py_range_step 0 (length chunks) BATCH_SIZE)
          ++ [SavedToMongo])).
Proof.
  assert (Hemb : concat (map (λ b, map embed (py_slice b (b + BATCH_SIZE) chunks))
                        (py_range_step 0 (length chunks) BATCH_SIZE)) = map embed chunks).
  { rewrite <- (map_map (λ b, py_slice b (b + BATCH_SIZE) chunks) (map embed)), <- concat_map.
    f_equal. apply batches_cover. }
  rewrite <- build_emb_obj_zip. unfold create_embedding. rewrite pyst_bind_run.
  rewrite embed_batches_faithful, app_nil_l, Hemb. unfold data_frame, insert_record, print_lines.
  pyst_run. rewrite decide_True by (symmetry; apply length_map). simpl.
  by rewrite (assoc_L (++)).
Qed.

(** C18. Refinement of ingestion: with an index-faithful provider,
    [create_embedding chunks doc_id True False] succeeds; it appends one
    record for [doc_id] whose [i]-th chunk has [chunk_id = i], the [i]-th
    chunk's text and that text's embedding, prints one progress line per
    batch and the confirmation, and touches nothing else. *)
Theorem create_embedding_faithful chunks doc_id s :
  create_embedding BASE_DIR chunks doc_id true false s =
    (Ok (EMBEDDINGS_SAVE_PATH BASE_DIR),
     mk_svc_state (files s)
       (collection s ++ [mk_emb_obj doc_id (imap (λ i c, mk_text_chunk i c (embed c)) chunks)])
       (stdout s ++ map (batch_line (length chunks)) (py_range_step 0 (length chunks) BATCH_SIZE)
          ++ [SavedToMongo])).
Proof. by apply create_embedding_faithful_run. Qed.
End HonestProvider.

(** ** Failures *)
Section Failures.
Context {V : Type} `{EmbeddingAPI V} `{Tiktoken} (BASE_DIR : str).

(** The CSV dump is a file, never a directory, wherever [BASE_DIR] is. *)
Lemma embeddings_save_path_not_dir : is_dir_key (os_normpath (EMBEDDINGS_SAVE_PATH BASE_DIR)) = false.
Proof.
  apply (is_dir_key_join BASE_DIR (lit "temp_embeddings.csv")); [|done].
  apply (bool_decide_unpack _ (dec := regular_part_dec _)). vm_compute. reflexivity.
Qed.

(** Every outcome of [create_embedding]: it raises after printing the
    progress lines [ls] of the batch loop, or it succeeds; then it stored
    one record when [save_df] and wrote the CSV when also [debug]. *)
Lemma create_embedding_cases chunks doc_id save_df debug s :
  ∃ ls, (∃ e, create_embedding BASE_DIR chunks doc_id save_df debug s = (Raise e, add_stdout s ls)) ∨
        (∃ df s', create_embedding BASE_DIR chunks doc_id save_df debug s =
                    (Ok (EMBEDDINGS_SAVE_PATH BASE_DIR), s') ∧
           files s' = (if save_df && debug
                       then <[os_normpath (EMBEDDINGS_SAVE_PATH BASE_DIR) := CsvFile df]> (files s)
                       else files s) ∧
           collection s' = collection s ++ (if save_df then [build_emb_obj doc_id df] else [])).
Proof.
  unfold create_embedding. rewrite pyst_bind_run.
  destruct (embed_batches_state chunks (py_range_step 0 (length chunks) BATCH_SIZE) [] s) as [ls Hls].
  exists ls. destruct (embed_batches _ _ _ s) as [[emb|e] s1]; simpl in Hls; subst s1; [|by left; eexists].
  rewrite pyst_bind_run. unfold lift_result.
  destruct (data_frame _ _) as [df|e]; [|by left; eexists]. right. exists df.
  unfold insert_record, print_lines, write_file, add_stdout, set_collection, set_files.
  rewrite embeddings_save_path_not_dir.
  destruct save_df, debug; pyst_run; (eexists; split; [reflexivity|]); simpl; by rewrite ?app_nil_r.
Qed.

(** A raising [create_embedding] only printed. *)
Lemma create_embedding_raise_state chunks doc_id save_df debug s e s' :
  create_embedding BASE_DIR chunks doc_id save_df debug s = (Raise e, s') →
  ∃ ls, s' = add_stdout s ls.
Proof.
  destruct (create_embedding_cases chunks doc_id save_df debug s) as (ls & [[e' ->]|(df & s1 & -> & _)]).
  - intros [= _ <-]. by eexists.
  - intros [=].
Qed.

(** C19. Ingestion is all or nothing: when [create_embedding] raises (a
    provider error, the index assertion, the [DataFrame] length check),
    its only effect was to print progress lines: no file is written and
    no record, not even a partial one, is stored. *)
Theorem create_embedding_atomic chunks doc_id save_df debug s e s' :
  create_embedding BASE_DIR chunks doc_id save_df debug s = (Raise e, s') →
  ∃ ls, s' = add_stdout s ls.
Proof. by apply create_embedding_raise_state. Qed.
End Failures.

(** ** A provider that answers with too few embeddings *)
Section ShortProvider.
Context {V : Type} `{EmbeddingAPI V} (BASE_DIR : str).
(** The provider answers every non-empty batch with fewer items than
    inputs, numbered [0, 1, ...] as the index assertion expects. *)
Hypothesis provider_short : ∀ batch, batch ≠ [] → ∃ items,
  Embedding_create EMBEDDING_MODEL batch = Ok items ∧
  map index items = seq 0 (length items) ∧ length items < length batch.

Lemma embed_batches_short chunks starts acc s :
  Forall (λ b, py_slice b (b + BATCH_SIZE) chunks ≠ []) starts →
  ∃ es, embed_batches chunks starts acc s =
          (Ok (acc ++ es), add_stdout s (map (batch_line (length chunks)) starts)) ∧
    length es + length starts ≤ length (concat (map (λ b, py_slice b (b + BATCH_SIZE) chunks) starts)).
Proof.
  revert acc s. induction starts as [|b starts IH]; intros acc s Hne.
  - exists []. pyst_run. by rewrite app_nil_r, add_stdout_nil.
  - apply Forall_cons_iff in Hne as [Hb Hne]. simpl. unfold print_lines. pyst_run.
    destruct (provider_short _ Hb) as (items & -> & Hidx & Hlt). simpl.
    rewrite check_indices_ok by done. simpl.
    destruct (IH (acc ++ map item_embedding items) (add_stdout s [batch_line (length chunks) b]) Hne)
      as (es & -> & Hles).
    exists (map item_embedding items ++ es). rewrite (assoc_L (++)), add_stdout_app. split; [done|].
    rewrite length_app, length_map, length_app. lia.
Qed.

(** With such a provider the index assertion passes, the embeddings
    column is shorter than the text column, and [pd.DataFrame] raises
    after the progress lines of the batches were printed. *)
Lemma create_embedding_short chunks doc_id save_df debug s :
  chunks ≠ [] →
  create_embedding BASE_DIR chunks doc_id save_df debug s =
    (Raise (ValueError (lit "All arrays must be of the same length")),
     add_stdout s (map (batch_line (length chunks)) (py_range_step 0 (length chunks) BATCH_SIZE))).
Proof.
  intros Hne.
  assert (Hb : Forall (λ b, py_slice b (b + BATCH_SIZE) chunks ≠ [])
                 (py_range_step 0 (length chunks) BATCH_SIZE)).
  { apply Forall_forall. intros b Hb. pose proof (batch_length chunks b Hb) as Hl. intros Hnil.
    rewrite Hnil in Hl. simpl in Hl. lia. }
  destruct (embed_batches_short chunks _ [] s Hb) as (es & Hes & Hlen).
  rewrite batches_cover in Hlen.
  assert (Hstarts : py_range_step 0 (length chunks) BATCH_SIZE ≠ []).
  { intros Hnil. apply Hne. rewrite <- (batches_cover chunks), Hnil. done. }
  unfold create_embedding. rewrite pyst_bind_run, Hes. unfold lift_result, data_frame.
  rewrite pyst_bind_run, decide_False; [done|].
  destruct (py_range_step 0 (length chunks) BATCH_SIZE); [done|]. simpl in *. lia.
Qed.
End ShortProvider.

(** ** The uploaded file *)
Section UploadedFile.
Context {V : Type} `{EmbeddingAPI V} `{Tiktoken} (BASE_DIR : str).

Lemma create_embedding_files chunks doc_id save_df s :
  files (create_embedding BASE_DIR chunks doc_id save_df false s).2 = files s.
Proof.
  destruct (create_embedding_cases BASE_DIR chunks doc_id save_df false s)
    as (ls & [[e ->]|(df & s1 & -> & Hf & _)]); [done|].
  simpl. rewrite Hf. by destruct save_df.
Qed.

(** [create_embeddings_from_text] prints the chunker's lines, then runs
    [create_embedding] on the chunks. *)
Lemma create_embeddings_from_text_run text_data doc_id s :
  create_embeddings_from_text BASE_DIR text_data doc_id s =
    create_embedding BASE_DIR (split_into_chunks text_data).1 doc_id true DEBUG
      (add_stdout s (split_into_chunks text_data).2).
Proof.
  unfold create_embeddings_from_text. destruct (split_into_chunks text_data) as [chunks out].
  by rewrite pyst_bind_run.
Qed.

Lemma create_embeddings_from_text_files text_data doc_id s :
  files (create_embeddings_from_text BASE_DIR text_data doc_id s).2 = files s.
Proof. by rewrite create_embeddings_from_text_run, create_embedding_files. Qed.

Lemma convert_to_text_pdf path doc_id pages (s : svc_state V) :
  files s !! os_normpath path = Some (PdfFile pages) →
  convert_to_text path doc_id false s =
    (Ok (py_join [NL; NL] pages),
     mk_svc_state (delete (os_normpath path) (files s)) (collection s)
       (stdout s ++ [TextExtracted; PdfDeleted path])).
Proof.
  intros Hpdf. unfold convert_to_text, read_file, remove_file, print_lines. pyst_run.
  rewrite Hpdf. simpl. rewrite Hpdf. simpl. unfold add_stdout. simpl. by rewrite <- (assoc_L (++)).
Qed.

Lemma convert_to_text_missing path doc_id b (s : svc_state V) :
  files s !! os_normpath path = None → is_dir_key (os_normpath path) = false →
  convert_to_text path doc_id b s = (Raise (FileNotFoundError path), s).
Proof. intros Hnone Hfile. unfold convert_to_text, read_file. pyst_run. by rewrite Hnone, Hfile. Qed.

(** C20. [generate_embeddings] deletes the uploaded PDF before it embeds
    anything: whether the ingestion succeeds or an embedding call fails,
    the file the path resolves to is gone afterwards, so running the same
    ingestion again raises [FileNotFoundError] (the path names a file, not
    one of the directories [pdfs], [.] or [..]). *)
Theorem generate_embeddings_consumes_file path doc_id pages (s : svc_state V) :
  is_dir_key (os_normpath path) = false →
  files s !! os_normpath path = Some (PdfFile pages) →
  files (generate_embeddings BASE_DIR path doc_id s).2 !! os_normpath path = None ∧
  (generate_embeddings BASE_DIR path doc_id (generate_embeddings BASE_DIR path doc_id s).2).1 =
    Raise (FileNotFoundError path).
Proof.
  intros Hfile Hpdf.
  assert (Hgone : files (generate_embeddings BASE_DIR path doc_id s).2 !! os_normpath path = None).
  { unfold generate_embeddings. rewrite pyst_bind_run, (convert_to_text_pdf _ _ pages) by done.
    rewrite create_embeddings_from_text_files. apply lookup_delete_eq. }
  split; [done|]. unfold generate_embeddings at 1. rewrite pyst_bind_run.
  by rewrite convert_to_text_missing.
Qed.
End UploadedFile.

(** ** Witnesses: a provider whose embedding of a text is its length *)
Section Witnesses.

Definition length_provider : EmbeddingAPI nat := {|
  Embedding_create := λ _ batch, Ok (imap (λ i s, mk_embedding_item nat i (length s)) batch)
|}.

Definition failing_provider : EmbeddingAPI nat := {|
  Embedding_create := λ _ _, Raise (ProviderError (lit "rate limited"))
|}.

Definition demo_state : svc_state nat :=
  mk_svc_state (<[lit "pdfs/a.pdf" := PdfFile [lit "hello"; lit "world"]]> ∅) [] [].

Lemma create_embedding_faithful_witness :
  (∀ batch, @Embedding_create _ length_provider EMBEDDING_MODEL batch =
              Ok (imap (λ i s, mk_embedding_item nat i (length s)) batch)) ∧
  @create_embedding _ length_provider (lit "/app") [lit "ab"; lit "c"] (lit "d1") true false demo_state =
    (Ok (EMBEDDINGS_SAVE_PATH (lit "/app")),
     mk_svc_state (files demo_state)
       (collection demo_state ++
          [mk_emb_obj (lit "d1") (imap (λ i c, mk_text_chunk i c (length c)) [lit "ab"; lit "c"])])
       (stdout demo_state ++ map (batch_line 2) (py_range_step 0 2 BATCH_SIZE) ++ [SavedToMongo])).
Proof.
  split; [reflexivity|].
  apply (create_embedding_faithful (H := length_provider) (lit "/app") length). reflexivity.
Defined.

(** The provider fails after the first progress line was printed. *)
Lemma create_embedding_atomic_witness :
  @create_embedding _ failing_provider (lit "/app") [lit "ab"] (lit "d1") true false demo_state =
    (Raise (ProviderError (lit "rate limited")), add_stdout demo_state [batch_line 1 0]) ∧
  ∃ ls, add_stdout demo_state [batch_line 1 0] = add_stdout demo_state ls.
Proof.
  split; [vm_compute; reflexivity|].
  apply (create_embedding_atomic (H := failing_provider) (lit "/app") [lit "ab"] (lit "d1") true false
           demo_state (ProviderError (lit "rate limited"))).
  vm_compute. reflexivity.
Defined.

Lemma generate_embeddings_consumes_file_witness :
  is_dir_key (os_normpath (lit "pdfs//a.pdf")) = false ∧
  files demo_state !! os_normpath (lit "pdfs//a.pdf") = Some (PdfFile [lit "hello"; lit "world"]) ∧
  files (@generate_embeddings _ length_provider char_tiktoken (lit "/app") (lit "pdfs//a.pdf") (lit "d1")
           demo_state).2 !! os_normpath (lit "pdfs//a.pdf") = None ∧
  (@generate_embeddings _ length_provider char_tiktoken (lit "/app") (lit "pdfs//a.pdf") (lit "d1")
     (@generate_embeddings _ length_provider char_tiktoken (lit "/app") (lit "pdfs//a.pdf") (lit "d1")
        demo_state).2).1 = Raise (FileNotFoundError (lit "pdfs//a.pdf")).
Proof.
  split; [reflexivity|]. split; [reflexivity|].
  apply (generate_embeddings_consumes_file (H := length_provider) (lit "/app") _ _
           [lit "hello"; lit "world"]); reflexivity.
Defined.
End Witnesses.
