(* ===== verification/Query.v ===== *)
(** Answering a query, [get_query_response] of
    [src/ai-compendium/api/predict_response.py] (lines 61-90): look the
    document's records up, assemble the prompt with [query_message], print
    it when [print_message], ask the completion API (temperature 0) and
    translate the sentinel answer ["UNCERTAIN"] into the fixed fallback
    message.  It runs over the lines printed so far (a [pyst] over
    [list printed]): a failure after the print keeps the printed line.
    The default arguments are [model = ANSWERING_MODEL] and
    [token_budget = 3200 - 500]; no caller passes [print_message=True]. *)

From S2P Require Import Prelude Config Tokenizer StableSort Store Providers Ranker.

Definition UNCERTAIN : str := lit "UNCERTAIN".

Definition FALLBACK : str :=
  lit "Sorry I do not have enough information to answer this. Please contact the reception.".

Definition SYSTEM_PROMPT : str := lit "You answer the given question by referring to the context.".

Definition DEFAULT_TOKEN_BUDGET : nat := 3200 - 500.

Section Query.
Context {V K : Type} `{EmbeddingAPI V} `{ChatAPI} `{Tiktoken} (lt : K → K → bool).

(** The [if response_message == "UNCERTAIN"] translation *)
Definition translate_answer (response_message : str) : str :=
  if decide (response_message = UNCERTAIN) then FALLBACK else response_message.

(** [if print_message: print(message)] *)
Definition print_query_message (print_message : bool) (message : str) : pyst (list printed) unit :=
  fun out => (Ok tt, if print_message then out ++ [QueryMessage message] else out).

(** [get_query_response(query, doc_id, db, model, token_budget, print_message)] *)
Definition get_query_response (relatedness_fn : V → V → K) (query doc_id : str)
    (db : list (emb_obj V)) (model : str) (token_budget : nat) (print_message : bool)
    : pyst (list printed) str :=
  let embedding_obj := find db doc_id in
  message ← lift_result (query_message lt relatedness_fn query embedding_obj model token_budget);
  _ ← print_query_message print_message message;
  let messages := [(lit "system", SYSTEM_PROMPT); (lit "user", message)] in
  choices ← lift_result (ChatCompletion_create model messages 0);
  response_message ← lift_result (py_index0 (lit "list index out of range") choices);
  mret (translate_answer response_message).
End Query.

Section QueryFacts.
Context {V K : Type} `{EmbeddingAPI V} `{ChatAPI} `{Tiktoken} (lt : K → K → bool).

Lemma translate_answer_not_sentinel c : translate_answer c ≠ UNCERTAIN.
Proof. unfold translate_answer. case_decide; [by vm_compute|done]. Qed.

(** C21. What [get_query_response] answers: it sent the system prompt and
    the prompt [query_message] assembled from the records of [doc_id] to
    the completion API, printed that prompt exactly when [print_message],
    and returned the first choice with the sentinel ["UNCERTAIN"]
    translated, so the sentinel itself never reaches the caller. *)
Theorem get_query_response_answer rel query doc_id db model budget pm out r out' :
  get_query_response lt rel query doc_id db model budget pm out = (Ok r, out') →
  ∃ msg c cs,
    query_message lt rel query (find db doc_id) model budget = Ok msg ∧
    ChatCompletion_create model [(lit "system", SYSTEM_PROMPT); (lit "user", msg)] 0 = Ok (c :: cs) ∧
    r = (if decide (c = UNCERTAIN) then FALLBACK else c) ∧
    r ≠ UNCERTAIN ∧
    out' = (if pm then out ++ [QueryMessage msg] else out).
Proof.
  unfold get_query_response, print_query_message. pyst_run.
  destruct (query_message _ _ _ _ _ _) as [msg|e] eqn:Hq; simpl; [|done].
  destruct (ChatCompletion_create _ _ _) as [[|c cs]|e] eqn:Hc; simpl; try done.
  intros [= <- <-]. exists msg, c, cs. split; [done|]. split; [done|]. split; [done|].
  split; [apply translate_answer_not_sentinel|done].
Qed.

(** [strings_ranked_by_similarity] only reads the first record found. *)
Lemma strings_ranked_by_similarity_head query o rest rest' rel n :
  strings_ranked_by_similarity lt query (o :: rest) rel n =
    strings_ranked_by_similarity lt query (o :: rest') rel n.
Proof. unfold strings_ranked_by_similarity, py_index0. reflexivity. Qed.

Lemma find_insert_one (db : list (emb_obj V)) obj id :
  doc_id obj = id → find (insert_one db obj) id = find db id ++ [obj].
Proof.
  intros Hid. unfold find, insert_one. rewrite filter_app. simpl.
  by rewrite bool_decide_eq_true_2.
Qed.

(** C22. Re-ingesting a document stores a second record for it but never
    changes an answer: as long as a record for [doc_id] exists, queries
    keep reading the first one ([embedding_obj[0]]), so the new record is
    never used. *)
Theorem get_query_response_reingest rel query id db obj model budget pm out :
  doc_id obj = id → find db id ≠ [] →
  get_query_response lt rel query id (insert_one db obj) model budget pm out =
    get_query_response lt rel query id db model budget pm out.
Proof.
  intros Hid Hne. unfold get_query_response. rewrite find_insert_one by done.
  destruct (find db id) as [|o rest]; [done|]. simpl app.
  unfold query_message. by rewrite (strings_ranked_by_similarity_head _ o (rest ++ [obj]) rest).
Qed.

(** C23. A query for a document that was never ingested does not fail as
    an input error: once the query is embedded, it raises the [IndexError]
    of indexing an empty MongoDB cursor, before anything is printed. *)
Theorem get_query_response_unknown_doc rel query id db model budget pm out item items :
  find db id = [] →
  Embedding_create EMBEDDING_MODEL [query] = Ok (item :: items) →
  get_query_response lt rel query id db model budget pm out =
    (Raise (IndexError (lit "no such item for Cursor instance")), out).
Proof.
  intros Hnone Hemb. unfold get_query_response, query_message, strings_ranked_by_similarity.
  pyst_run. rewrite Hnone, Hemb. done.
Qed.
End QueryFacts.

(** ** Witnesses: the integer embeddings of [Ranker.v] and a completion API
    that is never sure *)
Section Witnesses.
#[local] Existing Instance demo_embedding_api.

#[local] Instance unsure_chat : ChatAPI := {|
  ChatCompletion_create := λ _ _ _, Ok [UNCERTAIN]
|}.

Definition demo_db : list (emb_obj (list Z)) := [demo_doc].

(** With [print_message=True] the prompt is printed, and the sentinel
    answer becomes the fallback message. *)
Lemma get_query_response_answer_witness :
  ∃ r out', get_query_response Z.ltb dot (lit "x") (lit "doc1") demo_db ANSWERING_MODEL
              DEFAULT_TOKEN_BUDGET true [] = (Ok r, out') ∧
  ∃ msg c cs,
    query_message Z.ltb dot (lit "x") (find demo_db (lit "doc1")) ANSWERING_MODEL DEFAULT_TOKEN_BUDGET = Ok msg ∧
    ChatCompletion_create ANSWERING_MODEL [(lit "system", SYSTEM_PROMPT); (lit "user", msg)] 0 = Ok (c :: cs) ∧
    r = (if decide (c = UNCERTAIN) then FALLBACK else c) ∧
    r ≠ UNCERTAIN ∧
    out' = [] ++ [QueryMessage msg].
Proof.
  do 2 eexists. split; [vm_compute; reflexivity|].
  apply (get_query_response_answer Z.ltb dot (lit "x") (lit "doc1") demo_db ANSWERING_MODEL
           DEFAULT_TOKEN_BUDGET true []). vm_compute. reflexivity.
Defined.

Lemma get_query_response_reingest_witness :
  get_query_response Z.ltb dot (lit "x") (lit "doc1")
    (insert_one demo_db (mk_emb_obj (lit "doc1") [mk_text_chunk 0 (lit "new") [5; 5]%Z]))
    ANSWERING_MODEL DEFAULT_TOKEN_BUDGET false [] =
  get_query_response Z.ltb dot (lit "x") (lit "doc1") demo_db ANSWERING_MODEL DEFAULT_TOKEN_BUDGET false [].
Proof. apply get_query_response_reingest; [reflexivity|vm_compute; discriminate]. Defined.

Lemma get_query_response_unknown_doc_witness :
  get_query_response Z.ltb dot (lit "x") (lit "nope") demo_db ANSWERING_MODEL DEFAULT_TOKEN_BUDGET false [] =
    (Raise (IndexError (lit "no such item for Cursor instance")), []).
Proof.
  apply (get_query_response_unknown_doc Z.ltb dot (lit "x") (lit "nope") demo_db ANSWERING_MODEL
           DEFAULT_TOKEN_BUDGET false [] (mk_embedding_item _ 0 [1; 0]%Z) []); vm_compute; reflexivity.
Defined.
End Witnesses.
