(* ===== verification/Api.v ===== *)
(** The HTTP endpoints of [src/main.py].  Each handler is a function
    from its request and the service state to its response and the new
    state; [handle] dispatches a request to its handler, [step] is the
    transition relation of the service and [reachable] the states reachable
    from an empty service.  The exception classes the handlers catch are
    [ValueError] (answered 400) and every other [Exception] (answered 500);
    [str(e)] is [py_str].  [upload] catches nothing: an exception there
    reaches FastAPI, which answers [InternalServerError]. *)

From S2P Require Import Prelude Config Tokenizer Chunker StableSort Store Providers Ranker.
From S2P Require Import Paths State Ingest Query.
From stdpp Require Import gmap.

(** [str(e)] *)
Definition py_str (e : py_error) : str :=
  match e with
  | ValueError msg => msg
  | IndexError msg => msg
  | NameError name => lit "name '" ++ name ++ lit "' is not defined"
  | AssertionError => []
  | FileNotFoundError path => lit "[Errno 2] No such file or directory: '" ++ path ++ lit "'"
  | IsADirectoryError path => lit "[Errno 21] Is a directory: '" ++ path ++ lit "'"
  | PdfError msg => msg
  | ProviderError msg => msg
  end.

(** [InferenceOutput(status_code=..., data=..., message=...)] *)
Definition inference_output (status_code : Z) (data message : str) : InferenceOutput.InferenceOutput :=
  InferenceOutput.mk status_code message data.

(** [except ValueError as ve: ... 400 ...; except Exception as e: ... 500 ...] *)
Definition error_output (e : py_error) : InferenceOutput.InferenceOutput :=
  match e with
  | ValueError _ => inference_output 400 [] (py_str e)
  | _ => inference_output 500 [] (py_str e)
  end.

Section Api.
Context {V K : Type} `{EmbeddingAPI V} `{ChatAPI} `{Tiktoken} (BASE_DIR : str).

Record UploadFile := mk_upload { filename : str; upload_content : file_content V }.

Inductive request :=
  | HealthCheck
  | Upload (input_file : UploadFile)
  | GetQueryResponse (request_data : InferenceData.InferenceData)
  | CreateEmbeddings (request_data : CreateEmbeddingData.CreateEmbeddingData).

Inductive response :=
  | HealthResponse (status_code : Z) (message : str)
  | UploadResponse (status : str) (output : str)
  | InferenceResponse (out : InferenceOutput.InferenceOutput)
  (** FastAPI's answer to an exception that escapes a handler: status 500,
      body ["Internal Server Error"]. *)
  | InternalServerError.

(** [health_check()]: the [try] body cannot raise. *)
Definition health_check (s : svc_state V) : response * svc_state V :=
  (HealthResponse 200 (lit "Server Up"), s).

(** [destination = Path(f"pdfs/{file_name}")], as the [str] FastAPI
    answers it with. *)
Definition upload_destination (file_name : str) : str := pure_path_str (lit "pdfs/" ++ file_name).

(** [upload(input_file)]: [os.makedirs("pdfs/")] (the directory [pdfs] of
    [is_dir_key]), then open the destination for writing and copy the
    upload into it.  Nothing catches an exception there (the [finally]
    only closes the upload), so FastAPI answers it with a 500. *)
Definition upload (input_file : UploadFile) (s : svc_state V) : response * svc_state V :=
  let file_name := filename input_file in
  let destination := upload_destination file_name in
  match write_file destination (upload_content input_file) s with
  | (Ok _, s') => (UploadResponse (lit "SUCCESS") destination, s')
  | (Raise _, s') => (InternalServerError, s')
  end.

(** [predict_response(request_data)]: the call
    [get_query_response(query_text, doc_id)] names [doc_id], which is bound
    nowhere in [main.py]: evaluating the argument raises [NameError] before
    the call, and the handler answers 500. *)
Definition predict_response (request_data : InferenceData.InferenceData) (s : svc_state V)
    : response * svc_state V :=
  let query_text := InferenceData.query_text request_data in
  let r : result str := Raise (NameError (lit "doc_id")) in
  match r with
  | Ok output_text => (InferenceResponse (inference_output 200 output_text (lit "Success")), s)
  | Raise e => (InferenceResponse (error_output e), s)
  end.

(** [get_embedding_table(request_data)] *)
Definition get_embedding_table (request_data : CreateEmbeddingData.CreateEmbeddingData)
    (s : svc_state V) : response * svc_state V :=
  let source_file_path := CreateEmbeddingData.source_file_path request_data in
  let doc_id := CreateEmbeddingData.doc_id request_data in
  match generate_embeddings BASE_DIR source_file_path doc_id s with
  | (Ok _, s') =>
      (InferenceResponse (inference_output 200 (lit "Embedding table created successfully")
                            (lit "Success")), s')
  | (Raise e, s') => (InferenceResponse (error_output e), s')
  end.

Definition handle (req : request) (s : svc_state V) : response * svc_state V :=
  match req with
  | HealthCheck => health_check s
  | Upload f => upload f s
  | GetQueryResponse d => predict_response d s
  | CreateEmbeddings d => get_embedding_table d s
  end.

Inductive step : svc_state V → request → response → svc_state V → Prop :=
  | step_handle s req : step s req (handle req s).1 (handle req s).2.

Definition init_state : svc_state V := mk_svc_state ∅ [] [].

Inductive reachable : svc_state V → Prop :=
  | reachable_init : reachable init_state
  | reachable_step s req resp s' : reachable s → step s req resp s' → reachable s'.

(** [P] holds now, or after some sequence of requests. *)
Inductive eventually (P : svc_state V → Prop) : svc_state V → Prop :=
  | eventually_now s : P s → eventually P s
  | eventually_step s req : eventually P (handle req s).2 → eventually P s.
End Api.

Arguments UploadFile : clear implicits.
Arguments request : clear implicits.

(** ** Which handlers touch the collection *)
Section CollectionEffects.
Context {V : Type} `{EmbeddingAPI V} `{Tiktoken} (BASE_DIR : str).

(** A record is well formed when its chunk ids are [0 .. n-1] in order. *)
Definition wf_record (o : emb_obj V) : Prop :=
  map chunk_id (text_chunks o) = seq 0 (length (text_chunks o)).

Definition wf_collection (s : svc_state V) : Prop := Forall wf_record (collection s).

Lemma convert_to_text_collection path doc_id b (s : svc_state V) :
  collection (convert_to_text path doc_id b s).2 = collection s.
Proof.
  unfold convert_to_text, read_file, remove_file, write_file, print_lines, add_stdout. pyst_run.
  destruct (files s !! os_normpath path) as [[]|] eqn:Hp; simpl; try done.
  rewrite Hp. simpl. destruct b; [|done]. by destruct (is_dir_key _).
Qed.

Lemma create_embedding_collection chunks doc_id save_df debug (s : svc_state V) :
  collection (create_embedding BASE_DIR chunks doc_id save_df debug s).2 = collection s ∨
  ∃ df, collection (create_embedding BASE_DIR chunks doc_id save_df debug s).2 =
          collection s ++ [build_emb_obj doc_id df].
Proof.
  destruct (create_embedding_cases BASE_DIR chunks doc_id save_df debug s)
    as (ls & [[e ->]|(df & s1 & -> & _ & Hc)]); [by left|]. simpl. rewrite Hc.
  destruct save_df; [by eauto|]. left. apply app_nil_r.
Qed.

Lemma generate_embeddings_collection path doc_id (s : svc_state V) :
  collection (generate_embeddings BASE_DIR path doc_id s).2 = collection s ∨
  ∃ df, collection (generate_embeddings BASE_DIR path doc_id s).2 =
          collection s ++ [build_emb_obj doc_id df].
Proof.
  unfold generate_embeddings. rewrite pyst_bind_run.
  pose proof (convert_to_text_collection path doc_id false s) as Hc.
  destruct (convert_to_text path doc_id false s) as [[text|e] s1]; simpl in Hc; [|by left].
  rewrite create_embeddings_from_text_run, <- Hc.
  exact (create_embedding_collection _ _ _ _ (add_stdout s1 (split_into_chunks text).2)).
Qed.

Lemma create_embedding_Ok_collection chunks doc_id debug (s s' : svc_state V) p :
  create_embedding BASE_DIR chunks doc_id true debug s = (Ok p, s') →
  ∃ df, collection s' = collection s ++ [build_emb_obj doc_id df].
Proof.
  destruct (create_embedding_cases BASE_DIR chunks doc_id true debug s)
    as (ls & [[e ->]|(df & s1 & -> & _ & Hc)]); [intros [=]|]. intros [= _ <-]. eauto.
Qed.

(** A failed ingestion leaves the collection as it was; a successful one
    appended one record for the document. *)
Lemma generate_embeddings_outcome path doc_id (s : svc_state V) :
  match generate_embeddings BASE_DIR path doc_id s with
  | (Ok _, s') => ∃ df, collection s' = collection s ++ [build_emb_obj doc_id df]
  | (Raise _, s') => collection s' = collection s
  end.
Proof.
  unfold generate_embeddings. rewrite pyst_bind_run.
  pose proof (convert_to_text_collection path doc_id false s) as Hc.
  destruct (convert_to_text path doc_id false s) as [[text|e] s1]; simpl in Hc; [|done].
  rewrite create_embeddings_from_text_run, <- Hc.
  destruct (create_embedding BASE_DIR _ doc_id true DEBUG _) as [[p|e] s2] eqn:Hce.
  - by apply create_embedding_Ok_collection in Hce.
  - apply create_embedding_raise_state in Hce as [ls ->]. done.
Qed.
End CollectionEffects.

Section ApiFacts.
Context {V K : Type} `{EmbeddingAPI V} `{ChatAPI} `{Tiktoken} (BASE_DIR : str).

Lemma handle_collection (req : request V) (s : svc_state V) :
  collection (handle BASE_DIR req s).2 = collection s ∨
  ∃ doc_id df, collection (handle BASE_DIR req s).2 = collection s ++ [build_emb_obj doc_id df].
Proof.
  destruct req as [|f|d|d]; simpl; try by left.
  { left. unfold upload, write_file. by destruct (is_dir_key _). }
  unfold get_embedding_table.
  destruct (generate_embeddings_collection BASE_DIR (CreateEmbeddingData.source_file_path d)
              (CreateEmbeddingData.doc_id d) s) as [Hc|[df Hc]];
  destruct (generate_embeddings _ _ _ _) as [[]]; simpl in *; eauto.
Qed.

(** What an upload does, by whether its destination resolves to a
    directory. *)
Lemma upload_write (s : svc_state V) name content :
  is_dir_key (os_normpath (upload_destination name)) = false →
  handle BASE_DIR (Upload (mk_upload name content)) s =
    (UploadResponse (lit "SUCCESS") (upload_destination name),
     set_files s (<[os_normpath (upload_destination name) := content]> (files s))).
Proof. intros Hf. cbn [handle]. unfold upload, write_file. cbn [filename upload_content]. by rewrite Hf. Qed.

Lemma upload_dir (s : svc_state V) name content :
  is_dir_key (os_normpath (upload_destination name)) = true →
  handle BASE_DIR (Upload (mk_upload name content)) s = (InternalServerError, s).
Proof. intros Hd. cbn [handle]. unfold upload, write_file. cbn [filename upload_content]. by rewrite Hd. Qed.

(** C25. The chunk-id invariant of the spec's data model: in every state the
    service can reach, every stored record's chunk ids are [0, 1, ..., n-1]
    in storage order (contiguous and unique). *)
Theorem reachable_wf_collection (s : svc_state V) :
  reachable BASE_DIR s → wf_collection s.
Proof.
  induction 1 as [|s req resp s' Hreach IH Hstep]; [constructor|].
  inversion Hstep; subst. unfold wf_collection in *.
  destruct (handle_collection req s) as [->|(doc_id & df & ->)]; [done|].
  apply Forall_app. split; [done|]. constructor; [|constructor].
  unfold wf_record. rewrite build_emb_obj_ids. unfold build_emb_obj. simpl. by rewrite length_imap.
Qed.

(** C29. The query endpoint never answers: [/get-query-response] responds
    500 with ["name 'doc_id' is not defined"] to every request, in every
    state, and changes nothing. *)
Theorem predict_response_always_fails (s : svc_state V) d resp s' :
  step BASE_DIR s (GetQueryResponse d) resp s' →
  resp = InferenceResponse (inference_output 500 [] (lit "name 'doc_id' is not defined")) ∧ s' = s.
Proof. inversion 1; subst. by split. Qed.

(** C27. [/create-embeddings] answers 200 exactly when a record was stored:
    on 200 the collection grew by one record for the requested document;
    on any other answer (400 for [ValueError], 500 otherwise) the
    collection is unchanged. *)
Theorem create_embeddings_status (s : svc_state V) d resp s' :
  step BASE_DIR s (CreateEmbeddings d) resp s' →
  ∃ out, resp = InferenceResponse out ∧
  ((InferenceOutput.status_code out = 200%Z ∧
    ∃ df, collection s' = collection s ++ [build_emb_obj (CreateEmbeddingData.doc_id d) df]) ∨
   (InferenceOutput.status_code out ∈ [400; 500]%Z ∧ collection s' = collection s)).
Proof.
  inversion 1; subst. simpl. unfold get_embedding_table.
  pose proof (generate_embeddings_outcome BASE_DIR (CreateEmbeddingData.source_file_path d)
                (CreateEmbeddingData.doc_id d) s) as Hout.
  destruct (generate_embeddings _ _ _ _) as [[p|e] s1]; eexists; (split; [reflexivity|]).
  - by left.
  - right. split; [|done]. destruct e; simpl; set_solver.
Qed.
(** C26. The collection is append-only: every request leaves the stored
    records as they were and appends at most one record; no handler
    updates or deletes a record. *)
Theorem step_collection_append (s : svc_state V) req resp s' :
  step BASE_DIR s req resp s' →
  ∃ added, collection s' = collection s ++ added ∧ length added ≤ 1.
Proof.
  inversion 1; subst.
  destruct (handle_collection req s) as [->|(doc_id & df & ->)].
  - exists []. split; [by rewrite app_nil_r|simpl; lia].
  - eexists. split; [reflexivity|simpl; lia].
Qed.
End ApiFacts.

(** ** The ingestion endpoint with an index-faithful provider *)
Section FaithfulPipeline.
Context {V K : Type} `{EmbeddingAPI V} `{ChatAPI} `{Tiktoken} (BASE_DIR : str) (embed : str → V).
Hypothesis provider_faithful : ∀ batch,
  Embedding_create EMBEDDING_MODEL batch = Ok (imap (λ i s, mk_embedding_item V i (embed s)) batch).

(** The run of [/create-embeddings] on an uploaded PDF with an index-faithful provider. *)
Lemma create_embeddings_pipeline_run (s : svc_state V) d pages resp s' :
  files s !! os_normpath (CreateEmbeddingData.source_file_path d) = Some (PdfFile pages) →
  step BASE_DIR s (CreateEmbeddings d) resp s' →
  resp = InferenceResponse (inference_output 200 (lit "Embedding table created successfully")
                              (lit "Success")) ∧
  s' = mk_svc_state (delete (os_normpath (CreateEmbeddingData.source_file_path d)) (files s))
         (collection s ++ [mk_emb_obj (CreateEmbeddingData.doc_id d)
            (imap (λ i c, mk_text_chunk i c (embed c)) (split_into_chunks (py_join [NL; NL] pages)).1)])
         (stdout s ++ [TextExtracted; PdfDeleted (CreateEmbeddingData.source_file_path d)] ++
          (split_into_chunks (py_join [NL; NL] pages)).2 ++
          map (batch_line (length (split_into_chunks (py_join [NL; NL] pages)).1))
            (py_range_step 0 (length (split_into_chunks (py_join [NL; NL] pages)).1) BATCH_SIZE) ++
          [SavedToMongo]).
Proof.
  intros Hpdf Hstep. inversion Hstep; subst. simpl. unfold get_embedding_table, generate_embeddings.
  rewrite pyst_bind_run, (convert_to_text_pdf _ _ pages) by done. simpl.
  rewrite create_embeddings_from_text_run. unfold DEBUG.
  rewrite (create_embedding_faithful_run BASE_DIR embed provider_faithful). simpl.
  by rewrite <- !(assoc_L (++)).
Qed.

(** C24. End to end, [/create-embeddings] on an uploaded PDF with an
    index-faithful provider answers 200, deletes the PDF, and stores
    exactly one record for the document: the chunks of the PDF's text (its
    pages joined by ["\n\n"], cut by [split_into_chunks]) with ids
    [0 .. n-1] and their embeddings; it prints, in order, the extraction
    and deletion lines, the chunker's lines, one line per batch and the
    confirmation. *)
Theorem create_embeddings_pipeline (s : svc_state V) d pages resp s' :
  files s !! os_normpath (CreateEmbeddingData.source_file_path d) = Some (PdfFile pages) →
  step BASE_DIR s (CreateEmbeddings d) resp s' →
  resp = InferenceResponse (inference_output 200 (lit "Embedding table created successfully")
                              (lit "Success")) ∧
  s' = mk_svc_state (delete (os_normpath (CreateEmbeddingData.source_file_path d)) (files s))
         (collection s ++ [mk_emb_obj (CreateEmbeddingData.doc_id d)
            (imap (λ i c, mk_text_chunk i c (embed c)) (split_into_chunks (py_join [NL; NL] pages)).1)])
         (stdout s ++ [TextExtracted; PdfDeleted (CreateEmbeddingData.source_file_path d)] ++
          (split_into_chunks (py_join [NL; NL] pages)).2 ++
          map (batch_line (length (split_into_chunks (py_join [NL; NL] pages)).1))
            (py_range_step 0 (length (split_into_chunks (py_join [NL; NL] pages)).1) BATCH_SIZE) ++
          [SavedToMongo]).
Proof. by apply create_embeddings_pipeline_run. Qed.
(** C31. Liveness of ingestion: with an index-faithful provider, from any
    state, any PDF whose file name does not resolve to a directory can get
    its chunks stored under any [doc_id]: upload it, then ask
    [/create-embeddings] for the path the upload answered. *)
Theorem eventually_stored (s : svc_state V) (name : str) (pages : list str) (doc_id : str) :
  is_dir_key (os_normpath (upload_destination name)) = false →
  eventually BASE_DIR
    (λ s', mk_emb_obj doc_id (imap (λ i c, mk_text_chunk i c (embed c))
             (split_into_chunks (py_join [NL; NL] pages)).1) ∈ collection s') s.
Proof.
  intros Hfile.
  set (s1 := (handle BASE_DIR (Upload (mk_upload name (PdfFile pages))) s).2).
  set (d := CreateEmbeddingData.mk (upload_destination name) doc_id).
  apply (eventually_step _ _ _ (Upload (mk_upload name (PdfFile pages)))). fold s1.
  apply (eventually_step _ _ _ (CreateEmbeddings d)). apply eventually_now.
  destruct (create_embeddings_pipeline_run s1 d pages (handle BASE_DIR (CreateEmbeddings d) s1).1
              (handle BASE_DIR (CreateEmbeddings d) s1).2) as [_ ->]; [|apply step_handle|].
  - subst s1 d. rewrite upload_write by done. cbn. by rewrite lookup_insert_eq.
  - simpl. apply elem_of_app. right. by apply list_elem_of_singleton.
Qed.
End FaithfulPipeline.

(** ** A provider that answers with too few embeddings *)
Section ShortProviderApi.
Context {V K : Type} `{EmbeddingAPI V} `{ChatAPI} `{Tiktoken} (BASE_DIR : str).
Hypothesis provider_short : ∀ batch, batch ≠ [] → ∃ items,
  Embedding_create EMBEDDING_MODEL batch = Ok items ∧
  map index items = seq 0 (length items) ∧ length items < length batch.

(** C28. The index assertion of [create_embedding] checks the positions of
    the returned items, not their number: when the provider answers each
    batch with too few (correctly numbered) embeddings, ingesting an
    uploaded PDF passes the assertion, fails in [pd.DataFrame], and
    [/create-embeddings] answers 400 (a client error) with
    ["All arrays must be of the same length"], storing nothing. *)
Theorem create_embeddings_short_provider (s : svc_state V) d pages resp s' :
  files s !! os_normpath (CreateEmbeddingData.source_file_path d) = Some (PdfFile pages) →
  step BASE_DIR s (CreateEmbeddings d) resp s' →
  resp = InferenceResponse (inference_output 400 [] (lit "All arrays must be of the same length")) ∧
  collection s' = collection s.
Proof.
  intros Hpdf Hstep. inversion Hstep; subst. simpl. unfold get_embedding_table, generate_embeddings.
  rewrite pyst_bind_run, (convert_to_text_pdf _ _ pages) by done. simpl.
  rewrite create_embeddings_from_text_run, create_embedding_short by first [done|apply split_into_chunks_not_nil].
  by split.
Qed.
End ShortProviderApi.

(** ** What the service keeps on disk *)
Section DiskEffects.
Context {V K : Type} `{EmbeddingAPI V} `{ChatAPI} `{Tiktoken} (BASE_DIR : str).

Lemma convert_to_text_files path doc_id (s : svc_state V) :
  files (convert_to_text path doc_id false s).2 ⊆ files s.
Proof.
  unfold convert_to_text, read_file, remove_file. pyst_run.
  destruct (files s !! os_normpath path) as [[]|] eqn:Hp; simpl; try done.
  rewrite Hp. simpl. apply delete_subseteq.
Qed.

Lemma generate_embeddings_files path doc_id (s : svc_state V) :
  files (generate_embeddings BASE_DIR path doc_id s).2 ⊆ files s.
Proof.
  unfold generate_embeddings. rewrite pyst_bind_run.
  pose proof (convert_to_text_files path doc_id s) as Hc.
  destruct (convert_to_text path doc_id false s) as [[text|e] s1]; simpl in *; [|done].
  by rewrite create_embeddings_from_text_files.
Qed.

Lemma regular_pdfs : regular_part (lit "pdfs").
Proof. apply (bool_decide_unpack _ (dec := regular_part_dec _)). vm_compute. reflexivity. Qed.

Lemma regular_dotdot_parts f :
  regular_part f → Forall (λ x, x ≠ [] ∧ x ≠ DOT) (py_split SLASH (lit "pdfs/../" ++ f)).
Proof.
  intros Hf. pose proof Hf as (Hfne & Hfdot & _ & Hfsl). pose proof regular_pdfs as (_ & _ & _ & Hpsl).
  change (lit "pdfs/../" ++ f) with (lit "pdfs" ++ "/"%char :: DOTDOT ++ "/"%char :: f).
  rewrite !py_split_app_slash, (py_split_no_slash _ Hpsl), (py_split_no_slash f Hfsl),
    (py_split_no_slash DOTDOT) by (by intros [?|[?|[]]]%list_elem_of_In).
  by repeat constructor.
Qed.

(** C30. Uploads are not confined to [pdfs/]: the file name is used as the
    client sent it, so in any state an upload named [../f], for a plain
    file name [f], answers SUCCESS with the path [pdfs/../f] and creates or
    overwrites the file [f] of the working directory; [../main.py]
    replaces the application's own module. *)
Theorem upload_escapes_pdfs (s : svc_state V) (f : str) (content : file_content V) :
  regular_part f → f ≠ lit "pdfs" →
  handle BASE_DIR (Upload (mk_upload (lit "../" ++ f) content)) s =
    (UploadResponse (lit "SUCCESS") (lit "pdfs/../" ++ f), set_files s (<[f := content]> (files s))).
Proof.
  intros Hf Hpdfs.
  assert (Hdest : upload_destination (lit "../" ++ f) = lit "pdfs/../" ++ f)
    by (apply pure_path_str_keep, regular_dotdot_parts, Hf).
  assert (Hkey : os_normpath (lit "pdfs/../" ++ f) = f)
    by (apply (os_normpath_dotdot (lit "pdfs") f regular_pdfs Hf)).
  rewrite upload_write by (rewrite Hdest, Hkey; by apply is_dir_key_regular).
  by rewrite Hdest, Hkey.
Qed.
End DiskEffects.

(** ** Witnesses: upload a PDF, ingest it, query it *)
Section Witnesses.
#[local] Existing Instance length_provider.

Definition demo_upload : UploadFile nat :=
  mk_upload (lit "a.pdf") (PdfFile [lit "hello"; lit "world"]).

Definition demo_ingest : CreateEmbeddingData.CreateEmbeddingData :=
  CreateEmbeddingData.mk (lit "pdfs/a.pdf") (lit "d1").

Definition demo_query : InferenceData.InferenceData := InferenceData.mk (lit "hello?") (lit "d1").

Definition after_upload : svc_state nat := (handle (lit "/app") (Upload demo_upload) init_state).2.

Definition after_ingest : svc_state nat :=
  (handle (lit "/app") (CreateEmbeddings demo_ingest) after_upload).2.

Lemma after_ingest_reachable : reachable (lit "/app") after_ingest.
Proof.
  eapply reachable_step; [|apply step_handle].
  eapply reachable_step; [apply reachable_init|apply step_handle].
Qed.

(** An upload whose name climbs out of [pdfs/]. *)
Lemma upload_escapes_pdfs_witness :
  regular_part (lit "main.py") ∧ lit "main.py" ≠ lit "pdfs" ∧
  handle (lit "/app") (Upload (mk_upload (lit "../" ++ lit "main.py") (OtherFile (lit "print(1)"))))
    init_state =
    (UploadResponse (lit "SUCCESS") (lit "pdfs/../" ++ lit "main.py"),
     set_files init_state (<[lit "main.py" := OtherFile (lit "print(1)")]> (files init_state))).
Proof.
  assert (Hr : regular_part (lit "main.py"))
    by (apply (bool_decide_unpack _ (dec := regular_part_dec _)); vm_compute; reflexivity).
  split; [exact Hr|]. split; [done|].
  apply (upload_escapes_pdfs (lit "/app") init_state (lit "main.py") _ Hr). done.
Defined.

Lemma step_collection_append_witness :
  ∃ added, collection after_ingest = collection after_upload ++ added ∧ length added ≤ 1.
Proof.
  apply (step_collection_append (lit "/app") after_upload (CreateEmbeddings demo_ingest)
           (handle (lit "/app") (CreateEmbeddings demo_ingest) after_upload).1).
  apply step_handle.
Defined.

Lemma reachable_wf_collection_witness :
  reachable (lit "/app") after_ingest ∧ wf_collection after_ingest.
Proof.
  split; [apply after_ingest_reachable|].
  apply (reachable_wf_collection (lit "/app")). apply after_ingest_reachable.
Defined.

Lemma predict_response_always_fails_witness :
  (handle (lit "/app") (GetQueryResponse demo_query) after_ingest).1 =
    InferenceResponse (inference_output 500 [] (lit "name 'doc_id' is not defined")) ∧
  (handle (lit "/app") (GetQueryResponse demo_query) after_ingest).2 = after_ingest.
Proof.
  apply (predict_response_always_fails (lit "/app") after_ingest demo_query). apply step_handle.
Defined.

Lemma create_embeddings_status_witness :
  ∃ out, (handle (lit "/app") (CreateEmbeddings demo_ingest) after_upload).1 = InferenceResponse out ∧
  ((InferenceOutput.status_code out = 200%Z ∧
    ∃ df, collection after_ingest = collection after_upload ++
            [build_emb_obj (CreateEmbeddingData.doc_id demo_ingest) df]) ∨
   (InferenceOutput.status_code out ∈ [400; 500]%Z ∧ collection after_ingest = collection after_upload)).
Proof.
  apply (create_embeddings_status (lit "/app") after_upload demo_ingest). apply step_handle.
Defined.
End Witnesses.

(** ** Witness: a provider that drops the last input of every batch *)
Section ShortWitness.

Definition short_provider : EmbeddingAPI nat := {|
  Embedding_create := λ _ batch, Ok (imap (λ i s, mk_embedding_item nat i (length s)) (removelast batch))
|}.
#[local] Existing Instance short_provider.

Lemma short_provider_short : ∀ batch, batch ≠ [] → ∃ items,
  Embedding_create EMBEDDING_MODEL batch = Ok items ∧
  map index items = seq 0 (length items) ∧ length items < length batch.
Proof.
  intros batch Hne. eexists. split; [reflexivity|]. rewrite length_imap. split.
  - by apply map_imap_index.
  - destruct (exists_last Hne) as (l & a & ->). rewrite removelast_last, length_app. simpl. lia.
Qed.

Lemma create_embeddings_short_provider_witness :
  files after_upload !! os_normpath (CreateEmbeddingData.source_file_path demo_ingest) =
    Some (PdfFile [lit "hello"; lit "world"]) ∧
  (handle (lit "/app") (CreateEmbeddings demo_ingest) after_upload).1 =
    InferenceResponse (inference_output 400 [] (lit "All arrays must be of the same length")) ∧
  collection (handle (lit "/app") (CreateEmbeddings demo_ingest) after_upload).2 =
    collection after_upload.
Proof.
  split; [reflexivity|].
  apply (create_embeddings_short_provider (lit "/app") short_provider_short after_upload demo_ingest
           [lit "hello"; lit "world"]); [reflexivity|apply step_handle].
Defined.
End ShortWitness.

Section PipelineWitness.
#[local] Existing Instance length_provider.

Lemma create_embeddings_pipeline_witness :
  files after_upload !! os_normpath (CreateEmbeddingData.source_file_path demo_ingest) =
    Some (PdfFile [lit "hello"; lit "world"]) ∧
  (handle (lit "/app") (CreateEmbeddings demo_ingest) after_upload).1 =
    InferenceResponse (inference_output 200 (lit "Embedding table created successfully") (lit "Success")) ∧
  (handle (lit "/app") (CreateEmbeddings demo_ingest) after_upload).2 =
    mk_svc_state (delete (os_normpath (CreateEmbeddingData.source_file_path demo_ingest)) (files after_upload))
      (collection after_upload ++ [mk_emb_obj (CreateEmbeddingData.doc_id demo_ingest)
         (imap (λ i c, mk_text_chunk i c (length c))
            (split_into_chunks (py_join [NL; NL] [lit "hello"; lit "world"])).1)])
      (stdout after_upload ++
       [TextExtracted; PdfDeleted (CreateEmbeddingData.source_file_path demo_ingest)] ++
       (split_into_chunks (py_join [NL; NL] [lit "hello"; lit "world"])).2 ++
       map (batch_line (length (split_into_chunks (py_join [NL; NL] [lit "hello"; lit "world"])).1))
         (py_range_step 0 (length (split_into_chunks (py_join [NL; NL] [lit "hello"; lit "world"])).1)
            BATCH_SIZE) ++
       [SavedToMongo]).
Proof.
  split; [reflexivity|].
  eapply (create_embeddings_pipeline (lit "/app") length _ after_upload demo_ingest
            [lit "hello"; lit "world"]); [reflexivity|apply step_handle].
  Unshelve. intros. reflexivity.
Defined.

Lemma eventually_stored_witness :
  (∀ batch, Embedding_create EMBEDDING_MODEL batch =
     Ok (imap (λ i s, mk_embedding_item nat i (length s)) batch)) ∧
  is_dir_key (os_normpath (upload_destination (lit "a.pdf"))) = false ∧
  eventually (lit "/app") (λ s', mk_emb_obj (lit "doc-1") (imap (λ i c, mk_text_chunk i c (length c))
      (split_into_chunks (py_join [NL; NL] [lit "hello"; lit "world"])).1) ∈ collection s')
    init_state.
Proof.
  split; [intros; reflexivity|]. split; [reflexivity|].
  eapply (eventually_stored (lit "/app") length _ init_state (lit "a.pdf")).
  - reflexivity.
  Unshelve. intros. reflexivity.
Defined.
End PipelineWitness.
