(* ===== verification/Pipeline.v ===== *)
(** Composition of the two halves of the service: what a query on a
    document reads once the document has gone through [/upload-file] and
    [/create-embeddings] of [src/main.py].  The ingestion side is [handle]
    of [Api.v] (which runs [generate_embeddings]), the query side is
    [strings_ranked_by_similarity] and [get_query_response] of
    [src/ai-compendium/api/predict_response.py] run on the collection the
    ingestion left (the HTTP route to it always fails, see [Api.v], so the
    query function is called directly, as the spec describes it). *)

From S2P Require Import Prelude Config Paths Tokenizer Chunker StableSort ListSort Store Providers Ranker State Ingest Query Api.
From stdpp Require Import gmap.

Section IngestThenQuery.
Context {V K : Type} `{EmbeddingAPI V} `{ChatAPI} `{Tiktoken} (lt : K → K → bool).
Context (BASE_DIR : str) (embed : str → V).
Hypothesis provider_faithful : ∀ batch,
  Embedding_create EMBEDDING_MODEL batch = Ok (imap (λ i s, mk_embedding_item V i (embed s)) batch).

(** The state after [POST /upload-file] of a PDF named [name] and
    [POST /create-embeddings] on the path the upload answered. *)
Definition ingested (s : svc_state V) (name : str) (pages : list str) (doc_id : str) : svc_state V :=
  let s1 := (handle BASE_DIR (Upload (mk_upload name (PdfFile pages))) s).2 in
  (handle BASE_DIR (CreateEmbeddings (CreateEmbeddingData.mk (upload_destination name) doc_id)) s1).2.

(** The chunks of a PDF, as [generate_embeddings] cuts its text. *)
Definition pdf_chunks (pages : list str) : list str := (split_into_chunks (py_join [NL; NL] pages)).1.

(** The upload names a file, not one of the directories of [is_dir_key]. *)
Definition names_file (name : str) : Prop := is_dir_key (os_normpath (upload_destination name)) = false.

Lemma ingested_collection s name pages doc_id :
  names_file name →
  collection (ingested s name pages doc_id) =
    collection s ++ [mk_emb_obj doc_id (imap (λ i c, mk_text_chunk i c (embed c)) (pdf_chunks pages))].
Proof.
  intros Hfile. unfold ingested.
  set (s1 := (handle BASE_DIR (Upload (mk_upload name (PdfFile pages))) s).2).
  set (d := CreateEmbeddingData.mk (upload_destination name) doc_id).
  destruct (create_embeddings_pipeline_run BASE_DIR embed provider_faithful s1 d pages
              (handle BASE_DIR (CreateEmbeddings d) s1).1 (handle BASE_DIR (CreateEmbeddings d) s1).2)
    as [_ ->]; [|apply step_handle|]; subst s1 d; rewrite upload_write by done; [|done].
  cbn. by rewrite lookup_insert_eq.
Qed.

Lemma find_ingested s name pages doc_id :
  names_file name →
  Store.find (collection (ingested s name pages doc_id)) doc_id =
    Store.find (collection s) doc_id ++ [mk_emb_obj doc_id (imap (λ i c, mk_text_chunk i c (embed c)) (pdf_chunks pages))].
Proof. intros Hfile. rewrite ingested_collection by done. by apply (find_insert_one (collection s)). Qed.

Lemma scored_imap (rel : V → V → K) q (g : nat → str → text_chunk V) cs :
  (∀ i c, text (g i c) = c ∧ embedding (g i c) = embed c) →
  map (λ c, (text c, rel q (embedding c))) (imap g cs) = map (λ c, (c, rel q (embed c))) cs.
Proof.
  revert g. induction cs as [|c cs IH]; intros g Hg; [done|].
  simpl. destruct (Hg 0 c) as [-> ->]. f_equal. apply IH. intros. apply Hg.
Qed.

Lemma query_embedding_faithful query :
  Embedding_create EMBEDDING_MODEL [query] = Ok [mk_embedding_item V 0 (embed query)].
Proof. by rewrite provider_faithful. Qed.

(** The ranked chunks of a freshly ingested PDF, scored against [q]. *)
Definition ranked_chunks (rel : V → V → K) (q : V) (pages : list str) : list (str * K) :=
  list_sort_desc snd lt (map (λ c, (c, rel q (embed c))) (pdf_chunks pages)).

Lemma rank_ingested s name pages doc_id query rel top_n :
  names_file name → Store.find (collection s) doc_id = [] →
  strings_ranked_by_similarity lt query (Store.find (collection (ingested s name pages doc_id)) doc_id) rel top_n =
    Ok (take top_n (map fst (ranked_chunks rel (embed query) pages)),
        take top_n (map snd (ranked_chunks rel (embed query) pages))).
Proof.
  intros Hfile Hnone. rewrite find_ingested, Hnone by done. unfold strings_ranked_by_similarity, ranked_chunks.
  rewrite query_embedding_faithful. cbn [mbind result_bind py_index0 app text_chunks item_embedding].
  rewrite (scored_imap rel (embed query)) by done.
  destruct (list_sort_desc snd lt _) as [|p ps] eqn:Hs; [|done].
  apply (f_equal length) in Hs. rewrite (Permutation_length (list_sort_desc_perm _ _ _)), length_map in Hs.
  by destruct (pdf_chunks pages) eqn:Hc; [destruct (split_into_chunks_not_nil (py_join [NL; NL] pages))|].
Qed.

(** C32. Ingestion and ranking compose: after the first ingestion of a PDF
    under [doc_id] (no record for it before), ranking a query against
    that document scores exactly the chunks [split_into_chunks] cut from
    the PDF's text, each by the relatedness of the query's embedding to
    the chunk's, and returns the first [top_n] of them in the stable order
    of decreasing score; it never raises. *)
Theorem ingest_then_rank (s : svc_state V) (name : str) (pages : list str) (doc_id query : str)
    (rel : V → V → K) (top_n : nat) :
  names_file name → Store.find (collection s) doc_id = [] →
  strings_ranked_by_similarity lt query (Store.find (collection (ingested s name pages doc_id)) doc_id) rel top_n =
    Ok (take top_n (map fst (list_sort_desc snd lt (map (λ c, (c, rel (embed query) (embed c))) (pdf_chunks pages)))),
        take top_n (map snd (list_sort_desc snd lt (map (λ c, (c, rel (embed query) (embed c))) (pdf_chunks pages))))).
Proof. apply rank_ingested. Qed.

(** C33. The whole question-answering path after ingestion, on every
    branch: after the first ingestion of a PDF under [doc_id],
    [get_query_response] builds the prompt from the [TOP_K] best ranked
    chunks of that PDF that fit the budget, prints it when asked, and
    returns the chat model's first choice (the sentinel translated),
    raises [IndexError] when the model returns no choice, and lets the
    model's failure through; the printed lines are the same on every
    branch. *)
Theorem ingest_then_answer (s : svc_state V) (name : str) (pages : list str) (doc_id query : str)
    (rel : V → V → K) (model : str) (budget : nat) (pm : bool) (out : list printed) :
  names_file name → Store.find (collection s) doc_id = [] →
  let prompt := add_articles model budget (question_of query) introduction
                  (take TOP_K (map fst (ranked_chunks rel (embed query) pages))) ++ question_of query in
  let out' := if pm then out ++ [QueryMessage prompt] else out in
  get_query_response lt rel query doc_id (collection (ingested s name pages doc_id)) model budget pm out =
    match ChatCompletion_create model [(lit "system", SYSTEM_PROMPT); (lit "user", prompt)] 0 with
    | Ok (c :: _) => (Ok (translate_answer c), out')
    | Ok [] => (Raise (IndexError (lit "list index out of range")), out')
    | Raise e => (Raise e, out')
    end.
Proof.
  intros Hfile Hnone prompt out'. unfold get_query_response, query_message.
  rewrite (rank_ingested s name pages doc_id query rel TOP_K Hfile Hnone), !pyst_bind_run.
  cbn [mbind result_bind mret result_ret lift_result]. fold prompt.
  unfold print_query_message. fold out'. rewrite !pyst_bind_run.
  destruct (ChatCompletion_create _ _ _) as [[|c cs]|e]; reflexivity.
Qed.

End IngestThenQuery.

(** * Witnesses: a two-page PDF, character embeddings (the length of the
    text), chunks scored by their own embedding, a chat model that always
    answers ["42"]. *)
Section Witnesses.
#[local] Existing Instance length_provider.
#[local] Instance answer_chat : ChatAPI := {| ChatCompletion_create := λ _ _ _, Ok [lit "42"] |}.

Definition demo_pages : list str := [lit "hello"; lit "world"].

Lemma ingest_then_rank_witness :
  names_file (lit "a.pdf") ∧
  Store.find (collection (init_state (V := nat))) (lit "d1") = [] ∧
  strings_ranked_by_similarity Nat.ltb (lit "q")
    (Store.find (collection (ingested (lit "/app") init_state (lit "a.pdf") demo_pages (lit "d1"))) (lit "d1"))
    (λ _ e, e) 2 =
  Ok (take 2 (map fst (list_sort_desc snd Nat.ltb (map (λ c, (c, length c)) (pdf_chunks demo_pages)))),
      take 2 (map snd (list_sort_desc snd Nat.ltb (map (λ c, (c, length c)) (pdf_chunks demo_pages))))).
Proof.
  split; [reflexivity|]. split; [reflexivity|].
  eapply (ingest_then_rank Nat.ltb (lit "/app") length _ init_state (lit "a.pdf") demo_pages (lit "d1") (lit "q"));
    reflexivity.
  Unshelve. intros. reflexivity.
Defined.

Lemma ingest_then_answer_witness :
  names_file (lit "a.pdf") ∧
  Store.find (collection (init_state (V := nat))) (lit "d1") = [] ∧
  ∃ prompt, get_query_response Nat.ltb (λ _ e, e) (lit "q") (lit "d1")
    (collection (ingested (lit "/app") init_state (lit "a.pdf") demo_pages (lit "d1")))
    ANSWERING_MODEL DEFAULT_TOKEN_BUDGET true [] = (Ok (lit "42"), [QueryMessage prompt]).
Proof.
  split; [reflexivity|]. split; [reflexivity|]. eexists.
  erewrite (ingest_then_answer Nat.ltb (lit "/app") length _ init_state (lit "a.pdf") demo_pages (lit "d1")
              (lit "q") (λ _ e, e) ANSWERING_MODEL DEFAULT_TOKEN_BUDGET true []); [|reflexivity|reflexivity].
  cbn -[add_articles ranked_chunks question_of introduction]. reflexivity.
  Unshelve. intros. reflexivity.
Defined.
End Witnesses.
